(** * BEVTransformer: reference points, ego-motion shift, feature flattening

    A shallow embedding of
    [projects/mmdet3d_plugin/models/modules/bev_transformer.py]
    (function [inverse_sigmoid] and class [BEVTransformer]).

    Conventions of the embedding:
    - floating-point tensors hold real numbers ([R]); [np.sqrt], [np.sin],
      [np.cos], [torch.log] and the logistic function are the functions of
      the same name of the real-number library;
    - a tensor is its shape together with the function from a multi-index
      to the entry stored there; the tensor operations of the source
      ([view], [expand], [permute], [flatten], [stack], [repeat], [cat],
      broadcasting [+]) are written once, generically in the rank;
    - a Python exception is the [Raise] branch of the [result] type;
    - [torch.long] tensors hold integers wrapped to 64 bits;
    - sub-modules with learned weights ([encoder], [decoder],
      [can_bus_mlp], the [reference_points] linear layer) are opaque
      functions stored in the module record, and torchvision's [rotate]
      is a parameter of the development. *)

From Stdlib Require Import String.
From Stdlib Require Import Reals Lra Lia ZArith Bool Arith List.
Import ListNotations.

Open Scope R_scope.

(** ** Exceptions *)

Inductive exn : Type :=
  | IndexError
  | ValueError
  | RuntimeError
  | AttributeError.

Inductive result (A : Type) : Type :=
  | Ok (a : A)
  | Raise (e : exn).

Arguments Ok {A} a.
Arguments Raise {A} e.

Definition bind {A B : Type} (m : result A) (f : A -> result B) : result B :=
  match m with
  | Ok a => f a
  | Raise e => Raise e
  end.

Definition fmap {A B : Type} (f : A -> B) (m : result A) : result B :=
  bind m (fun a => Ok (f a)).

Declare Scope result_scope.
Delimit Scope result_scope with result.
Notation "x <- m ;; k" := (bind m (fun x => k))
  (at level 61, m at next level, right associativity) : result_scope.
Notation "' p <- m ;; k" := (bind m (fun x => match x with p => k end))
  (at level 61, p pattern, m at next level, right associativity) : result_scope.

Definition raises {A : Type} (m : result A) : bool :=
  match m with
  | Ok _ => false
  | Raise _ => true
  end.

(** ** Python values used as option flags

    [use_shift] and [rotate_prev_bev] are documented as booleans but are
    compared with a sentinel string, so the embedding keeps the dynamic
    type. *)

Inductive pyval : Type :=
  | PyNone
  | PyBool (b : bool)
  | PyInt (n : Z)
  | PyStr (s : string).

(** Python truth value ([if v:]). *)
Definition truthy (v : pyval) : bool :=
  match v with
  | PyNone => false
  | PyBool b => b
  | PyInt n => negb (Z.eqb n 0)
  | PyStr s => negb (String.eqb s EmptyString)
  end.

(** [v == 'literal'] for a string literal on the right. *)
Definition py_eq_str (v : pyval) (lit : string) : bool :=
  match v with
  | PyStr s => String.eqb s lit
  | _ => false
  end.

(** [l[i]] with Python's negative indices. *)
Definition py_index {A : Type} (l : list A) (i : Z) : result A :=
  let n := Z.of_nat (length l) in
  let j := if (i <? 0)%Z then (n + i)%Z else i in
  if ((0 <=? j) && (j <? n))%Z
  then match nth_error l (Z.to_nat j) with
       | Some a => Ok a
       | None => Raise IndexError
       end
  else Raise IndexError.

(** ** [inverse_sigmoid] *)

Definition sigmoid (x : R) : R := 1 / (1 + exp (- x)).

(** [x.clamp(min=lo)] *)
Definition clamp_min (x lo : R) : R := Rmax x lo.

(** [x.clamp(min=lo, max=hi)] *)
Definition clamp (x lo hi : R) : R := Rmin (Rmax x lo) hi.

Definition default_eps : R := 1 / 100000.

(** The two clamped operands of the quotient, in the order of the source. *)
Definition inverse_sigmoid_x1 (x eps : R) : R :=
  let x := clamp x 0 1 in
  clamp_min x eps.

Definition inverse_sigmoid_x2 (x eps : R) : R :=
  let x := clamp x 0 1 in
  clamp_min (1 - x) eps.

Definition inverse_sigmoid (x eps : R) : R :=
  let x1 := inverse_sigmoid_x1 x eps in
  let x2 := inverse_sigmoid_x2 x eps in
  ln (x1 / x2).

(** ** Tensors *)

Record tensor : Type := mkT {
  shape : list nat;
  item : list nat -> R
}.

Definition prod (sh : list nat) : nat := fold_right Nat.mul 1%nat sh.

Definition numel (t : tensor) : nat := prod (shape t).

Definition rank (t : tensor) : nat := length (shape t).

(** Row-major position of a multi-index. *)
Fixpoint ravel_from (acc : nat) (sh idx : list nat) : nat :=
  match sh, idx with
  | d :: sh', i :: idx' => ravel_from (acc * d + i) sh' idx'
  | _, _ => acc
  end.

Definition ravel (sh idx : list nat) : nat := ravel_from 0 sh idx.

(** Multi-index of a row-major position. *)
Fixpoint unravel (sh : list nat) (n : nat) : list nat :=
  match sh with
  | [] => []
  | d :: sh' =>
      match sh' with
      | [] => [n]
      | _ => (n / prod sh')%nat :: unravel sh' (n mod prod sh')
      end
  end.

Fixpoint map2 {A B C : Type} (f : A -> B -> C) (l1 : list A) (l2 : list B) : list C :=
  match l1, l2 with
  | a :: l1', b :: l2' => f a b :: map2 f l1' l2'
  | _, _ => []
  end.

(** A size list as written in the source: [-1] stands for the one inferred
    dimension. *)
Definition known_prod (spec : list Z) : nat :=
  prod (map Z.to_nat (filter (fun z => negb (Z.eqb z (-1))) spec)).

Definition infer_sizes (spec : list Z) (n : nat) : list nat :=
  map (fun z => if Z.eqb z (-1) then (n / known_prod spec)%nat else Z.to_nat z) spec.

(** [t.view(sh)] / [t.reshape(sh)] once the sizes are known: same entries
    in row-major order. *)
Definition view_as (t : tensor) (sh : list nat) : tensor :=
  mkT sh (fun idx => item t (unravel (shape t) (ravel sh idx))).

(** [t.view(spec)] where the sizes fit by construction. *)
Definition view (t : tensor) (spec : list Z) : tensor :=
  view_as t (infer_sizes spec (numel t)).

(** [t.reshape(spec)] on a tensor whose size is not known statically:
    raises when the sizes do not fit. *)
Definition reshape (t : tensor) (spec : list Z) : result tensor :=
  let wild := count_occ Z.eq_dec spec (-1)%Z in
  let known := known_prod spec in
  if (wild =? 0)%nat then
    if (known =? numel t)%nat then Ok (view_as t (map Z.to_nat spec))
    else Raise RuntimeError
  else if (wild =? 1)%nat then
    if ((0 <? known) && (numel t mod known =? 0))%nat
    then Ok (view t spec)
    else Raise RuntimeError
  else Raise RuntimeError.

(** Index into a dimension of size 1 that is being broadcast. *)
Definition bcast_index (sh idx : list nat) : list nat :=
  map2 (fun d i => if (d =? 1)%nat then 0%nat else i) sh idx.

(** [t.expand(sizes)], same rank. *)
Definition expand (t : tensor) (sizes : list nat) : tensor :=
  mkT sizes (fun idx => item t (bcast_index (shape t) idx)).

(** [t / c] *)
Definition div_scalar (t : tensor) (c : R) : tensor :=
  mkT (shape t) (fun idx => item t idx / c).

(** [torch.stack(ts, -1)] *)
Definition stack_last (ts : list tensor) : tensor :=
  mkT (match ts with
       | [] => []
       | t :: _ => shape t ++ [length ts]
       end)
      (fun idx => item (nth (last idx 0%nat) ts (mkT [] (fun _ => 0))) (removelast idx)).

Fixpoint index_of (j : nat) (perm : list nat) : nat :=
  match perm with
  | [] => 0%nat
  | p :: perm' => if (p =? j)%nat then 0%nat else S (index_of j perm')
  end.

(** [t.permute(perm)]: axis [k] of the result is axis [perm[k]] of [t]. *)
Definition permute (t : tensor) (perm : list nat) : tensor :=
  mkT (map (fun p => nth p (shape t) 0%nat) perm)
      (fun idx => item t (map (fun j => nth (index_of j perm) idx 0%nat)
                              (seq 0 (length perm)))).

(** [t.flatten(k)]: the axes from [k] on become one.  Meant for [k] below
    the rank of [t]: beyond it PyTorch raises [IndexError], a case the
    statements about [forward] exclude by fixing the ranks. *)
Definition flatten (t : tensor) (k : nat) : tensor :=
  mkT (firstn k (shape t) ++ [prod (skipn k (shape t))])
      (fun idx => item t (firstn k idx ++ unravel (skipn k (shape t)) (nth k idx 0%nat))).

(** [t.unsqueeze(k)]; [t[None]] is [unsqueeze t 0]. *)
Definition unsqueeze (t : tensor) (k : nat) : tensor :=
  mkT (firstn k (shape t) ++ 1%nat :: skipn k (shape t))
      (fun idx => item t (firstn k idx ++ skipn (S k) idx)).

(** [t.repeat(reps)], same rank.  Meant for as many repeat arguments as
    [t] has axes: with fewer PyTorch raises [RuntimeError]. *)
Definition repeat_t (t : tensor) (reps : list nat) : tensor :=
  mkT (map2 Nat.mul reps (shape t))
      (fun idx => item t (map2 (fun d i => (i mod d)%nat) (shape t) idx)).

(** [torch.linspace(start, stop, steps)] *)
Definition linspace (start stop : R) (steps : nat) : tensor :=
  mkT [steps]
      (fun idx =>
         let i := nth 0 idx 0%nat in
         if (steps =? 1)%nat then start
         else start + INR i * ((stop - start) / (INR steps - 1))).

(** [torch.meshgrid(a, b)] (matrix indexing). *)
Definition meshgrid (a b : tensor) : tensor * tensor :=
  let sh := [numel a; numel b] in
  (mkT sh (fun idx => item a [nth 0 idx 0%nat]),
   mkT sh (fun idx => item b [nth 1 idx 0%nat])).

(** ** [BEVTransformer.get_reference_points]

    [None] stands for Python's implicit [return None] when [dim] is
    neither ['3d'] nor ['2d']. *)

Definition get_reference_points (H W : nat) (Z : R) (D : nat) (dim : string) (bs : nat)
  : option tensor :=
  if String.eqb dim "3d" then
    let zs := div_scalar
                (expand (view (linspace 0.5 (Z - 0.5) D) [-1; 1; 1]%Z) [D; H; W]) Z in
    let xs := div_scalar
                (expand (view (linspace 0.5 (INR W - 0.5) W) [1; 1; Z.of_nat W]%Z) [D; H; W])
                (INR W) in
    let ys := div_scalar
                (expand (view (linspace 0.5 (INR H - 0.5) H) [1; Z.of_nat H; 1]%Z) [D; H; W])
                (INR H) in
    let ref_3d := stack_last [xs; ys; zs] in
    let ref_3d := permute (flatten (permute ref_3d [0; 3; 1; 2]%nat) 2) [0; 2; 1]%nat in
    let ref_3d := repeat_t (unsqueeze ref_3d 0) [bs; 1; 1; 1]%nat in
    Some ref_3d
  else if String.eqb dim "2d" then
    let '(ref_y, ref_x) := meshgrid (linspace 0.5 (INR H - 0.5) H)
                                    (linspace 0.5 (INR W - 0.5) W) in
    let ref_y := div_scalar (unsqueeze (view ref_y [-1]%Z) 0) (INR H) in
    let ref_x := div_scalar (unsqueeze (view ref_x [-1]%Z) 0) (INR W) in
    let ref_2d := stack_last [ref_x; ref_y] in
    let ref_2d := unsqueeze (repeat_t ref_2d [bs; 1; 1]%nat) 2 in
    Some ref_2d
  else None.

(** The points of batch element [b] of a [(bs, D, N, 3)] or [(bs, N, 1, 2)]
    tensor, in storage order: one list of coordinates per point. *)
Definition points_of (t : tensor) (b : nat) : list (list R) :=
  match shape t with
  | [_; n1; n2; c] =>
      flat_map (fun i =>
        map (fun j => map (fun k => item t [b; i; j; k]) (seq 0 c)) (seq 0 n2))
        (seq 0 n1)
  | _ => []
  end.

(** ** More tensor operations, with the checks [torch] performs on shapes
    that are only known at run time *)

(** [t.size(k)] / [t.shape[k]] *)
Definition size (t : tensor) (k : nat) : result nat :=
  match nth_error (shape t) k with
  | Some d => Ok d
  | None => Raise IndexError
  end.

(** [t.permute(perm)] on a tensor of unknown rank. *)
Definition permute_checked (t : tensor) (perm : list nat) : result tensor :=
  if (length perm =? rank t)%nat then Ok (permute t perm) else Raise RuntimeError.

(** [t.new_tensor(l)] for a flat list. *)
Definition tensor_of_list (l : list R) : tensor :=
  mkT [length l] (fun idx => nth (nth 0 idx 0%nat) l 0).

(** Pointwise application, e.g. [t.sigmoid()]. *)
Definition map_t (f : R -> R) (t : tensor) : tensor :=
  mkT (shape t) (fun idx => f (item t idx)).

(** [t * c] *)
Definition mul_scalar (t : tensor) (c : R) : tensor :=
  map_t (fun x => x * c) t.

(** [t[lo:hi]] on the first axis; Python clips the bounds to the size. *)
Definition slice_rows (t : tensor) (lo hi : nat) : tensor :=
  match shape t with
  | [] => t
  | n :: sh => mkT ((Nat.min hi n - Nat.min lo n)%nat :: sh)
                   (fun idx => match idx with
                               | [] => item t []
                               | i :: idx' => item t ((Nat.min lo n + i)%nat :: idx')
                               end)
  end.

(** Broadcasting of two shapes, aligned on the last axis. *)
Fixpoint broadcast_rev (r1 r2 : list nat) : option (list nat) :=
  match r1, r2 with
  | [], r => Some r
  | r, [] => Some r
  | d1 :: r1', d2 :: r2' =>
      match broadcast_rev r1' r2' with
      | Some r =>
          if (d1 =? d2)%nat then Some (d1 :: r)
          else if (d1 =? 1)%nat then Some (d2 :: r)
          else if (d2 =? 1)%nat then Some (d1 :: r)
          else None
      | None => None
      end
  end.

Definition broadcast_shape (s1 s2 : list nat) : option (list nat) :=
  option_map (@rev nat) (broadcast_rev (rev s1) (rev s2)).

(** The index of the operand entry that takes part in entry [idx] of a
    broadcast result. *)
Definition operand_index (sh idx : list nat) : list nat :=
  bcast_index sh (skipn (length idx - length sh) idx).

(** [a + b] with broadcasting. *)
Definition add_t (a b : tensor) : result tensor :=
  match broadcast_shape (shape a) (shape b) with
  | Some sh =>
      Ok (mkT sh (fun idx => item a (operand_index (shape a) idx)
                             + item b (operand_index (shape b) idx)))
  | None => Raise RuntimeError
  end.

Fixpoint set_nth (k : nat) (v : nat) (l : list nat) : list nat :=
  match l, k with
  | [], _ => []
  | _ :: l', O => v :: l'
  | x :: l', S k' => x :: set_nth k' v l'
  end.

Definition same_except (k : nat) (s1 s2 : list nat) : bool :=
  if list_eq_dec Nat.eq_dec (set_nth k 0%nat s1) (set_nth k 0%nat s2) then true else false.

(** [torch.cat((a, b), k)] *)
Definition cat_pair (k : nat) (a b : tensor) : result tensor :=
  if ((k <? rank a) && same_except k (shape a) (shape b))%nat then
    let da := nth k (shape a) 0%nat in
    let db := nth k (shape b) 0%nat in
    Ok (mkT (set_nth k (da + db)%nat (shape a))
            (fun idx =>
               let i := nth k idx 0%nat in
               if (i <? da)%nat then item a idx
               else item b (set_nth k (i - da)%nat idx)))
  else Raise RuntimeError.

(** [torch.cat(ts, k)] *)
Fixpoint cat (ts : list tensor) (k : nat) : result tensor :=
  match ts with
  | [] => Raise RuntimeError
  | t :: ts' =>
      match ts' with
      | [] => if (k <? rank t)%nat then Ok t else Raise IndexError
      | _ => bind (cat ts' k) (cat_pair k t)
      end
  end.

(** [t[:, lo:lo+len]] on a matrix. *)
Definition narrow_cols (t : tensor) (lo len : nat) : tensor :=
  mkT [nth 0 (shape t) 0%nat; len]
      (fun idx => item t [nth 0 idx 0%nat; (lo + nth 1 idx 0%nat)%nat]).

(** [a, b = torch.split(t, n, dim=1)]: the unpacking needs exactly two
    chunks.  Meant for a two-axis [t]: on other ranks PyTorch fails inside
    [torch.split] with [IndexError] or [RuntimeError], not at the
    unpacking. *)
Definition split2 (t : tensor) (n : nat) : result (tensor * tensor) :=
  match shape t with
  | [_; w] =>
      if ((n <? w) && (w <=? 2 * n))%nat
      then Ok (narrow_cols t 0 n, narrow_cols t n (w - n))
      else Raise ValueError
  | _ => Raise ValueError
  end.

(** ** 64-bit integer tensors ([torch.long]) *)

Definition wrap64 (z : Z) : Z := ((z + 2 ^ 63) mod 2 ^ 64 - 2 ^ 63)%Z.

(** [spatial_shapes.prod(1)] *)
Definition prod1 (ss : list (Z * Z)) : list Z :=
  map (fun hw => wrap64 (fst hw * snd hw)) ss.

(** [v.cumsum(0)] *)
Fixpoint cumsum_from (acc : Z) (l : list Z) : list Z :=
  match l with
  | [] => []
  | x :: l' => let s := wrap64 (acc + x) in s :: cumsum_from s l'
  end.

Definition cumsum (l : list Z) : list Z := cumsum_from 0%Z l.

(** [torch.as_tensor(spatial_shapes, dtype=torch.long)]; the entries are
    sizes of existing tensors, which the conversion stores as they are. *)
Definition as_long_tensor (ss : list (nat * nat)) : list (Z * Z) :=
  map (fun hw => (Z.of_nat (fst hw), Z.of_nat (snd hw))) ss.

(** [torch.cat((spatial_shapes.new_zeros((1,)),
               spatial_shapes.prod(1).cumsum(0)[:-1]))] *)
Definition level_start_index (spatial_shapes : list (Z * Z)) : list Z :=
  [0%Z] ++ removelast (cumsum (prod1 spatial_shapes)).

(** ** Ego-motion shift *)

(** [np.arctan2(y, x)]: the angle in (-PI, PI] of the point [(x, y)]. *)
Definition arctan2 (y x : R) : R :=
  if Rlt_dec 0 x then atan (y / x)
  else if Rlt_dec x 0 then
    if Rle_dec 0 y then atan (y / x) + PI else atan (y / x) - PI
  else if Rlt_dec 0 y then PI / 2
  else if Rlt_dec y 0 then - (PI / 2)
  else 0.

(** The [grid_length] argument: a number, or a tuple (y first). *)
Inductive grid_length_t : Type :=
  | GridScalar (g : R)
  | GridTuple (g : list R).

Definition grid_lengths (grid_length : grid_length_t) : result (R * R) :=
  match grid_length with
  | GridScalar g => Ok (g, g)
  | GridTuple g =>
      bind (py_index g 0) (fun grid_length_y =>
      bind (py_index g 1) (fun grid_length_x =>
      Ok (grid_length_x, grid_length_y)))
  end.

(** The four scalars read from [kwargs['img_metas'][0]['can_bus']]. *)
Record ego_motion : Type := {
  delta_x : R;
  delta_y : R;
  ego_angle : R;       (* degrees *)
  rotation_angle : R
}.

Definition read_ego_motion (can_bus : list R) : result ego_motion :=
  bind (py_index can_bus 0) (fun dx =>
  bind (py_index can_bus 1) (fun dy =>
  bind (py_index can_bus (-2)) (fun heading =>
  bind (py_index can_bus (-1)) (fun rot =>
  Ok {| delta_x := dx; delta_y := dy;
        ego_angle := heading / PI * 180;
        rotation_angle := rot |})))).

Definition translation_length (delta_x delta_y : R) : R :=
  sqrt (delta_x ^ 2 + delta_y ^ 2).

Definition translation_angle (delta_x delta_y : R) : R :=
  let translation_angle := arctan2 delta_y delta_x / PI * 180 in
  if Rlt_dec translation_angle 0 then translation_angle + 360
  else translation_angle.

(** Lines 259-276 of [forward]: the pair [(shift_x, shift_y)]. *)
Definition compute_shift (use_shift : pyval) (delta_x delta_y ego_angle : R)
    (grid_length_x grid_length_y : R) (bev_h bev_w : nat) : R * R :=
  let translation_length := translation_length delta_x delta_y in
  let translation_angle := translation_angle delta_x delta_y in
  let bev_angle := ego_angle - translation_angle in
  if py_eq_str use_shift "waymo_shift" then
    let shift_y := translation_length * sin (bev_angle / 180 * PI)
                   / grid_length_y / INR bev_h in
    let shift_x := translation_length * cos (bev_angle / 180 * PI)
                   / grid_length_x / INR bev_w in
    (shift_x, shift_y)
  else if truthy use_shift then
    let shift_y := translation_length * cos (bev_angle / 180 * PI)
                   / grid_length_y / INR bev_h in
    let shift_x := translation_length * sin (bev_angle / 180 * PI)
                   / grid_length_x / INR bev_w in
    (shift_x, shift_y)
  else
    let shift_y := 0 in
    let shift_x := 0 in
    (shift_x, shift_y).

(** ** The module and its [forward] *)

Section Forward.

(** Python objects that [forward] only hands on ([reg_branches],
    [gt_bboxes_3d], further keyword arguments, the encoder's
    [key_padding_mask]). *)
Context {pyobj : Type}.

(** The entries of [torchvision.transforms.functional.rotate(img, angle,
    center=center)]; the result has the shape of [img]. *)
Variable rotate_values : tensor -> R -> option (list R) -> list nat -> R.

Definition rotate (img : tensor) (angle : R) (center : option (list R)) : tensor :=
  mkT (shape img) (rotate_values img angle center).

Record img_meta : Type := {
  can_bus : list R
}.

(** [**kwargs] *)
Record kwargs_t : Type := {
  img_metas : list img_meta;
  other_kwargs : pyobj
}.

(** The arguments of [self.encoder(...)], in the order of the call. *)
Record encoder_call : Type := {
  enc_query : tensor;
  enc_key : tensor;
  enc_value : tensor;
  enc_ref_2d : option tensor;
  enc_ref_3d : option tensor;
  enc_bev_h : nat;
  enc_bev_w : nat;
  enc_bev_pos : tensor;
  enc_spatial_shapes : list (Z * Z);
  enc_level_start_index : list Z;
  enc_prev_bev : option tensor;
  enc_shift : tensor;
  enc_gt_bboxes_3d : pyobj;
  enc_kwargs : kwargs_t
}.

(** The arguments of [self.decoder(...)]; [key] is always [None]. *)
Record decoder_call : Type := {
  dec_query : tensor;
  dec_value : tensor;
  dec_query_pos : tensor;
  dec_reference_points : tensor;
  dec_reg_branches : pyobj;
  dec_spatial_shapes : list (Z * Z);
  dec_level_start_index : list Z;
  dec_key_padding_mask : pyobj;
  dec_kwargs : kwargs_t
}.

(** The attributes of a [BEVTransformer] instance. *)
Record BEVTransformer : Type := {
  encoder : encoder_call -> result tensor;
  encoder_key_padding_mask : pyobj;
  decoder : decoder_call -> result (tensor * tensor);
  only_encoder : bool;
  embed_dims : nat;
  num_feature_levels : nat;
  num_cams : nat;
  Z_range : R;
  D_samples : nat;
  rotate_prev_bev : pyval;
  use_can_bus : bool;
  can_bus_norm : bool;
  use_shift : pyval;
  use_cams_embeds : bool;
  level_embeds : tensor;
  cams_embeds : tensor;
  reference_points : tensor -> result tensor;
  can_bus_mlp : tensor -> result tensor
}.

(** What [forward] returns. *)
Inductive forward_out : Type :=
  | BevOnly (bev_embed : tensor)
  | BevAndDecoded (bev_embed inter_states init_reference_out inter_references_out : tensor)
  | Decoded (inter_states init_reference_out inter_references_out : tensor).

Local Open Scope result_scope.

(** Lines 279-304: the previous BEV state is transposed when its second
    axis has [bev_h * bev_w] entries, then rotated if the module is
    configured to. *)
Definition align_prev_bev (rotate_prev_bev : pyval) (bev_h bev_w : nat)
    (rotation_angle : R) (prev_bev : option tensor) : result (option tensor) :=
  match prev_bev with
  | None => Ok None
  | Some prev_bev =>
      d1 <- size prev_bev 1 ;;
      prev_bev <- (if (d1 =? bev_h * bev_w)%nat
                   then permute_checked prev_bev [1; 0; 2]%nat
                   else Ok prev_bev) ;;
      if py_eq_str rotate_prev_bev "waymo_rotate" then
        num_prev_bev <- size prev_bev 1 ;;
        prev_bev <- reshape prev_bev [Z.of_nat bev_h; Z.of_nat bev_w; -1]%Z ;;
        prev_bev <- permute_checked prev_bev [2; 0; 1]%nat ;;
        let prev_bev := rotate prev_bev rotation_angle (Some [70; 150]) in
        prev_bev <- permute_checked prev_bev [1; 2; 0]%nat ;;
        prev_bev <- reshape prev_bev
                      [Z.of_nat (bev_h * bev_w); Z.of_nat num_prev_bev; -1]%Z ;;
        Ok (Some prev_bev)
      else if truthy rotate_prev_bev then
        num_prev_bev <- size prev_bev 1 ;;
        prev_bev <- reshape prev_bev [Z.of_nat bev_h; Z.of_nat bev_w; -1]%Z ;;
        prev_bev <- permute_checked prev_bev [2; 0; 1]%nat ;;
        let prev_bev := rotate prev_bev rotation_angle None in
        prev_bev <- permute_checked prev_bev [1; 2; 0]%nat ;;
        prev_bev <- reshape prev_bev
                      [Z.of_nat (bev_h * bev_w); Z.of_nat num_prev_bev; -1]%Z ;;
        Ok (Some prev_bev)
      else Ok (Some prev_bev)
  end.

(** Lines 306-308: the embedding of the ego-motion record is added to
    every BEV query. *)
Definition add_can_bus (self : BEVTransformer) (bev_embed : tensor)
    (can_bus : list R) : result tensor :=
  let can_bus := unsqueeze (unsqueeze (tensor_of_list can_bus) 0) 0 in
  can_bus <- can_bus_mlp self can_bus ;;
  add_t bev_embed (mul_scalar can_bus (if use_can_bus self then 1 else 0)).

(** One iteration of the loop of lines 312-323. *)
Definition flatten_level (self : BEVTransformer) (lvl : nat) (feat : tensor)
  : result (tensor * (nat * nat) * nat) :=
  match shape feat with
  | [bs; num_cam; c; h; w] =>
      let spatial_shape := (h, w) in
      let feat := permute (flatten feat 3) [1; 0; 3; 2]%nat in
      feat <- (if use_cams_embeds self
               then add_t feat (unsqueeze (unsqueeze (cams_embeds self) 1) 1)
               else Ok feat) ;;
      feat <- add_t feat
                (unsqueeze (unsqueeze (slice_rows (level_embeds self) lvl (lvl + 1)) 0) 0) ;;
      Ok (feat, spatial_shape, bs)
  | _ => Raise ValueError
  end.

(** The loop; [bs] is rebound by every iteration. *)
Fixpoint flatten_levels (self : BEVTransformer) (lvl : nat) (mlvl_feats : list tensor)
    (bs : nat) : result (list tensor * list (nat * nat) * nat) :=
  match mlvl_feats with
  | [] => Ok ([], [], bs)
  | feat :: rest =>
      '(feat, spatial_shape, bs) <- flatten_level self lvl feat ;;
      '(feat_flatten, spatial_shapes, bs) <- flatten_levels self (S lvl) rest bs ;;
      Ok (feat :: feat_flatten, spatial_shape :: spatial_shapes, bs)
  end.

(** Lines 310-329: the flattened features (before the final [permute]),
    the spatial shapes and the batch size left in [bs]. *)
Definition flatten_feats (self : BEVTransformer) (mlvl_feats : list tensor) (bs : nat)
  : result (tensor * list (Z * Z) * nat) :=
  '(feat_flatten, spatial_shapes, bs) <- flatten_levels self 0 mlvl_feats bs ;;
  feat_flatten <- cat feat_flatten 2 ;;
  Ok (feat_flatten, as_long_tensor spatial_shapes, bs).

(** Lines 226-344 up to the call of the encoder: the arguments handed to
    it, and the value of [bs] at that point. *)
Definition encoder_inputs (self : BEVTransformer) (mlvl_feats : list tensor)
    (bev_embed : tensor) (bev_h bev_w : nat) (grid_length : grid_length_t)
    (bev_pos : option tensor) (prev_bev : option tensor) (gt_bboxes_3d : pyobj)
    (kwargs : kwargs_t) : result (encoder_call * nat) :=
  feat0 <- py_index mlvl_feats 0 ;;
  bs <- size feat0 0 ;;
  let bev_embed := repeat_t (unsqueeze bev_embed 1) [1; bs; 1]%nat in
  bev_pos <- match bev_pos with
             | Some p => Ok p
             | None => Raise AttributeError
             end ;;
  bev_pos <- permute_checked (flatten bev_pos 2) [2; 0; 1]%nat ;;
  let ref_3d := get_reference_points bev_h bev_w (Z_range self) (D_samples self) "3d" bs in
  let ref_2d := get_reference_points bev_h bev_w 8 4 "2d" bs in
  meta0 <- py_index (img_metas kwargs) 0 ;;
  ego <- read_ego_motion (can_bus meta0) ;;
  '(grid_length_x, grid_length_y) <- grid_lengths grid_length ;;
  let '(shift_x, shift_y) :=
    compute_shift (use_shift self) (delta_x ego) (delta_y ego) (ego_angle ego)
                  grid_length_x grid_length_y bev_h bev_w in
  let shift := tensor_of_list [shift_x; shift_y] in
  prev_bev <- align_prev_bev (rotate_prev_bev self) bev_h bev_w (rotation_angle ego) prev_bev ;;
  meta0 <- py_index (img_metas kwargs) 0 ;;
  bev_embed <- add_can_bus self bev_embed (can_bus meta0) ;;
  '(feat_flatten, spatial_shapes, bs) <- flatten_feats self mlvl_feats bs ;;
  let level_start_index := level_start_index spatial_shapes in
  let feat_flatten := permute feat_flatten [0; 2; 1; 3]%nat in
  Ok ({| enc_query := bev_embed;
         enc_key := feat_flatten;
         enc_value := feat_flatten;
         enc_ref_2d := ref_2d;
         enc_ref_3d := ref_3d;
         enc_bev_h := bev_h;
         enc_bev_w := bev_w;
         enc_bev_pos := bev_pos;
         enc_spatial_shapes := spatial_shapes;
         enc_level_start_index := level_start_index;
         enc_prev_bev := prev_bev;
         enc_shift := shift;
         enc_gt_bboxes_3d := gt_bboxes_3d;
         enc_kwargs := kwargs |}, bs).

(** Lines 364-393: the decoding half. *)
Definition decode (self : BEVTransformer) (bev_embed query_embed : tensor)
    (bev_h bev_w bs : nat) (reg_branches : pyobj) (return_bev : bool)
    (kwargs : kwargs_t) : result forward_out :=
  '(query_pos, query) <- split2 query_embed (embed_dims self) ;;
  let expand_bs t := expand (unsqueeze t 0) (bs :: shape t) in
  let query_pos := expand_bs query_pos in
  let query := expand_bs query in
  reference_points <- reference_points self query_pos ;;
  let reference_points := map_t sigmoid reference_points in
  let init_reference_out := reference_points in
  let query := permute query [1; 0; 2]%nat in
  let query_pos := permute query_pos [1; 0; 2]%nat in
  bev_embed <- permute_checked bev_embed [1; 0; 2]%nat ;;
  '(inter_states, inter_references) <-
     decoder self
       {| dec_query := query;
          dec_value := bev_embed;
          dec_query_pos := query_pos;
          dec_reference_points := reference_points;
          dec_reg_branches := reg_branches;
          dec_spatial_shapes := [(Z.of_nat bev_h, Z.of_nat bev_w)];
          dec_level_start_index := [0%Z];
          dec_key_padding_mask := encoder_key_padding_mask self;
          dec_kwargs := kwargs |} ;;
  let inter_references_out := inter_references in
  if return_bev
  then Ok (BevAndDecoded bev_embed inter_states init_reference_out inter_references_out)
  else Ok (Decoded inter_states init_reference_out inter_references_out).

Definition forward (self : BEVTransformer) (mlvl_feats : list tensor)
    (bev_embed query_embed : tensor) (bev_h bev_w : nat)
    (grid_length : grid_length_t) (bev_pos : option tensor)
    (reg_branches : pyobj) (prev_bev : option tensor) (return_bev : bool)
    (gt_bboxes_3d : pyobj) (kwargs : kwargs_t) : result forward_out :=
  '(call, bs) <- encoder_inputs self mlvl_feats bev_embed bev_h bev_w grid_length
                   bev_pos prev_bev gt_bboxes_3d kwargs ;;
  bev_embed <- encoder self call ;;
  if only_encoder self then Ok (BevOnly bev_embed)
  else decode self bev_embed query_embed bev_h bev_w bs reg_branches return_bev kwargs.

End Forward.

Arguments kwargs_t pyobj : clear implicits.
Arguments encoder_call pyobj : clear implicits.
Arguments decoder_call pyobj : clear implicits.
Arguments BEVTransformer pyobj : clear implicits.

(** ** Quantities named by the specification *)

(** Number of tokens of a feature level of spatial shape [(h, w)]. *)
Definition tokens (hw : nat * nat) : nat := (fst hw * snd hw)%nat.

(** Total number of tokens of all levels. *)
Definition total_tokens (ss : list (nat * nat)) : nat := list_sum (map tokens ss).

(** Offsets at which the levels begin in the concatenated sequence. *)
Fixpoint starts_from (acc : nat) (toks : list nat) : list nat :=
  match toks with
  | [] => []
  | x :: rest => acc :: starts_from (acc + x) rest
  end.

(** Running sums, first entry included. *)
Fixpoint prefix_sums (acc : nat) (toks : list nat) : list nat :=
  match toks with
  | [] => []
  | x :: rest => (acc + x)%nat :: prefix_sums (acc + x) rest
  end.

(** Spatial shape [(h, w)] of a feature map [(bs, num_cam, c, h, w)]. *)
Definition feat_hw (feat : tensor) : nat * nat :=
  (nth 3 (shape feat) 0%nat, nth 4 (shape feat) 0%nat).

(** Size of the token axis (axis 2) of a flattened level. *)
Definition dim2 (t : tensor) : nat := nth 2 (shape t) 0%nat.

(** One axis of a broadcast. *)
Definition bdim (d1 d2 : nat) : option nat :=
  if (d1 =? d2)%nat then Some d1
  else if (d1 =? 1)%nat then Some d2
  else if (d2 =? 1)%nat then Some d1
  else None.

(** ** Variants of a module instance *)

Section Variants.

Context {pyobj : Type}.

(** The instance with another camera-embedding table. *)
Definition with_cams_embeds (self : BEVTransformer pyobj) (table : tensor)
  : BEVTransformer pyobj :=
  {| encoder := encoder self;
     encoder_key_padding_mask := encoder_key_padding_mask self;
     decoder := decoder self;
     only_encoder := only_encoder self;
     embed_dims := embed_dims self;
     num_feature_levels := num_feature_levels self;
     num_cams := num_cams self;
     Z_range := Z_range self;
     D_samples := D_samples self;
     rotate_prev_bev := rotate_prev_bev self;
     use_can_bus := use_can_bus self;
     can_bus_norm := can_bus_norm self;
     use_shift := use_shift self;
     use_cams_embeds := use_cams_embeds self;
     level_embeds := level_embeds self;
     cams_embeds := table;
     reference_points := reference_points self;
     can_bus_mlp := can_bus_mlp self |}.

(** The instance constructed with other values of [use_shift] and
    [rotate_prev_bev]. *)
Definition with_flags (self : BEVTransformer pyobj) (shift_flag rotate_flag : pyval)
  : BEVTransformer pyobj :=
  {| encoder := encoder self;
     encoder_key_padding_mask := encoder_key_padding_mask self;
     decoder := decoder self;
     only_encoder := only_encoder self;
     embed_dims := embed_dims self;
     num_feature_levels := num_feature_levels self;
     num_cams := num_cams self;
     Z_range := Z_range self;
     D_samples := D_samples self;
     rotate_prev_bev := rotate_flag;
     use_can_bus := use_can_bus self;
     can_bus_norm := can_bus_norm self;
     use_shift := shift_flag;
     use_cams_embeds := use_cams_embeds self;
     level_embeds := level_embeds self;
     cams_embeds := cams_embeds self;
     reference_points := reference_points self;
     can_bus_mlp := can_bus_mlp self |}.

(** The parameter tables as [init_layers] creates them. *)
Definition tables_as_initialised (self : BEVTransformer pyobj) : Prop :=
  shape (level_embeds self) = [num_feature_levels self; embed_dims self] /\
  shape (cams_embeds self) = [num_cams self; embed_dims self].

End Variants.

(** The documented choices of a three-way flag: [False], [True] and the
    sentinel string. *)
Definition supported_flag (sentinel : string) (v : pyval) : bool :=
  match v with
  | PyBool _ => true
  | PyStr s => String.eqb s sentinel
  | _ => false
  end.

(** What [forward] makes of a flag: the sentinel, or its truth value. *)
Definition flag_reading (sentinel : string) (v : pyval) : pyval :=
  if py_eq_str v sentinel then PyStr sentinel else PyBool (truthy v).

(** A previous state of shape [(a, b, c)] has the spatial size of the grid
    when one of its first two axes has [bev_h * bev_w] entries. *)
Definition spatial_size_matches (prev_bev : tensor) (bev_h bev_w : nat) : bool :=
  match shape prev_bev with
  | [a; b; _] => ((a =? bev_h * bev_w) || (b =? bev_h * bev_w))%nat
  | _ => false
  end.

(** The rotation branch of [align_prev_bev], for either rotation centre. *)
Definition rotate_chain (rotate_values : tensor -> R -> option (list R) -> list nat -> R)
    (center : option (list R)) (bev_h bev_w : nat)
    (rotation_angle : R) (prev_bev : tensor) (num_prev_bev : nat) : result (option tensor) :=
  (prev_bev <- reshape prev_bev [Z.of_nat bev_h; Z.of_nat bev_w; -1]%Z ;;
  prev_bev <- permute_checked prev_bev [2; 0; 1]%nat ;;
  let prev_bev := rotate rotate_values prev_bev rotation_angle center in
  prev_bev <- permute_checked prev_bev [1; 2; 0]%nat ;;
  prev_bev <- reshape prev_bev
                [Z.of_nat (bev_h * bev_w); Z.of_nat num_prev_bev; -1]%Z ;;
  Ok (Some prev_bev))%result.

(** ** A small concrete instance, used to run [forward] *)

Definition zeros (sh : list nat) : tensor := mkT sh (fun _ => 0).

Definition same_shape (a b : tensor) : bool :=
  if list_eq_dec Nat.eq_dec (shape a) (shape b) then true else false.

(** An encoder that insists on a previous state shaped like the query. *)
Definition demo_encoder (call : encoder_call unit) : result tensor :=
  match enc_prev_bev call with
  | Some p => if same_shape p (enc_query call)
              then Ok (enc_query call) else Raise RuntimeError
  | None => Ok (enc_query call)
  end.

Definition demo_module (shift_flag rotate_flag : pyval) (cams : bool)
  : BEVTransformer unit :=
  {| encoder := demo_encoder;
     encoder_key_padding_mask := tt;
     decoder := fun call => Ok (dec_query call, dec_reference_points call);
     only_encoder := false;
     embed_dims := 2;
     num_feature_levels := 2;
     num_cams := 1;
     Z_range := 8;
     D_samples := 4;
     rotate_prev_bev := rotate_flag;
     use_can_bus := true;
     can_bus_norm := true;
     use_shift := shift_flag;
     use_cams_embeds := cams;
     level_embeds := zeros [2; 2]%nat;
     cams_embeds := zeros [1; 2]%nat;
     reference_points := fun t => Ok (zeros [1; 3; 3]%nat);
     can_bus_mlp := fun t => Ok (zeros [1; 1; 2]%nat) |}.

(** Rotation by interpolation is irrelevant to the runs below. *)
Definition demo_rotate_values (img : tensor) (angle : R) (center : option (list R))
  : list nat -> R := item img.

Definition demo_kwargs (records : list (list R)) : kwargs_t unit :=
  {| img_metas := map Build_img_meta records; other_kwargs := tt |}.

(** One camera, one level of one pixel, a 2 x 2 grid, two channels. *)
Definition demo_forward (self : BEVTransformer unit) (prev_bev : option tensor)
    (kwargs : kwargs_t unit) : result forward_out :=
  forward demo_rotate_values self
    [zeros [1; 1; 2; 1; 1]%nat] (zeros [4; 2]%nat) (zeros [3; 4]%nat) 2 2
    (GridScalar 0.512) (Some (zeros [1; 2; 2; 2]%nat)) tt prev_bev false tt kwargs.

Definition demo_can_bus : list R := repeat 0 18.

(** ** The layers built by [init_layers] *)

(** [sum(f(j) for j in range(n))] *)
Definition sum_below (n : nat) (f : nat -> R) : R :=
  fold_right Rplus 0 (map f (seq 0 n)).

(** [nn.Linear]: [x @ weight.T + bias] along the last axis; [weight] has
    shape [(out_features, in_features)]. *)
Definition linear (weight bias x : tensor) : result tensor :=
  let out_features := nth 0 (shape weight) 0%nat in
  let in_features := nth 1 (shape weight) 0%nat in
  match rev (shape x) with
  | d :: _ =>
      if (d =? in_features)%nat then
        Ok (mkT (removelast (shape x) ++ [out_features])
                (fun idx =>
                   let o := last idx 0%nat in
                   sum_below in_features
                     (fun j => item x (removelast idx ++ [j]) * item weight [o; j])
                   + item bias [o]))
      else Raise RuntimeError
  | [] => Raise RuntimeError
  end.

(** [nn.ReLU] *)
Definition relu (x : tensor) : tensor := map_t (Rmax 0) x.

(** [nn.LayerNorm(n)] over the last axis, with its default [eps]. *)
Definition layer_norm_eps : R := 1 / 100000.

Definition layer_norm (weight bias x : tensor) : result tensor :=
  let n := nth 0 (shape weight) 0%nat in
  match rev (shape x) with
  | d :: _ =>
      if (d =? n)%nat then
        Ok (mkT (shape x)
                (fun idx =>
                   let row j := item x (removelast idx ++ [j]) in
                   let mean := sum_below n row / INR n in
                   let var := sum_below n (fun j => (row j - mean) * (row j - mean)) / INR n in
                   let o := last idx 0%nat in
                   (row o - mean) / sqrt (var + layer_norm_eps) * item weight [o]
                   + item bias [o]))
      else Raise RuntimeError
  | [] => Raise RuntimeError
  end.

(** The values held by the parameters that [init_layers] creates; their
    shapes are fixed by [init_layers], their values by the initialisation
    and the training. *)
Record layer_values : Type := {
  level_embeds_data : list nat -> R;
  cams_embeds_data : list nat -> R;
  reference_points_weight : list nat -> R;
  reference_points_bias : list nat -> R;
  can_bus_mlp_0_weight : list nat -> R;
  can_bus_mlp_0_bias : list nat -> R;
  can_bus_mlp_2_weight : list nat -> R;
  can_bus_mlp_2_bias : list nat -> R;
  can_bus_mlp_norm_weight : list nat -> R;
  can_bus_mlp_norm_bias : list nat -> R
}.

(** Lines 104-118: [init_layers] sets the four learnt attributes from the
    sizes stored in [self]. *)
Definition init_layers {pyobj : Type} (self : BEVTransformer pyobj) (v : layer_values)
  : BEVTransformer pyobj :=
  let E := embed_dims self in
  {| encoder := encoder self;
     encoder_key_padding_mask := encoder_key_padding_mask self;
     decoder := decoder self;
     only_encoder := only_encoder self;
     embed_dims := embed_dims self;
     num_feature_levels := num_feature_levels self;
     num_cams := num_cams self;
     Z_range := Z_range self;
     D_samples := D_samples self;
     rotate_prev_bev := rotate_prev_bev self;
     use_can_bus := use_can_bus self;
     can_bus_norm := can_bus_norm self;
     use_shift := use_shift self;
     use_cams_embeds := use_cams_embeds self;
     level_embeds := mkT [num_feature_levels self; E] (level_embeds_data v);
     cams_embeds := mkT [num_cams self; E] (cams_embeds_data v);
     reference_points :=
       linear (mkT [3; E]%nat (reference_points_weight v))
              (mkT [3]%nat (reference_points_bias v));
     can_bus_mlp := fun x =>
       (x <- linear (mkT [(E / 2)%nat; 18%nat] (can_bus_mlp_0_weight v))
                    (mkT [(E / 2)%nat] (can_bus_mlp_0_bias v)) x ;;
        let x := relu x in
        x <- linear (mkT [E; (E / 2)%nat] (can_bus_mlp_2_weight v))
                    (mkT [E] (can_bus_mlp_2_bias v)) x ;;
        let x := relu x in
        if can_bus_norm self
        then layer_norm (mkT [E] (can_bus_mlp_norm_weight v))
                        (mkT [E] (can_bus_mlp_norm_bias v)) x
        else Ok x)%result |}.

(** The initial reference points among the values [forward] returns. *)
Definition init_reference_of (out : forward_out) : option tensor :=
  match out with
  | BevOnly _ => None
  | BevAndDecoded _ _ init _ => Some init
  | Decoded _ init _ => Some init
  end.

(** A module whose learnt attributes come from [init_layers] with all
    parameters at one. *)
Definition ones_values : layer_values :=
  {| level_embeds_data := fun _ => 1;
     cams_embeds_data := fun _ => 1;
     reference_points_weight := fun _ => 1;
     reference_points_bias := fun _ => 1;
     can_bus_mlp_0_weight := fun _ => 1;
     can_bus_mlp_0_bias := fun _ => 1;
     can_bus_mlp_2_weight := fun _ => 1;
     can_bus_mlp_2_bias := fun _ => 1;
     can_bus_mlp_norm_weight := fun _ => 1;
     can_bus_mlp_norm_bias := fun _ => 1 |}.

(** The module constructed with other values of [use_can_bus] and
    [can_bus_norm]. *)
Definition with_can_bus {pyobj : Type} (self : BEVTransformer pyobj)
    (use_flag norm_flag : bool) : BEVTransformer pyobj :=
  {| encoder := encoder self;
     encoder_key_padding_mask := encoder_key_padding_mask self;
     decoder := decoder self;
     only_encoder := only_encoder self;
     embed_dims := embed_dims self;
     num_feature_levels := num_feature_levels self;
     num_cams := num_cams self;
     Z_range := Z_range self;
     D_samples := D_samples self;
     rotate_prev_bev := rotate_prev_bev self;
     use_can_bus := use_flag;
     can_bus_norm := norm_flag;
     use_shift := use_shift self;
     use_cams_embeds := use_cams_embeds self;
     level_embeds := level_embeds self;
     cams_embeds := cams_embeds self;
     reference_points := reference_points self;
     can_bus_mlp := can_bus_mlp self |}.

(** ** The definitions on small inputs *)

Example py_index_last : py_index [10; 20; 30]%Z (-1) = Ok 30%Z.
Proof. reflexivity. Qed.

Example py_index_out_of_range : py_index [10; 20; 30]%Z (-4) = Raise IndexError.
Proof. reflexivity. Qed.

Example truthy_nonempty_string : truthy (PyStr "waymo_shift") = true.
Proof. reflexivity. Qed.

Example truthy_empty_string : truthy (PyStr "") = false.
Proof. reflexivity. Qed.

Example wrap64_overflow : wrap64 (2 ^ 63) = (- 2 ^ 63)%Z.
Proof. reflexivity. Qed.

Example level_start_index_three_levels :
  level_start_index (as_long_tensor [(4, 4); (2, 2); (1, 3)]%nat) = [0; 16; 20]%Z.
Proof. reflexivity. Qed.

Example broadcast_cams_row :
  broadcast_shape [6; 2; 16; 256]%nat [6; 1; 1; 256]%nat = Some [6; 2; 16; 256]%nat.
Proof. reflexivity. Qed.

Example broadcast_mismatch :
  broadcast_shape [6; 2; 16; 256]%nat [5; 1; 1; 256]%nat = None.
Proof. reflexivity. Qed.

Example reshape_indivisible :
  raises (reshape (mkT [5; 1; 1]%nat (fun _ => 0)) [2; 2; -1]%Z) = true.
Proof. reflexivity. Qed.

Example reshape_divisible :
  fmap shape (reshape (mkT [8; 1; 1]%nat (fun _ => 0)) [2; 2; -1]%Z)
  = Ok [2; 2; 2]%nat.
Proof. reflexivity. Qed.

Example split_packed_query :
  fmap (fun qs => (shape (fst qs), shape (snd qs)))
       (split2 (mkT [900; 512]%nat (fun _ => 0)) 256)
  = Ok ([900; 256]%nat, [900; 256]%nat).
Proof. reflexivity. Qed.

Example reference_points_other_dim :
  get_reference_points 2 2 8 4 "bev" 1 = None.
Proof. reflexivity. Qed.

(** ** Facts about the tensor operations *)

Lemma linspace_item_unit_step (n i : nat) :
  (i < n)%nat ->
  item (linspace 0.5 (INR n - 0.5) n) [i] = 0.5 + INR i.
Proof.
  intros Hi. cbn [linspace item nth].
  destruct (Nat.eqb_spec n 1) as [->|Hn].
  - assert (i = 0%nat) as -> by lia. cbn. lra.
  - assert (2 <= n)%nat as H2 by lia.
    apply le_INR in H2. cbn [INR] in H2.
    replace (INR n - 0.5 - 0.5) with (INR n - 1) by lra.
    unfold Rdiv. rewrite Rinv_r by lra. lra.
Qed.

Lemma of_nat_not_wild (n : nat) : (Z.of_nat n =? -1)%Z = false.
Proof. apply Z.eqb_neq. lia. Qed.

Lemma infer_sizes_last (n m : nat) :
  infer_sizes [1; 1; Z.of_nat n]%Z m = [1; 1; n]%nat.
Proof.
  unfold infer_sizes. cbn [map Z.eqb]. rewrite of_nat_not_wild, Nat2Z.id.
  reflexivity.
Qed.

Lemma infer_sizes_mid (n m : nat) :
  infer_sizes [1; Z.of_nat n; 1]%Z m = [1; n; 1]%nat.
Proof.
  unfold infer_sizes. cbn [map Z.eqb]. rewrite of_nat_not_wild, Nat2Z.id.
  reflexivity.
Qed.

Lemma infer_sizes_first (n : nat) :
  infer_sizes [-1; 1; 1]%Z n = [n; 1; 1]%nat.
Proof.
  unfold infer_sizes. change (known_prod [-1; 1; 1]%Z) with 1%nat.
  cbn [map Z.eqb]. rewrite Nat.div_1_r. reflexivity.
Qed.

Lemma infer_sizes_all (n : nat) : infer_sizes [-1]%Z n = [n].
Proof.
  unfold infer_sizes. change (known_prod [-1]%Z) with 1%nat.
  cbn [map Z.eqb]. rewrite Nat.div_1_r. reflexivity.
Qed.

Lemma xs_item (a b : R) (D H W d h w : nat) :
  (w < W)%nat ->
  item (expand (view (linspace a b W) [1; 1; Z.of_nat W]%Z) [D; H; W]) [d; h; w]
  = item (linspace a b W) [w].
Proof.
  intros Hw. unfold view. rewrite infer_sizes_last.
  cbn -[Nat.div Nat.modulo INR]. 
  destruct (Nat.eqb_spec W 1) as [->|Hn].
  - assert (w = 0)%nat as -> by lia. reflexivity.
  - reflexivity.
Qed.

Lemma ys_item (a b : R) (D H W d h w : nat) :
  (h < H)%nat ->
  item (expand (view (linspace a b H) [1; Z.of_nat H; 1]%Z) [D; H; W]) [d; h; w]
  = item (linspace a b H) [h].
Proof.
  intros Hh. unfold view. rewrite infer_sizes_mid.
  cbn -[Nat.div Nat.modulo INR].
  destruct (Nat.eqb_spec H 1) as [->|Hn].
  - assert (h = 0)%nat as -> by lia. reflexivity.
  - rewrite Nat.mul_1_r, Nat.add_0_r. reflexivity.
Qed.

Lemma zs_item (a b : R) (D H W d h w : nat) :
  (d < D)%nat ->
  item (expand (view (linspace a b D) [-1; 1; 1]%Z) [D; H; W]) [d; h; w]
  = item (linspace a b D) [d].
Proof.
  intros Hd. unfold view. rewrite infer_sizes_first.
  cbn -[Nat.div Nat.modulo INR].
  rewrite !Nat.mul_1_r, !Nat.add_0_r.
  destruct (Nat.eqb_spec D 1) as [->|Hn]; reflexivity.
Qed.

Lemma ref_3d_item (H W : nat) (Z : R) (D bs : nat) (t : tensor) (b d k : nat) :
  get_reference_points H W Z D "3d" bs = Some t ->
  (b < bs)%nat -> (d < D)%nat -> (k < H * W)%nat ->
  item t [b; d; k; 0%nat] = (0.5 + INR (k mod W)) / INR W /\
  item t [b; d; k; 1%nat] = (0.5 + INR (k / W)) / INR H /\
  item t [b; d; k; 2%nat] = item (linspace 0.5 (Z - 0.5) D) [d] / Z.
Proof.
  intros Ht Hb Hd Hk.
  assert (0 < W)%nat as HW by (destruct W; lia).
  assert (k mod W < W)%nat as Hm by (apply Nat.mod_upper_bound; lia).
  assert (k / W < H)%nat as Hq by (apply Nat.Div0.div_lt_upper_bound; lia).
  cbv [get_reference_points] in Ht. cbn [String.eqb Ascii.eqb Bool.eqb] in Ht.
  injection Ht as <-.
  cbn -[Nat.div Nat.modulo INR linspace view expand].
  cbn [shape expand app nth].
  change (0 mod 3)%nat with 0%nat. change (1 mod 3)%nat with 1%nat.
  change (2 mod 3)%nat with 2%nat.
  rewrite !Nat.mul_1_r, (Nat.mod_small d D), (Nat.mod_small k (H * W)) by lia.
  cbn [item div_scalar].
  rewrite xs_item, ys_item, zs_item by assumption.
  rewrite !linspace_item_unit_step by assumption.
  repeat split; reflexivity.
Qed.

Lemma ref_2d_item (H W : nat) (Z : R) (D bs : nat) (t : tensor) (b k : nat) :
  get_reference_points H W Z D "2d" bs = Some t ->
  (b < bs)%nat -> (k < H * W)%nat ->
  item t [b; k; 0%nat; 0%nat] = (0.5 + INR (k mod W)) / INR W /\
  item t [b; k; 0%nat; 1%nat] = (0.5 + INR (k / W)) / INR H.
Proof.
  intros Ht Hb Hk.
  assert (0 < W)%nat as HW by (destruct W; lia).
  assert (k mod W < W)%nat as Hm by (apply Nat.mod_upper_bound; lia).
  assert (k / W < H)%nat as Hq by (apply Nat.Div0.div_lt_upper_bound; lia).
  cbv [get_reference_points] in Ht. cbn [String.eqb Ascii.eqb Bool.eqb] in Ht.
  cbv [meshgrid] in Ht. injection Ht as <-.
  unfold view. rewrite !infer_sizes_all.
  cbn -[Nat.div Nat.modulo INR linspace].
  change (0 mod 2)%nat with 0%nat. change (1 mod 2)%nat with 1%nat.
  cbn -[Nat.div Nat.modulo INR linspace].
  change (numel (linspace 0.5 (INR H - 0.5) H)) with (H * 1)%nat.
  change (numel (linspace 0.5 (INR W - 0.5) W)) with (W * 1)%nat.
  rewrite !Nat.mul_1_r, (Nat.mod_small k (H * W)) by lia.
  pose proof (linspace_item_unit_step W (k mod W) Hm) as Ex.
  pose proof (linspace_item_unit_step H (k / W) Hq) as Ey.
  cbn [linspace item nth] in Ex, Ey. rewrite Ex, Ey.
  split; reflexivity.
Qed.

Lemma ref_3d_shape (H W : nat) (Z : R) (D bs : nat) (t : tensor) :
  get_reference_points H W Z D "3d" bs = Some t ->
  shape t = [bs; D; (H * W)%nat; 3%nat].
Proof.
  intros Ht.
  cbv [get_reference_points] in Ht. cbn [String.eqb Ascii.eqb Bool.eqb] in Ht.
  injection Ht as <-. unfold view. rewrite infer_sizes_last.
  cbn. rewrite !Nat.mul_1_r, !Nat.add_0_r. reflexivity.
Qed.

Lemma ref_2d_shape (H W : nat) (Z : R) (D bs : nat) (t : tensor) :
  get_reference_points H W Z D "2d" bs = Some t ->
  shape t = [bs; (H * W)%nat; 1%nat; 2%nat].
Proof.
  intros Ht.
  cbv [get_reference_points] in Ht. cbn [String.eqb Ascii.eqb Bool.eqb] in Ht.
  cbv [meshgrid] in Ht. injection Ht as <-.
  unfold view. rewrite !infer_sizes_all. cbn. rewrite !Nat.mul_1_r, ?Nat.add_0_r. reflexivity.
Qed.

(** Cell centres and depth samples are strictly inside the unit interval. *)

Lemma div_in_unit (v z : R) : 0 < v < z -> 0 < v / z < 1.
Proof.
  intros [Hv Hz]. assert (0 < z) as Hz0 by lra.
  split.
  - apply Rdiv_lt_0_compat; assumption.
  - apply (Rmult_lt_reg_r z); [assumption|].
    unfold Rdiv. rewrite Rmult_assoc, Rinv_l by lra. lra.
Qed.

Lemma cell_centre_in_unit (n i : nat) :
  (i < n)%nat -> 0 < (0.5 + INR i) / INR n < 1.
Proof.
  intros Hi. apply div_in_unit.
  assert (0 <= INR i) by apply pos_INR.
  assert (INR i + 1 <= INR n) by (rewrite <- S_INR; apply le_INR; lia).
  lra.
Qed.

Lemma depth_sample_in_unit (Z : R) (D d : nat) :
  1 / 2 < Z -> (d < D)%nat ->
  0 < item (linspace 0.5 (Z - 0.5) D) [d] / Z < 1.
Proof.
  intros HZ Hd. apply div_in_unit. cbn [linspace item nth].
  destruct (Nat.eqb_spec D 1) as [->|Hn]; [lra|].
  assert (0 <= INR d) as H0 by apply pos_INR.
  assert (INR d + 1 <= INR D) as H1 by (rewrite <- S_INR; apply le_INR; lia).
  assert (2 <= INR D) as H2 by (change 2 with (INR 2); apply le_INR; lia).
  set (q := INR d / (INR D - 1)).
  assert (0 <= q <= 1) as [Hq0 Hq1].
  { unfold q. split.
    - apply Rmult_le_pos; [assumption|].
      apply Rlt_le, Rinv_0_lt_compat. lra.
    - apply (Rmult_le_reg_r (INR D - 1)); [lra|].
      unfold Rdiv. rewrite Rmult_assoc, Rinv_l by lra. lra. }
  replace (Z - 0.5 - 0.5) with (Z - 1) by lra.
  replace (INR d * ((Z - 1) / (INR D - 1))) with (q * (Z - 1))
    by (unfold q, Rdiv; ring).
  assert (0 <= q * (Z - 0.5)) as Ha by (apply Rmult_le_pos; lra).
  assert (0 <= (1 - q) * (Z - 0.5)) as Hb by (apply Rmult_le_pos; lra).
  destruct (Rle_lt_dec 1 q) as [Hge|Hlt].
  - assert (q = 1) as -> by lra. lra.
  - split; nra.
Qed.

(** Reading the points of one batch element. *)

Lemma points_of_length (t : tensor) (b n0 n1 n2 c : nat) :
  shape t = [n0; n1; n2; c] ->
  length (points_of t b) = (n1 * n2)%nat.
Proof.
  intros Hs. unfold points_of. rewrite Hs.
  transitivity (length (seq 0 n1) * n2)%nat; [|now rewrite length_seq].
  induction (seq 0 n1) as [|i l IH]; cbn [flat_map length].
  - reflexivity.
  - rewrite length_app, length_map, length_seq, IH. reflexivity.
Qed.

Lemma points_of_Forall (P : list R -> Prop) (t : tensor) (b n0 n1 n2 c : nat) :
  shape t = [n0; n1; n2; c] ->
  (forall i j, (i < n1)%nat -> (j < n2)%nat ->
     P (map (fun k => item t [b; i; j; k]) (seq 0 c))) ->
  Forall P (points_of t b).
Proof.
  intros Hs HP. unfold points_of. rewrite Hs.
  apply Forall_flat_map, Forall_forall. intros i Hi.
  apply in_seq in Hi. apply Forall_map, Forall_forall. intros j Hj.
  apply in_seq in Hj. apply HP; lia.
Qed.

(** C3, amended: for positive [H], [W], [D] and [bs] and every real
    [Z > 0], the 3D reference points are a [(bs, D, H*W, 3)] tensor:
    every batch element holds exactly [D*H*W] points, each of three
    coordinates, with [x] and [y] strictly between 0 and 1.  The depth
    [z] lies strictly between 0 and 1 for every point when [Z > 1/2],
    and only then: for [0 < Z <= 1/2] the first depth sample [0.5 / Z]
    of every cell is at least 1. *)
Theorem ref_3d_count_and_open_range (H W D bs : nat) (Z : R) :
  (0 < H)%nat -> (0 < W)%nat -> 0 < Z -> (0 < D)%nat -> (0 < bs)%nat ->
  exists t,
    get_reference_points H W Z D "3d" bs = Some t /\
    shape t = [bs; D; (H * W)%nat; 3%nat] /\
    forall b, (b < bs)%nat ->
      length (points_of t b) = (D * H * W)%nat /\
      Forall (fun p => length p = 3%nat /\ 0 < nth 0 p 0 < 1 /\ 0 < nth 1 p 0 < 1)
             (points_of t b) /\
      (1 / 2 < Z ->
       Forall (fun p => length p = 3%nat /\ Forall (fun x => 0 < x < 1) p)
              (points_of t b)) /\
      (Z <= 1 / 2 ->
       forall k, (k < H * W)%nat -> 1 <= item t [b; 0%nat; k; 2%nat]).
Proof.
  intros HH HW HZ HD Hbs.
  destruct (get_reference_points H W Z D "3d" bs) as [t|] eqn:Ht;
    [|discriminate Ht].
  exists t. pose proof (ref_3d_shape _ _ _ _ _ _ Ht) as Hs.
  split; [reflexivity|]. split; [exact Hs|].
  intros b Hb. split; [|split; [|split]].
  - rewrite (points_of_length _ _ _ _ _ _ Hs). lia.
  - apply (points_of_Forall _ _ _ _ _ _ _ Hs). intros d k Hd Hk.
    destruct (ref_3d_item _ _ _ _ _ _ _ _ _ Ht Hb Hd Hk) as (Hx & Hy & _).
    cbn [seq map length nth]. rewrite Hx, Hy. split; [reflexivity|]. split.
    + apply cell_centre_in_unit, Nat.mod_upper_bound; lia.
    + apply cell_centre_in_unit, Nat.Div0.div_lt_upper_bound; lia.
  - intros Hhalf. apply (points_of_Forall _ _ _ _ _ _ _ Hs). intros d k Hd Hk.
    destruct (ref_3d_item _ _ _ _ _ _ _ _ _ Ht Hb Hd Hk) as (Hx & Hy & Hz).
    cbn [seq map length]. rewrite Hx, Hy, Hz. split; [reflexivity|].
    repeat constructor.
    + apply cell_centre_in_unit, Nat.mod_upper_bound; lia.
    + apply cell_centre_in_unit, Nat.mod_upper_bound; lia.
    + apply cell_centre_in_unit, Nat.Div0.div_lt_upper_bound; lia.
    + apply cell_centre_in_unit, Nat.Div0.div_lt_upper_bound; lia.
    + apply depth_sample_in_unit; assumption.
    + apply depth_sample_in_unit; assumption.
  - intros Hsmall k Hk.
    destruct (ref_3d_item _ _ _ _ _ _ _ _ _ Ht Hb HD Hk) as (_ & _ & Hz).
    rewrite Hz. cbn [linspace item nth INR].
    assert (1 <= 0.5 / Z) as Hge.
    { apply (Rmult_le_reg_r Z); [assumption|].
      unfold Rdiv. rewrite Rmult_assoc, Rinv_l by lra. lra. }
    destruct (D =? 1)%nat; [exact Hge|].
    replace (0.5 + 0 * ((Z - 0.5 - 0.5) / (INR D - 1))) with 0.5 by lra.
    exact Hge.
Qed.

(** C4: [get_reference_points(H=2, W=2, Z=8, D=1, dim='3d')] (default
    [bs=1]) holds 4 points for batch element 0, all at depth
    [0.5/8 = 0.0625], in the order (0.25,0.25), (0.75,0.25), (0.25,0.75),
    (0.75,0.75): the depth sample is the outer index and the row-major
    cell index [h*W + w] the inner one. *)
Theorem ref_3d_example_2x2 :
  exists t,
    get_reference_points 2 2 8 1 "3d" 1 = Some t /\
    shape t = [1; 1; 4; 3]%nat /\
    points_of t 0 = [ [0.25; 0.25; 0.0625]; [0.75; 0.25; 0.0625];
                      [0.25; 0.75; 0.0625]; [0.75; 0.75; 0.0625] ] /\
    0.0625 = 0.5 / 8.
Proof.
  destruct (get_reference_points 2 2 8 1 "3d" 1) as [t|] eqn:Ht;
    [|discriminate Ht].
  exists t. pose proof (ref_3d_shape _ _ _ _ _ _ Ht) as Hs.
  split; [reflexivity|]. split; [exact Hs|]. split; [|lra].
  unfold points_of. rewrite Hs. cbn [seq flat_map map app Nat.mul Nat.add].
  destruct (ref_3d_item 2 2 8 1 1 t 0 0 0 Ht) as (X0 & Y0 & Z0); [lia..|].
  destruct (ref_3d_item 2 2 8 1 1 t 0 0 1 Ht) as (X1 & Y1 & Z1); [lia..|].
  destruct (ref_3d_item 2 2 8 1 1 t 0 0 2 Ht) as (X2 & Y2 & Z2); [lia..|].
  destruct (ref_3d_item 2 2 8 1 1 t 0 0 3 Ht) as (X3 & Y3 & Z3); [lia..|].
  rewrite X0, Y0, Z0, X1, Y1, Z1, X2, Y2, Z2, X3, Y3, Z3.
  cbn [linspace item Nat.eqb].
  change (0 mod 2)%nat with 0%nat. change (1 mod 2)%nat with 1%nat.
  change (2 mod 2)%nat with 0%nat. change (3 mod 2)%nat with 1%nat.
  change (0 / 2)%nat with 0%nat. change (1 / 2)%nat with 0%nat.
  change (2 / 2)%nat with 1%nat. change (3 / 2)%nat with 1%nat.
  cbn [INR].
  repeat (f_equal; try lra).
Qed.

(** C5: for positive [H], [W] and [bs], the 2D reference points are a
    [(bs, H*W, 1, 2)] tensor: every batch element holds exactly [H*W]
    points with both coordinates strictly between 0 and 1, and the point
    of cell [k] is the [(x, y)] pair of the 3D point of cell [k] at every
    depth sample [d], whatever [Z] and [D] are. *)
Theorem ref_2d_cross_section_of_3d (H W bs : nat) (Z2 : R) (D2 : nat) :
  (0 < H)%nat -> (0 < W)%nat -> (0 < bs)%nat ->
  exists t2,
    get_reference_points H W Z2 D2 "2d" bs = Some t2 /\
    shape t2 = [bs; (H * W)%nat; 1%nat; 2%nat] /\
    (forall b, (b < bs)%nat ->
       length (points_of t2 b) = (H * W)%nat /\
       Forall (fun p => length p = 2%nat /\ Forall (fun x => 0 < x < 1) p)
              (points_of t2 b)) /\
    (forall (Z : R) (D : nat) (t3 : tensor),
       get_reference_points H W Z D "3d" bs = Some t3 ->
       forall b d k, (b < bs)%nat -> (d < D)%nat -> (k < H * W)%nat ->
         item t2 [b; k; 0%nat; 0%nat] = item t3 [b; d; k; 0%nat] /\
         item t2 [b; k; 0%nat; 1%nat] = item t3 [b; d; k; 1%nat]).
Proof.
  intros HH HW Hbs.
  destruct (get_reference_points H W Z2 D2 "2d" bs) as [t2|] eqn:Ht;
    [|discriminate Ht].
  exists t2. pose proof (ref_2d_shape _ _ _ _ _ _ Ht) as Hs.
  split; [reflexivity|]. split; [exact Hs|]. split.
  - intros b Hb. split.
    + rewrite (points_of_length _ _ _ _ _ _ Hs). apply Nat.mul_1_r.
    + apply (points_of_Forall _ _ _ _ _ _ _ Hs). intros k j Hk Hj.
      assert (j = 0%nat) as -> by lia.
      destruct (ref_2d_item _ _ _ _ _ _ _ _ Ht Hb Hk) as (Hx & Hy).
      cbn [seq map length]. rewrite Hx, Hy. split; [reflexivity|].
      repeat constructor.
      * apply cell_centre_in_unit, Nat.mod_upper_bound; lia.
      * apply cell_centre_in_unit, Nat.mod_upper_bound; lia.
      * apply cell_centre_in_unit, Nat.Div0.div_lt_upper_bound; lia.
      * apply cell_centre_in_unit, Nat.Div0.div_lt_upper_bound; lia.
  - intros Z D t3 Ht3 b d k Hb Hd Hk.
    destruct (ref_2d_item _ _ _ _ _ _ _ _ Ht Hb Hk) as (Hx & Hy).
    destruct (ref_3d_item _ _ _ _ _ _ _ _ _ Ht3 Hb Hd Hk) as (Hx3 & Hy3 & _).
    rewrite Hx, Hy, Hx3, Hy3. split; reflexivity.
Qed.

(** ** [inverse_sigmoid] *)

Lemma sigmoid_in_unit (x : R) : 0 < sigmoid x < 1.
Proof.
  unfold sigmoid. pose proof (exp_pos (- x)) as He.
  apply div_in_unit. lra.
Qed.

Lemma logit_sigmoid (x : R) : ln (sigmoid x / (1 - sigmoid x)) = x.
Proof.
  unfold sigmoid. pose proof (exp_pos (- x)) as He.
  replace (1 / (1 + exp (- x)) / (1 - 1 / (1 + exp (- x)))) with (/ exp (- x))
    by (field; lra).
  rewrite ln_Rinv by assumption. rewrite ln_exp. lra.
Qed.

Lemma clamp_unit_id (x : R) : 0 <= x <= 1 -> clamp x 0 1 = x.
Proof.
  intros [H0 H1]. unfold clamp. rewrite Rmax_left by assumption.
  apply Rmin_left; assumption.
Qed.

Lemma clamp_unit_range (x : R) : 0 <= clamp x 0 1 <= 1.
Proof.
  unfold clamp. split.
  - apply Rmin_glb; [apply Rmax_r|lra].
  - apply Rmin_r.
Qed.

Lemma inverse_sigmoid_operands (x eps : R) :
  eps <= inverse_sigmoid_x1 x eps <= Rmax 1 eps /\
  eps <= inverse_sigmoid_x2 x eps <= Rmax 1 eps.
Proof.
  unfold inverse_sigmoid_x1, inverse_sigmoid_x2, clamp_min.
  pose proof (clamp_unit_range x) as [Hc0 Hc1].
  pose proof (Rmax_l 1 eps). pose proof (Rmax_r 1 eps).
  repeat split; try apply Rmax_r; apply Rmax_lub; lra.
Qed.

(** C7: (i) whenever [sigmoid x] lies in [[eps, 1 - eps]], the clamps of
    [inverse_sigmoid] are inactive and [inverse_sigmoid (sigmoid x) eps]
    is [x]; (ii) for a positive [eps] (the default [1e-5] included) and
    an input in [[0, 1]], both operands of the division are at least
    [eps], so that the divisor is not zero and the argument of the
    logarithm is positive, and at least [eps] when [eps <= 1]; (iii) near
    saturation the clamps confine the result to [[ln eps, - ln eps]]. *)
Theorem inverse_sigmoid_round_trip (x eps y : R) :
  (eps <= sigmoid x <= 1 - eps -> inverse_sigmoid (sigmoid x) eps = x) /\
  (0 < eps -> 0 <= y <= 1 ->
     eps <= inverse_sigmoid_x1 y eps /\
     eps <= inverse_sigmoid_x2 y eps /\
     inverse_sigmoid_x2 y eps <> 0 /\
     0 < inverse_sigmoid_x1 y eps / inverse_sigmoid_x2 y eps /\
     (eps <= 1 -> eps <= inverse_sigmoid_x1 y eps / inverse_sigmoid_x2 y eps)) /\
  (0 < eps <= 1 -> ln eps <= inverse_sigmoid y eps <= - ln eps) /\
  0 < default_eps <= 1.
Proof.
  destruct (inverse_sigmoid_operands y eps) as [[Ha1 Hb1] [Ha2 Hb2]].
  pose proof (eq_refl (inverse_sigmoid y eps)) as Hdef.
  unfold inverse_sigmoid at 2 in Hdef.
  set (x1 := inverse_sigmoid_x1 y eps) in *.
  set (x2 := inverse_sigmoid_x2 y eps) in *.
  assert (0 < eps <= 1 -> 0 < x2 /\ eps <= x1 / x2 <= / eps) as Hratio.
  { intros [He0 He1]. rewrite Rmax_left in Hb1, Hb2 by assumption.
    assert (0 < x2) as Hx2 by lra.
    assert (0 < / x2) as Hi by (apply Rinv_0_lt_compat; assumption).
    assert (/ x2 <= / eps) by (apply Rinv_le_contravar; lra).
    assert (1 <= / x2).
    { apply (Rmult_le_reg_r x2); [assumption|]. rewrite Rinv_l by lra. lra. }
    split; [assumption|]. unfold Rdiv. split; nra. }
  split; [|split; [|split]].
  - intros [Hlo Hhi]. pose proof (sigmoid_in_unit x) as [Hs0 Hs1].
    unfold inverse_sigmoid, inverse_sigmoid_x1, inverse_sigmoid_x2, clamp_min.
    rewrite clamp_unit_id by lra.
    rewrite !Rmax_left by lra.
    apply logit_sigmoid.
  - intros He Hy.
    assert (0 < x2) as Hx2 by lra.
    assert (0 < / x2) as Hi by (apply Rinv_0_lt_compat; assumption).
    split; [assumption|]. split; [assumption|]. split; [lra|].
    split; [unfold Rdiv; nra|].
    intros He1. apply Hratio. lra.
  - intros He. rewrite Hdef.
    destruct (Hratio He) as (Hx2 & Hlo & Hhi).
    rewrite <- ln_Rinv by lra.
    split.
    + destruct Hlo as [Hlt|Heq]; [|rewrite Heq; lra].
      apply Rlt_le, ln_increasing; lra.
    + destruct Hhi as [Hlt|Heq]; [|rewrite Heq; lra].
      apply Rlt_le, ln_increasing; lra.
  - unfold default_eps. lra.
Qed.

(** ** Ego-motion shift *)

Lemma atan_pos (x : R) : 0 < x -> 0 < atan x.
Proof. intros Hx. rewrite <- atan_0. apply atan_increasing. assumption. Qed.

Lemma atan_nonpos (x : R) : x <= 0 -> atan x <= 0.
Proof.
  intros [Hx | ->]; [|rewrite atan_0; lra].
  rewrite <- atan_0. apply Rlt_le, atan_increasing. assumption.
Qed.

Lemma arctan2_range (y x : R) : - PI < arctan2 y x <= PI.
Proof.
  pose proof PI_RGT_0 as Hpi. pose proof (atan_bound (y / x)) as [Hlo Hhi].
  unfold arctan2.
  destruct (Rlt_dec 0 x) as [Hx|Hx]; [lra|].
  destruct (Rlt_dec x 0) as [Hx'|Hx'].
  - assert (/ x < 0) as Hi by (apply Rinv_lt_0_compat; assumption).
    destruct (Rle_dec 0 y) as [Hy|Hy].
    + assert (atan (y / x) <= 0) by (apply atan_nonpos; unfold Rdiv; nra).
      lra.
    + assert (0 < atan (y / x)) by (apply atan_pos; unfold Rdiv; nra).
      lra.
  - destruct (Rlt_dec 0 y); [lra|].
    destruct (Rlt_dec y 0); lra.
Qed.

Lemma translation_angle_range (dx dy : R) : 0 <= translation_angle dx dy < 360.
Proof.
  pose proof PI_RGT_0 as Hpi. pose proof (arctan2_range dy dx) as [Hlo Hhi].
  assert (0 < / PI) as Hi by (apply Rinv_0_lt_compat; assumption).
  assert (-1 < arctan2 dy dx / PI <= 1) as [Hq0 Hq1].
  { split.
    - apply (Rmult_lt_reg_r PI); [assumption|].
      unfold Rdiv. rewrite Rmult_assoc, Rinv_l by lra. lra.
    - apply (Rmult_le_reg_r PI); [assumption|].
      unfold Rdiv. rewrite Rmult_assoc, Rinv_l by lra. lra. }
  unfold translation_angle.
  destruct (Rlt_dec (arctan2 dy dx / PI * 180) 0); lra.
Qed.

Lemma translation_angle_forward : translation_angle 1 0 = 0.
Proof.
  unfold translation_angle, arctan2.
  destruct (Rlt_dec 0 1) as [_|H]; [|lra].
  replace (0 / 1) with 0 by lra. rewrite atan_0.
  replace (0 / PI * 180) with 0 by (unfold Rdiv; ring).
  destruct (Rlt_dec 0 0); lra.
Qed.

(** C1: with [L = sqrt(delta_x^2 + delta_y^2)], the translation angle
    [atan2(delta_y, delta_x)] in degrees brought into [[0, 360)] by adding
    360 when negative, and [bev_angle = ego_angle - translation_angle] (in
    degrees, converted to radians for [sin] and [cos]), [compute_shift]
    returns [(L sin(bev_angle) / grid_x / W, L cos(bev_angle) / grid_y / H)]
    for a truthy [use_shift] other than ['waymo_shift'], the same with
    [sin] and [cos] exchanged for ['waymo_shift'], and [(0, 0)] for a falsy
    [use_shift]; for [delta_x = 1], [delta_y = 0], heading 0, unit grid
    lengths and [H = W = 10] the standard shift is [(0, 0.1)]. *)
Theorem compute_shift_formula (use_shift : pyval)
    (dx dy heading gx gy : R) (H W : nat) :
  let L := sqrt (dx * dx + dy * dy) in
  let atan2_deg := arctan2 dy dx * 180 / PI in
  let bev_angle := heading - translation_angle dx dy in
  let rad a := a * PI / 180 in
  0 <= translation_angle dx dy < 360 /\
  (translation_angle dx dy = atan2_deg \/
   translation_angle dx dy = atan2_deg + 360) /\
  (py_eq_str use_shift "waymo_shift" = false -> truthy use_shift = true ->
     compute_shift use_shift dx dy heading gx gy H W
     = (L * sin (rad bev_angle) / gx / INR W,
        L * cos (rad bev_angle) / gy / INR H)) /\
  (py_eq_str use_shift "waymo_shift" = true ->
     compute_shift use_shift dx dy heading gx gy H W
     = (L * cos (rad bev_angle) / gx / INR W,
        L * sin (rad bev_angle) / gy / INR H)) /\
  (truthy use_shift = false ->
     compute_shift use_shift dx dy heading gx gy H W = (0, 0)) /\
  compute_shift (PyBool true) 1 0 0 1 1 10 10 = (0, 0.1).
Proof.
  intros L atan2_deg bev_angle rad.
  assert (translation_length dx dy = L) as HL
    by (unfold translation_length, L; f_equal; ring).
  assert (forall a, a / 180 * PI = rad a) as Hrad
    by (intros a; unfold rad, Rdiv; ring).
  split; [apply translation_angle_range|].
  split.
  { unfold translation_angle, atan2_deg.
    replace (arctan2 dy dx / PI * 180) with (arctan2 dy dx * 180 / PI)
      by (unfold Rdiv; ring).
    destruct (Rlt_dec _ 0); [right|left]; reflexivity. }
  split; [|split; [|split]].
  - intros Hw Ht. unfold compute_shift. rewrite Hw, Ht, HL, Hrad. reflexivity.
  - intros Hw. unfold compute_shift. rewrite Hw, HL, Hrad. reflexivity.
  - intros Ht. unfold compute_shift.
    destruct use_shift as [| b | n | s]; cbn in Ht |- *; try rewrite Ht; try reflexivity.
    destruct (String.eqb_spec s "waymo_shift") as [->|_]; [discriminate Ht|].
    reflexivity.
  - unfold compute_shift. cbn [py_eq_str truthy].
    rewrite translation_angle_forward. unfold translation_length.
    replace (1 ^ 2 + 0 ^ 2) with 1 by ring. rewrite sqrt_1.
    replace ((0 - 0) / 180 * PI) with 0 by (unfold Rdiv; ring).
    rewrite sin_0, cos_0. cbn [INR]. f_equal; lra.
Qed.

(** Without displacement there is no shift, whatever the heading. *)
Lemma shift_zero_displacement (use_shift : pyval) (heading gx gy : R) (H W : nat) :
  compute_shift use_shift 0 0 heading gx gy H W = (0, 0).
Proof.
  unfold compute_shift, translation_length.
  replace (0 ^ 2 + 0 ^ 2) with 0 by ring. rewrite sqrt_0.
  destruct (py_eq_str use_shift "waymo_shift"); [|destruct (truthy use_shift)];
    try reflexivity; f_equal; unfold Rdiv; ring.
Qed.

(** ** [level_start_index] *)

Lemma wrap64_small (z : Z) : (- 2 ^ 63 <= z < 2 ^ 63)%Z -> wrap64 z = z.
Proof.
  intros Hz. unfold wrap64. rewrite Z.mod_small; lia.
Qed.

Lemma list_sum_cons (x : nat) (l : list nat) :
  list_sum (x :: l) = (x + list_sum l)%nat.
Proof. reflexivity. Qed.

Lemma tokens_le_total (ss : list (nat * nat)) (hw : nat * nat) :
  In hw ss -> (tokens hw <= total_tokens ss)%nat.
Proof.
  unfold total_tokens. induction ss as [|x ss IH]; intros Hin; [contradiction|].
  cbn [map]. rewrite list_sum_cons. destruct Hin as [->|Hin]; [lia|].
  specialize (IH Hin). lia.
Qed.

Lemma prod1_no_overflow (ss : list (nat * nat)) :
  (Z.of_nat (total_tokens ss) < 2 ^ 63)%Z ->
  prod1 (as_long_tensor ss) = map Z.of_nat (map tokens ss).
Proof.
  intros Hb. unfold prod1, as_long_tensor. rewrite !map_map.
  apply map_ext_in. intros hw Hin. cbn [fst snd].
  pose proof (tokens_le_total ss hw Hin) as Hle. unfold tokens in *.
  rewrite <- Nat2Z.inj_mul. apply wrap64_small. lia.
Qed.

Lemma cumsum_from_no_overflow (toks : list nat) (acc : nat) :
  (Z.of_nat (acc + list_sum toks) < 2 ^ 63)%Z ->
  cumsum_from (Z.of_nat acc) (map Z.of_nat toks)
  = map Z.of_nat (prefix_sums acc toks).
Proof.
  revert acc. induction toks as [|x toks IH]; intros acc Hb; [reflexivity|].
  rewrite list_sum_cons in Hb. cbn [map cumsum_from prefix_sums].
  rewrite <- Nat2Z.inj_add, wrap64_small by lia.
  rewrite IH by lia. reflexivity.
Qed.

Lemma starts_from_removelast (toks : list nat) (acc : nat) :
  toks <> [] ->
  acc :: removelast (prefix_sums acc toks) = starts_from acc toks.
Proof.
  revert acc. induction toks as [|x toks IH]; intros acc Hne; [contradiction|].
  destruct toks as [|y toks]; [reflexivity|].
  change (starts_from acc (x :: y :: toks))
    with (acc :: starts_from (acc + x) (y :: toks)).
  rewrite <- IH by discriminate. reflexivity.
Qed.

Lemma level_start_index_no_overflow (ss : list (nat * nat)) :
  ss <> [] -> (Z.of_nat (total_tokens ss) < 2 ^ 63)%Z ->
  level_start_index (as_long_tensor ss)
  = map Z.of_nat (starts_from 0 (map tokens ss)).
Proof.
  intros Hne Hb. unfold level_start_index, cumsum.
  rewrite prod1_no_overflow by assumption.
  rewrite (cumsum_from_no_overflow _ 0) by exact Hb.
  rewrite <- starts_from_removelast by (destruct ss; [contradiction|discriminate]).
  cbn [app map]. f_equal. generalize (prefix_sums 0 (map tokens ss)).
  induction l as [|a [|b l] IH]; try reflexivity.
  cbn [map removelast] in *. rewrite IH. reflexivity.
Qed.

Lemma starts_from_length (toks : list nat) (acc : nat) :
  length (starts_from acc toks) = length toks.
Proof.
  revert acc. induction toks as [|x toks IH]; intros acc; cbn; [|rewrite IH]; reflexivity.
Qed.

Lemma starts_from_nth (toks : list nat) (acc l : nat) :
  (l < length toks)%nat ->
  nth l (starts_from acc toks) 0%nat = (acc + list_sum (firstn l toks))%nat.
Proof.
  revert acc l. induction toks as [|x toks IH]; intros acc l Hl; cbn in Hl; [lia|].
  destruct l as [|l]; cbn [starts_from nth firstn]; [cbn; lia|].
  rewrite list_sum_cons.
  rewrite IH by lia. lia.
Qed.

Lemma list_sum_firstn_lt (toks : list nat) (i j : nat) :
  Forall (fun x => 0 < x)%nat toks -> (i < j <= length toks)%nat ->
  (list_sum (firstn i toks) < list_sum (firstn j toks))%nat.
Proof.
  intros Hpos. revert i j. induction Hpos as [|x toks Hx _ IH]; intros i j Hij.
  - cbn in Hij. lia.
  - destruct j as [|j]; [lia|]. cbn [length] in Hij.
    destruct i as [|i]; cbn [firstn]; rewrite ?list_sum_cons; [cbn; lia|].
    specialize (IH i j). lia.
Qed.

Lemma list_sum_firstn_last (toks : list nat) :
  toks <> [] ->
  (list_sum (firstn (length toks - 1) toks) + nth (length toks - 1) toks 0
   = list_sum toks)%nat.
Proof.
  induction toks as [|x toks IH]; intros Hne; [contradiction|].
  destruct toks as [|y toks]; [cbn; lia|].
  specialize (IH ltac:(discriminate)).
  cbn [length] in *. replace (S (S (length toks)) - 1)%nat with (S (length toks)) by lia.
  replace (S (length toks) - 1)%nat with (length toks) in IH by lia.
  cbn [firstn nth] in *. rewrite !list_sum_cons in *. lia.
Qed.

(** Without overflow the offsets are the prefix sums of the token counts. *)
Lemma level_start_index_sums (ss : list (nat * nat)) :
  let lsi := level_start_index (as_long_tensor ss) in
  (level_start_index (as_long_tensor [(4, 4); (2, 2)]%nat) = [0; 16]%Z /\
   total_tokens [(4, 4); (2, 2)]%nat = 20%nat) /\
  (ss <> [] -> (Z.of_nat (total_tokens ss) < 2 ^ 63)%Z ->
   length lsi = length ss /\
   (forall l, (l < length ss)%nat ->
      nth l lsi 0%Z = Z.of_nat (list_sum (firstn l (map tokens ss)))) /\
   nth 0 lsi 1%Z = 0%Z /\
   (Forall (fun hw => 0 < tokens hw)%nat ss ->
      forall i j, (i < j < length ss)%nat -> (nth i lsi 0 < nth j lsi 0)%Z) /\
   (nth (length ss - 1) lsi 0 + Z.of_nat (tokens (nth (length ss - 1) ss (0, 0)%nat))
    = Z.of_nat (total_tokens ss))%Z).
Proof.
  intros lsi. split; [split; reflexivity|].
  intros Hne Hb. subst lsi. rewrite level_start_index_no_overflow by assumption.
  set (toks := map tokens ss).
  assert (length toks = length ss) as Hlen by apply length_map.
  assert (forall l, (l < length ss)%nat ->
            nth l (map Z.of_nat (starts_from 0 toks)) 0%Z
            = Z.of_nat (list_sum (firstn l toks))) as Hnth.
  { intros l Hl. change 0%Z with (Z.of_nat 0). rewrite map_nth.
    rewrite starts_from_nth by lia. reflexivity. }
  assert (0 < length ss)%nat as Hpos by (destruct ss; [contradiction|cbn; lia]).
  split; [|split; [|split; [|split]]].
  - rewrite length_map, starts_from_length. exact Hlen.
  - exact Hnth.
  - destruct ss; [contradiction|]. reflexivity.
  - intros Hall i j Hij. rewrite !Hnth by lia. apply inj_lt.
    apply list_sum_firstn_lt; [|lia].
    unfold toks. apply Forall_map. exact Hall.
  - rewrite Hnth by lia. rewrite <- Nat2Z.inj_add. f_equal.
    change (0, 0)%nat with ((0, 0)%nat : nat * nat).
    replace (tokens (nth (length ss - 1) ss (0%nat, 0%nat)))
      with (nth (length ss - 1) toks 0%nat)
      by (unfold toks; change 0%nat with (tokens (0%nat, 0%nat)) at 2; apply map_nth).
    rewrite <- Hlen. apply list_sum_firstn_last.
    unfold toks. destruct ss; [contradiction|discriminate].
Qed.

(** ** Alignment of the previous BEV state *)

Lemma reshape_two_known (t : tensor) (p q : nat) :
  reshape t [Z.of_nat p; Z.of_nat q; -1]%Z
  = if ((0 <? p * q) && (numel t mod (p * q) =? 0))%nat
    then Ok (view_as t [p; q; (numel t / (p * q))%nat])
    else Raise RuntimeError.
Proof.
  unfold reshape, view, infer_sizes, known_prod.
  cbn [count_occ filter map Z.eqb].
  destruct (Z.eq_dec (Z.of_nat p) (-1)) as [E|_]; [lia|].
  destruct (Z.eq_dec (Z.of_nat q) (-1)) as [E|_]; [lia|].
  destruct (Z.eq_dec (-1) (-1)) as [_|E]; [|contradiction].
  rewrite !of_nat_not_wild. cbn [negb filter map prod fold_right Nat.eqb].
  rewrite !Nat2Z.id, Nat.mul_1_r. reflexivity.
Qed.

Lemma numel_rank3 (t : tensor) (a b c : nat) :
  shape t = [a; b; c] -> numel t = (a * b * c)%nat.
Proof. intros Hs. unfold numel. rewrite Hs. cbn. lia. Qed.

Section Align.

Variable rotate_values : tensor -> R -> option (list R) -> list nat -> R.

Lemma rotate_chain_spec (center : option (list R)) (H W : nat) (angle : R)
    (t : tensor) (n a b c : nat) :
  shape t = [a; b; c] ->
  ((0 < H * W * n)%nat /\ ((a * b * c) mod (H * W * n) = 0)%nat ->
     exists p, rotate_chain rotate_values center H W angle t n = Ok (Some p) /\
               shape p = [(H * W)%nat; n; (a * b * c / (H * W * n))%nat]) /\
  (~ ((0 < H * W * n)%nat /\ ((a * b * c) mod (H * W * n) = 0)%nat) ->
     raises (rotate_chain rotate_values center H W angle t n) = true).
Proof.
  intros Hs. pose proof (numel_rank3 t a b c Hs) as Hn.
  unfold rotate_chain. rewrite reshape_two_known, Hn.
  destruct ((0 <? H * W) && (a * b * c mod (H * W) =? 0))%nat eqn:C1.
  - apply andb_prop in C1. destruct C1 as [C1a C1b].
    apply Nat.ltb_lt in C1a. apply Nat.eqb_eq in C1b.
    set (k := (a * b * c / (H * W))%nat).
    assert (a * b * c = H * W * k)%nat as Hk
      by (apply Nat.Div0.div_exact; exact C1b).
    cbn [bind].
    assert (permute_checked (view_as t [H; W; k]) [2; 0; 1]%nat
            = Ok (permute (view_as t [H; W; k]) [2; 0; 1]%nat)) as -> by reflexivity.
    cbn [bind].
    set (p1 := rotate rotate_values _ angle center).
    assert (permute_checked p1 [1; 2; 0]%nat = Ok (permute p1 [1; 2; 0]%nat))
      as -> by reflexivity.
    cbn [bind].
    assert (shape (permute p1 [1; 2; 0]%nat) = [H; W; k]) as Hs2 by reflexivity.
    rewrite reshape_two_known, (numel_rank3 _ _ _ _ Hs2), <- Hk.
    destruct ((0 <? H * W * n) && (a * b * c mod (H * W * n) =? 0))%nat eqn:C2.
    + apply andb_prop in C2. destruct C2 as [C2a C2b].
      apply Nat.ltb_lt in C2a. apply Nat.eqb_eq in C2b.
      split; [|intros Hno; exfalso; apply Hno; split; assumption].
      intros _. eexists. split; reflexivity.
    + split; [|reflexivity].
      intros [P1 P2]. apply andb_false_iff in C2.
      destruct C2 as [C2|C2].
      * apply Nat.ltb_ge in C2. lia.
      * apply Nat.eqb_neq in C2. contradiction.
  - split; [|reflexivity].
    intros [P1 P2]. apply andb_false_iff in C1.
    destruct C1 as [C1|C1].
    + apply Nat.ltb_ge in C1. destruct (H * W)%nat; [cbn in P1|]; lia.
    + apply Nat.eqb_neq in C1. exfalso. apply C1.
      apply Nat.Div0.mod_divides in P2. destruct P2 as [m Hm].
      apply Nat.Div0.mod_divides. exists (n * m)%nat. lia.
Qed.

(** C2 (amended): [forward] never compares the spatial size of [prev_bev]
    with [bev_h * bev_w] in order to reject it.  For a three-axis
    [prev_bev] of shape [(a, b, c)], with [n] the size of its second axis
    after the optional transposition: a falsy [rotate_prev_bev] hands the
    state on, transposed when [b = bev_h * bev_w] and unchanged otherwise;
    with rotation enabled the state is reshaped to
    [(bev_h * bev_w, n, a*b*c / (bev_h * bev_w * n))] whenever
    [bev_h * bev_w * n] is positive and divides the number of entries, and
    an error is raised exactly when it does not. *)
Theorem align_prev_bev_behaviour (mode : pyval) (H W : nat) (angle : R)
    (prev : tensor) (a b c : nat) :
  shape prev = [a; b; c] ->
  let rotating := py_eq_str mode "waymo_rotate" || truthy mode in
  let n := if (b =? H * W)%nat then a else b in
  let fits := (0 < H * W * n)%nat /\ ((a * b * c) mod (H * W * n) = 0)%nat in
  (rotating = false ->
     align_prev_bev rotate_values mode H W angle (Some prev)
     = Ok (Some (if (b =? H * W)%nat then permute prev [1; 0; 2]%nat else prev))) /\
  (rotating = true -> fits ->
     exists p, align_prev_bev rotate_values mode H W angle (Some prev) = Ok (Some p) /\
               shape p = [(H * W)%nat; n; (a * b * c / (H * W * n))%nat]) /\
  (rotating = true -> ~ fits ->
     raises (align_prev_bev rotate_values mode H W angle (Some prev)) = true).
Proof.
  intros Hs rotating n fits.
  set (prev' := if (b =? H * W)%nat then permute prev [1; 0; 2]%nat else prev).
  assert (exists a' c', shape prev' = [a'; n; c'] /\ (a' * n * c' = a * b * c)%nat)
    as (a' & c' & Hs' & Hn').
  { unfold prev', n. destruct (b =? H * W)%nat.
    - exists b, c. cbn [permute shape map]. rewrite Hs. cbn [nth]. split; [reflexivity|lia].
    - exists a, c. split; [assumption|reflexivity]. }
  assert (align_prev_bev rotate_values mode H W angle (Some prev)
          = if py_eq_str mode "waymo_rotate"
            then rotate_chain rotate_values (Some [70; 150]) H W angle prev' n
            else if truthy mode then rotate_chain rotate_values None H W angle prev' n
            else Ok (Some prev')) as Halign.
  { unfold align_prev_bev, size, permute_checked, rank. rewrite Hs.
    cbn [nth_error bind length Nat.eqb].
    fold prev'.
    replace (bind (if (b =? H * W)%nat then Ok (permute prev [1; 0; 2]%nat) else Ok prev))
      with (bind (Ok prev') (B := option tensor))
      by (unfold prev'; destruct (b =? H * W)%nat; reflexivity).
    cbn [bind]. rewrite Hs'. cbn [nth_error bind]. reflexivity. }
  rewrite Halign. subst rotating.
  pose proof (rotate_chain_spec (Some [70; 150]) H W angle prev' n a' n c' Hs') as [Y1 N1].
  pose proof (rotate_chain_spec None H W angle prev' n a' n c' Hs') as [Y2 N2].
  rewrite Hn' in Y1, N1, Y2, N2.
  destruct (py_eq_str mode "waymo_rotate"), (truthy mode); cbn [orb];
    repeat split; intros; try discriminate; auto.
Qed.

End Align.

(** ** Runs of [forward] on the concrete instance *)

Example demo_run_well_shaped :
  raises (demo_forward (demo_module (PyBool true) (PyBool true) true)
            (Some (zeros [4; 1; 2]%nat)) (demo_kwargs [demo_can_bus])) = false.
Proof. reflexivity. Qed.

Example demo_run_rejected_by_encoder :
  raises (demo_forward (demo_module (PyBool true) (PyBool false) true)
            (Some (zeros [8; 1; 1]%nat)) (demo_kwargs [demo_can_bus])) = true.
Proof. reflexivity. Qed.

Example demo_run_mismatch :
  raises (demo_forward (demo_module (PyBool true) (PyBool true) true)
            (Some (zeros [8; 1; 1]%nat)) (demo_kwargs [demo_can_bus])) = false.
Proof. reflexivity. Qed.

(** ** Which inputs the stages of [forward] read *)

Lemma py_index_0 {A : Type} (l : list A) :
  py_index l 0 = match nth_error l 0 with
                 | Some a => Ok a
                 | None => Raise IndexError
                 end.
Proof. destruct l; reflexivity. Qed.

Lemma py_eq_str_flag_reading (sentinel : string) (v : pyval) :
  py_eq_str (flag_reading sentinel v) sentinel = py_eq_str v sentinel.
Proof.
  unfold flag_reading. destruct (py_eq_str v sentinel) eqn:E; cbn.
  - apply String.eqb_refl.
  - reflexivity.
Qed.

Lemma truthy_flag_reading (sentinel : string) (v : pyval) :
  py_eq_str v sentinel = false ->
  truthy (flag_reading sentinel v) = truthy v.
Proof. intros E. unfold flag_reading. rewrite E. reflexivity. Qed.

Lemma compute_shift_flag_reading (v : pyval) (dx dy heading gx gy : R) (H W : nat) :
  compute_shift (flag_reading "waymo_shift" v) dx dy heading gx gy H W
  = compute_shift v dx dy heading gx gy H W.
Proof.
  unfold compute_shift. rewrite py_eq_str_flag_reading.
  destruct (py_eq_str v "waymo_shift") eqn:E; [reflexivity|].
  rewrite truthy_flag_reading by assumption. reflexivity.
Qed.

(** One step of a monadic computation: split on the outcome of the first
    call whose result is examined. *)
Ltac step_result :=
  match goal with
  | |- ?x = ?x => reflexivity
  | |- context [match ?p with pair _ _ => _ end] =>
      destruct p; cbn [bind fmap]; try reflexivity
  | |- context [bind ?m _] =>
      lazymatch m with
      | bind _ _ => fail
      | _ => destruct m; cbn [bind fmap]; try reflexivity
      end
  end.

Section ForwardFacts.

Context {pyobj : Type}.
Variable rotate_values : tensor -> R -> option (list R) -> list nat -> R.

Lemma align_prev_bev_flag_reading (v : pyval) (H W : nat) (angle : R)
    (prev : option tensor) :
  align_prev_bev rotate_values (flag_reading "waymo_rotate" v) H W angle prev
  = align_prev_bev rotate_values v H W angle prev.
Proof.
  unfold align_prev_bev. rewrite py_eq_str_flag_reading.
  destruct (py_eq_str v "waymo_rotate") eqn:E; [reflexivity|].
  rewrite truthy_flag_reading by assumption. reflexivity.
Qed.

Lemma flatten_levels_with_flags (self : BEVTransformer pyobj) (f1 f2 : pyval)
    (feats : list tensor) (lvl bs : nat) :
  flatten_levels (with_flags self f1 f2) lvl feats bs = flatten_levels self lvl feats bs.
Proof.
  revert lvl bs. induction feats as [|feat rest IH]; intros lvl bs; [reflexivity|].
  cbn [flatten_levels].
  change (flatten_level (with_flags self f1 f2) lvl feat) with (flatten_level self lvl feat).
  destruct (flatten_level self lvl feat) as [[[f sp] bs']|e]; [|reflexivity].
  cbn [bind]. rewrite IH. reflexivity.
Qed.

Lemma flatten_level_without_cams (self : BEVTransformer pyobj) (lvl : nat) (feat : tensor) :
  use_cams_embeds self = false ->
  flatten_level self lvl feat
  = match shape feat with
    | [bs; num_cam; c; h; w] =>
        fmap (fun f => (f, (h, w), bs))
          (add_t (permute (flatten feat 3) [1; 0; 3; 2]%nat)
                 (unsqueeze (unsqueeze (slice_rows (level_embeds self) lvl (lvl + 1)) 0) 0))
    | _ => Raise ValueError
    end.
Proof.
  intros Hoff. unfold flatten_level. rewrite Hoff.
  destruct (shape feat) as [|bs [|num_cam [|c [|h [|w [|]]]]]]; reflexivity.
Qed.

Lemma flatten_levels_with_cams_embeds (self : BEVTransformer pyobj) (table : tensor)
    (feats : list tensor) (lvl bs : nat) :
  use_cams_embeds self = false ->
  flatten_levels (with_cams_embeds self table) lvl feats bs
  = flatten_levels self lvl feats bs.
Proof.
  intros Hoff. revert lvl bs.
  induction feats as [|feat rest IH]; intros lvl bs; [reflexivity|].
  cbn [flatten_levels].
  rewrite (flatten_level_without_cams self), (flatten_level_without_cams (with_cams_embeds self table))
    by assumption.
  cbn [level_embeds with_cams_embeds].
  destruct (shape feat) as [|b0 [|num_cam [|c [|h [|w [|]]]]]]; try reflexivity.
  destruct (add_t _ _) as [f|e]; [|reflexivity].
  cbn [fmap bind]. rewrite IH. reflexivity.
Qed.

End ForwardFacts.

(** ** The flattened feature sequence *)

Lemma broadcast_rev_cons (d1 d2 : nat) (r1 r2 : list nat) :
  broadcast_rev (d1 :: r1) (d2 :: r2)
  = match broadcast_rev r1 r2, bdim d1 d2 with
    | Some r, Some d => Some (d :: r)
    | _, _ => None
    end.
Proof.
  cbn [broadcast_rev]. unfold bdim.
  destruct (broadcast_rev r1 r2); [|destruct (d1 =? d2)%nat, (d1 =? 1)%nat, (d2 =? 1)%nat; reflexivity].
  destruct (d1 =? d2)%nat, (d1 =? 1)%nat, (d2 =? 1)%nat; reflexivity.
Qed.

Lemma broadcast_shape_rank4 (a1 a2 a3 a4 b1 b2 b3 b4 : nat) (sh : list nat) :
  broadcast_shape [a1; a2; a3; a4] [b1; b2; b3; b4] = Some sh ->
  exists x1 x2 x3 x4,
    sh = [x1; x2; x3; x4] /\
    bdim a1 b1 = Some x1 /\ bdim a2 b2 = Some x2 /\
    bdim a3 b3 = Some x3 /\ bdim a4 b4 = Some x4.
Proof.
  unfold broadcast_shape. cbn [rev app]. rewrite !broadcast_rev_cons.
  cbn [broadcast_rev].
  destruct (bdim a1 b1) as [x1|]; [|discriminate].
  destruct (bdim a2 b2) as [x2|]; [|discriminate].
  destruct (bdim a3 b3) as [x3|]; [|discriminate].
  destruct (bdim a4 b4) as [x4|]; [|discriminate].
  cbn. intros Hsh. injection Hsh as <-.
  exists x1, x2, x3, x4. repeat split; reflexivity.
Qed.

Lemma bdim_one_r (d x : nat) : bdim d 1 = Some x -> x = d.
Proof.
  unfold bdim. destruct (Nat.eqb_spec d 1) as [->|Hd]; cbn.
  - intros H. injection H as <-. reflexivity.
  - intros H. injection H as <-. reflexivity.
Qed.

Lemma bdim_same (d x : nat) : bdim d d = Some x -> x = d.
Proof.
  unfold bdim. rewrite Nat.eqb_refl. intros H. injection H as <-. reflexivity.
Qed.

(** The index of an operand entry is the index itself when it is within
    the operand's shape. *)
Lemma operand_index_in_range (sh idx : list nat) :
  length idx = length sh ->
  Forall2 (fun d i => (i < d)%nat) sh idx ->
  operand_index sh idx = idx.
Proof.
  intros Hlen Hall. unfold operand_index. rewrite Hlen, Nat.sub_diag.
  cbn [skipn]. unfold bcast_index. clear Hlen.
  induction Hall as [|d i sh idx Hi _ IH]; [reflexivity|].
  cbn [map2]. rewrite IH. destruct (Nat.eqb_spec d 1) as [->|_]; [|reflexivity].
  f_equal. lia.
Qed.

Lemma reshaped_feat_shape (feat : tensor) (b n c h w : nat) :
  shape feat = [b; n; c; h; w] ->
  shape (permute (flatten feat 3) [1; 0; 3; 2]%nat) = [n; b; (h * w)%nat; c].
Proof.
  intros Hs. cbn [permute flatten shape map]. rewrite Hs.
  cbn [firstn skipn app nth prod fold_right]. rewrite Nat.mul_1_r. reflexivity.
Qed.

Lemma reshaped_feat_item (feat : tensor) (b n c h w cam bb k e : nat) :
  shape feat = [b; n; c; h; w] ->
  item (permute (flatten feat 3) [1; 0; 3; 2]%nat) [cam; bb; k; e]
  = item feat [bb; cam; e; (k / w)%nat; (k mod w)%nat].
Proof.
  intros Hs. cbn [permute flatten item]. rewrite Hs.
  cbn -[Nat.div Nat.modulo]. rewrite Nat.mul_1_r. reflexivity.
Qed.

Lemma level_row_shape (table : tensor) (L E lvl : nat) :
  shape table = [L; E] -> (lvl < L)%nat ->
  shape (unsqueeze (unsqueeze (slice_rows table lvl (lvl + 1)) 0) 0) = [1; 1; 1; E]%nat.
Proof.
  intros Hs Hl. unfold slice_rows. rewrite Hs. cbn.
  replace (Nat.min (lvl + 1) L - Nat.min lvl L)%nat with 1%nat by lia.
  reflexivity.
Qed.

Lemma level_row_item (table : tensor) (L E lvl e : nat) :
  shape table = [L; E] -> (lvl < L)%nat ->
  item (unsqueeze (unsqueeze (slice_rows table lvl (lvl + 1)) 0) 0) [0; 0; 0; e]%nat
  = item table [lvl; e].
Proof.
  intros Hs Hl. unfold slice_rows. rewrite Hs. cbn.
  replace (Nat.min lvl L + 0)%nat with lvl by lia. reflexivity.
Qed.

Lemma cam_rows_shape (table : tensor) (N E : nat) :
  shape table = [N; E] ->
  shape (unsqueeze (unsqueeze table 1) 1) = [N; 1; 1; E]%nat.
Proof. intros Hs. cbn. rewrite Hs. reflexivity. Qed.

Section FlattenFacts.

Context {pyobj : Type}.
Variable self : BEVTransformer pyobj.

Lemma flatten_levels_spatial_shapes (feats : list tensor) (lvl bs : nat)
    (fs : list tensor) (sps : list (nat * nat)) (bs' : nat) :
  flatten_levels self lvl feats bs = Ok (fs, sps, bs') ->
  sps = map feat_hw feats.
Proof.
  revert lvl bs fs sps bs'.
  induction feats as [|feat rest IH]; intros lvl bs fs sps bs' Hok.
  - cbn in Hok. injection Hok as _ <- _. reflexivity.
  - cbn [flatten_levels] in Hok.
    destruct (flatten_level self lvl feat) as [[[f sp] b]|] eqn:Hlevel; [|discriminate].
    cbn [bind] in Hok.
    destruct (flatten_levels self (S lvl) rest b) as [[[fs' sps'] b']|] eqn:Hrest;
      [|discriminate].
    cbn [bind] in Hok. injection Hok as _ <- _.
    rewrite (IH _ _ _ _ _ Hrest). cbn [map]. f_equal.
    unfold flatten_level in Hlevel. unfold feat_hw.
    destruct (shape feat) as [|b0 [|n [|c [|h [|w [|]]]]]]; try discriminate.
    destruct (use_cams_embeds self);
      repeat match type of Hlevel with
             | context [bind ?m _] =>
                 lazymatch m with
                 | bind _ _ => fail
                 | _ => destruct m; cbn [bind] in Hlevel; [|discriminate Hlevel]
                 end
             end;
      injection Hlevel as _ <- _; reflexivity.
Qed.

Lemma flatten_feats_spatial_shapes (feats : list tensor) (bs0 : nat)
    (ff : tensor) (ss : list (Z * Z)) (bs' : nat) :
  flatten_feats self feats bs0 = Ok (ff, ss, bs') ->
  ss = as_long_tensor (map feat_hw feats).
Proof.
  unfold flatten_feats.
  destruct (flatten_levels self 0 feats bs0) as [[[fs sps] b]|] eqn:Hlv; [|discriminate].
  cbn [bind]. destruct (cat fs 2) as [r|]; [|discriminate].
  cbn [bind]. intros Hok. injection Hok as _ <- _.
  rewrite (flatten_levels_spatial_shapes _ _ _ _ _ _ Hlv). reflexivity.
Qed.

Hypothesis Htables : tables_as_initialised self.

Lemma flatten_level_shape (lvl : nat) (feat f : tensor) (sp : nat * nat) (b0 : nat) :
  (lvl < num_feature_levels self)%nat ->
  flatten_level self lvl feat = Ok (f, sp, b0) ->
  sp = feat_hw feat /\ b0 = nth 0 (shape feat) 0%nat /\
  length (shape f) = 4%nat /\ dim2 f = tokens (feat_hw feat).
Proof.
  destruct Htables as [Hlev Hcam]. intros Hl. unfold flatten_level, feat_hw, tokens, dim2.
  destruct (shape feat) as [|b [|n [|c [|h [|w [|]]]]]] eqn:Hs; try discriminate.
  pose proof (reshaped_feat_shape feat b n c h w Hs) as Hr.
  set (r := permute (flatten feat 3) [1; 0; 3; 2]%nat) in *.
  pose proof (level_row_shape _ _ _ lvl Hlev Hl) as Hrow.
  set (row := unsqueeze (unsqueeze (slice_rows (level_embeds self) lvl (lvl + 1)) 0) 0) in *.
  pose proof (cam_rows_shape _ _ _ Hcam) as Hcr.
  set (cr := unsqueeze (unsqueeze (cams_embeds self) 1) 1) in *.
  assert (forall t x1 x2 x4 g, shape t = [x1; x2; (h * w)%nat; x4] ->
            add_t t row = Ok g ->
            length (shape g) = 4%nat /\ nth 2 (shape g) 0%nat = (h * w)%nat) as Hadd.
  { intros t x1 x2 x4 g Ht. unfold add_t. rewrite Ht, Hrow.
    destruct (broadcast_shape _ _) as [sh|] eqn:Hb; [|discriminate].
    intros Hg. injection Hg as <-.
    apply broadcast_shape_rank4 in Hb.
    destruct Hb as (y1 & y2 & y3 & y4 & -> & _ & _ & H3 & _).
    apply bdim_one_r in H3. subst y3. split; reflexivity. }
  destruct (use_cams_embeds self).
  - unfold add_t at 1. rewrite Hr, Hcr.
    destruct (broadcast_shape _ _) as [sh|] eqn:Hb; [|discriminate].
    apply broadcast_shape_rank4 in Hb.
    destruct Hb as (y1 & y2 & y3 & y4 & -> & _ & _ & H3 & _).
    apply bdim_one_r in H3. subst y3. cbn [bind].
    destruct (add_t _ row) as [g|] eqn:Hg; [|discriminate].
    cbn [bind]. intros Hok. injection Hok as <- <- <-.
    eapply Hadd in Hg; [|reflexivity]. destruct Hg as [H4 H2].
    cbn [nth]. repeat split; assumption.
  - cbn [bind]. destruct (add_t r row) as [g|] eqn:Hg; [|discriminate].
    cbn [bind]. intros Hok. injection Hok as <- <- <-.
    destruct (Hadd _ n b c g Hr Hg) as [H4 H2].
    cbn [nth]. repeat split; assumption.
Qed.

Lemma flatten_levels_spec (feats : list tensor) (lvl bs : nat)
    (fs : list tensor) (sps : list (nat * nat)) (bs' : nat) :
  (lvl + length feats <= num_feature_levels self)%nat ->
  flatten_levels self lvl feats bs = Ok (fs, sps, bs') ->
  sps = map feat_hw feats /\
  Forall (fun f => length (shape f) = 4%nat) fs /\
  map dim2 fs = map tokens (map feat_hw feats) /\
  forall l feat, nth_error feats l = Some feat ->
    exists f sp b, nth_error fs l = Some f /\
                   flatten_level self (lvl + l) feat = Ok (f, sp, b).
Proof.
  revert lvl bs fs sps bs'.
  induction feats as [|feat rest IH]; intros lvl bs fs sps bs' Hlen Hok.
  - cbn in Hok. injection Hok as <- <- <-.
    repeat split; try constructor. intros [|l] feat Hnth; discriminate Hnth.
  - cbn [flatten_levels] in Hok. cbn [length] in Hlen.
    destruct (flatten_level self lvl feat) as [[[f sp] b]|] eqn:Hlevel; [|discriminate].
    cbn [bind] in Hok.
    destruct (flatten_levels self (S lvl) rest b) as [[[fs' sps'] b']|] eqn:Hrest;
      [|discriminate].
    cbn [bind] in Hok. injection Hok as <- <- <-.
    destruct (flatten_level_shape lvl feat f sp b ltac:(lia) Hlevel)
      as (-> & _ & H4 & H2).
    destruct (IH (S lvl) b fs' sps' b' ltac:(lia) Hrest) as (-> & Hall & Hdims & Hnth).
    repeat split.
    + constructor; assumption.
    + cbn [map]. rewrite H2, Hdims. reflexivity.
    + intros [|l] feat' Hfeat'; cbn [nth_error] in *.
      * injection Hfeat' as <-. exists f, (feat_hw feat), b.
        rewrite Nat.add_0_r. split; [reflexivity|assumption].
      * destruct (Hnth l feat' Hfeat') as (f' & sp' & b'' & Hf' & Hl').
        exists f', sp', b''. split; [assumption|].
        replace (lvl + S l)%nat with (S lvl + l)%nat by lia. assumption.
Qed.

End FlattenFacts.

Lemma cat_pair_rank4 (a b r : tensor) :
  length (shape a) = 4%nat ->
  cat_pair 2 a b = Ok r ->
  length (shape r) = 4%nat /\
  dim2 r = (dim2 a + dim2 b)%nat /\
  forall i j k e,
    item r [i; j; k; e]
    = if (k <? dim2 a)%nat then item a [i; j; k; e]
      else item b [i; j; (k - dim2 a)%nat; e].
Proof.
  intros H4. unfold cat_pair, dim2.
  destruct (shape a) as [|a1 [|a2 [|a3 [|a4 [|]]]]] eqn:Hs; try discriminate H4.
  destruct ((2 <? rank a) && same_except 2 [a1; a2; a3; a4] (shape b))%nat;
    [|discriminate].
  intros Hr. injection Hr as <-. cbn [shape item set_nth nth length].
  repeat split; reflexivity.
Qed.

Lemma cat_tokens (ts : list tensor) (r : tensor) :
  Forall (fun t => length (shape t) = 4%nat) ts ->
  cat ts 2 = Ok r ->
  length (shape r) = 4%nat /\
  dim2 r = list_sum (map dim2 ts) /\
  forall l t, nth_error ts l = Some t ->
    forall i j k e, (k < dim2 t)%nat ->
      item r [i; j; (list_sum (map dim2 (firstn l ts)) + k)%nat; e]
      = item t [i; j; k; e].
Proof.
  intros Hall. revert r. induction Hall as [|t ts H4 Hall IH]; intros r Hcat.
  - discriminate Hcat.
  - cbn [cat] in Hcat. destruct ts as [|t' ts'].
    + destruct (2 <? rank t)%nat; [|discriminate]. injection Hcat as <-.
      repeat split; [assumption|cbn; lia|].
      intros [|[|l]] t0 Hnth; try discriminate Hnth.
      injection Hnth as <-. intros i j k e _. reflexivity.
    + destruct (cat (t' :: ts') 2) as [r'|] eqn:Hrest; [|discriminate].
      cbn [bind] in Hcat.
      destruct (IH r' eq_refl) as (_ & Hdim' & Hitem').
      destruct (cat_pair_rank4 t r' r H4 Hcat) as (Hr4 & Hdim & Hitem).
      repeat split; [assumption| |].
      * rewrite Hdim, Hdim'. reflexivity.
      * intros [|l] t0 Hnth i j k e Hk; cbn [nth_error] in Hnth.
        -- injection Hnth as <-. rewrite Hitem. cbn [firstn map].
           change (list_sum []) with 0%nat. cbn [Nat.add].
           destruct (Nat.ltb_spec k (dim2 t)); [reflexivity|lia].
        -- rewrite Hitem. cbn [firstn map]. rewrite list_sum_cons.
           destruct (Nat.ltb_spec (dim2 t + list_sum (map dim2 (firstn l (t' :: ts'))) + k)
                                  (dim2 t)); [lia|].
           replace (dim2 t + list_sum (map dim2 (firstn l (t' :: ts'))) + k - dim2 t)%nat
             with (list_sum (map dim2 (firstn l (t' :: ts'))) + k)%nat by lia.
           apply Hitem'; assumption.
Qed.

Section FlattenedSequence.

Context {pyobj : Type}.
Variable self : BEVTransformer pyobj.
Hypothesis Htables : tables_as_initialised self.

Lemma flatten_level_item_without_cams (lvl : nat) (feat f : tensor)
    (sp : nat * nat) (b0 b n c h w : nat) :
  use_cams_embeds self = false ->
  (lvl < num_feature_levels self)%nat ->
  shape feat = [b; n; c; h; w] -> c = embed_dims self ->
  flatten_level self lvl feat = Ok (f, sp, b0) ->
  forall cam bb k e, (cam < n)%nat -> (bb < b)%nat -> (k < h * w)%nat -> (e < c)%nat ->
    item f [cam; bb; k; e]
    = item feat [bb; cam; e; (k / w)%nat; (k mod w)%nat] + item (level_embeds self) [lvl; e].
Proof.
  destruct Htables as [Hlev _]. intros Hoff Hl Hs Hc.
  rewrite flatten_level_without_cams by assumption. rewrite Hs.
  pose proof (reshaped_feat_shape feat b n c h w Hs) as Hr.
  pose proof (level_row_shape _ _ _ lvl Hlev Hl) as Hrow.
  pose proof (fun cam bb k e => reshaped_feat_item feat b n c h w cam bb k e Hs) as Hri.
  pose proof (fun e => level_row_item _ _ _ lvl e Hlev Hl) as Hrowi.
  remember (permute (flatten feat 3) [1; 0; 3; 2]%nat) as r eqn:Er.
  remember (unsqueeze (unsqueeze (slice_rows (level_embeds self) lvl (lvl + 1)) 0) 0)
    as row eqn:Erow.
  clear Er Erow.
  unfold fmap, add_t. rewrite Hr, Hrow.
  destruct (broadcast_shape _ _) as [sh|]; [|discriminate].
  cbn [bind]. intros Hok. injection Hok as <- _ _.
  intros cam bb k e Hcam Hbb Hk He. cbn [item].
  rewrite (operand_index_in_range [n; b; (h * w)%nat; c])
    by (try reflexivity; repeat constructor; assumption).
  rewrite Hri.
  f_equal.
  replace (operand_index [1; 1; 1; embed_dims self]%nat [cam; bb; k; e])
    with [0; 0; 0; e]%nat.
  - apply Hrowi.
  - unfold operand_index, bcast_index. cbn [length Nat.sub skipn map2 Nat.eqb].
    destruct (Nat.eqb_spec (embed_dims self) 1) as [E1|_]; [|reflexivity].
    repeat f_equal. lia.
Qed.

(** The spatial shapes and the length of the token axis, whatever the
    value of [use_cams_embeds]. *)
Lemma flatten_feats_shapes (feats : list tensor) (bs0 : nat)
    (ff : tensor) (ss : list (Z * Z)) (bs' : nat) :
  (length feats <= num_feature_levels self)%nat ->
  flatten_feats self feats bs0 = Ok (ff, ss, bs') ->
  ss = as_long_tensor (map feat_hw feats) /\
  dim2 ff = total_tokens (map feat_hw feats).
Proof.
  intros Hlen. unfold flatten_feats.
  destruct (flatten_levels self 0 feats bs0) as [[[fs sps] b]|] eqn:Hlv; [|discriminate].
  cbn [bind]. destruct (cat fs 2) as [r|] eqn:Hcat; [|discriminate].
  cbn [bind]. intros Hok. injection Hok as <- <- <-.
  destruct (flatten_levels_spec self Htables feats 0 bs0 fs sps b ltac:(lia) Hlv)
    as (-> & H4 & Hdims & _).
  destruct (cat_tokens fs r H4 Hcat) as (_ & Hdim & _).
  split; [reflexivity|]. rewrite Hdim, Hdims. reflexivity.
Qed.

(** With [use_cams_embeds] off, entry by entry: token [k] of level [l]
    sits at position [start_l + k] of the sequence and holds the input
    entry of cell [(k / w, k mod w)] plus the entry of row [l] of
    [level_embeds]. *)
Lemma flatten_feats_items_without_cams (feats : list tensor) (bs0 : nat)
    (ff : tensor) (ss : list (Z * Z)) (bs' : nat) :
  use_cams_embeds self = false ->
  (length feats <= num_feature_levels self)%nat ->
  flatten_feats self feats bs0 = Ok (ff, ss, bs') ->
  forall l feat b n c h w,
    nth_error feats l = Some feat ->
    shape feat = [b; n; c; h; w] -> c = embed_dims self ->
    forall cam bb k e, (cam < n)%nat -> (bb < b)%nat -> (k < h * w)%nat -> (e < c)%nat ->
      item (permute ff [0; 2; 1; 3]%nat)
           [cam; (list_sum (firstn l (map tokens (map feat_hw feats))) + k)%nat; bb; e]
      = item feat [bb; cam; e; (k / w)%nat; (k mod w)%nat]
        + item (level_embeds self) [l; e].
Proof.
  intros Hoff Hlen. unfold flatten_feats.
  destruct (flatten_levels self 0 feats bs0) as [[[fs sps] b]|] eqn:Hlv; [|discriminate].
  cbn [bind]. destruct (cat fs 2) as [r|] eqn:Hcat; [|discriminate].
  cbn [bind]. intros Hok. injection Hok as <- _ _.
  destruct (flatten_levels_spec self Htables feats 0 bs0 fs sps b ltac:(lia) Hlv)
    as (_ & H4 & Hdims & Hnth).
  destruct (cat_tokens fs r H4 Hcat) as (_ & _ & Hitem).
  intros l feat b1 n c h w Hfeat Hs Hc cam bb k e Hcam Hbb Hk He.
  destruct (Hnth l feat Hfeat) as (f & sp & b2 & Hf & Hlevel).
  cbn [Nat.add] in Hlevel.
  assert (l < length feats)%nat as Hl by (apply nth_error_Some; congruence).
  destruct (flatten_level_shape self Htables l feat f sp b2 ltac:(lia) Hlevel)
    as (_ & _ & _ & Hd2).
  assert (dim2 f = (h * w)%nat) as Hd2'
    by (rewrite Hd2; unfold tokens, feat_hw; rewrite Hs; reflexivity).
  change (item (permute r [0; 2; 1; 3]%nat) [cam; ?p; bb; e])
    with (item r [cam; bb; p; e]).
  rewrite <- Hdims, firstn_map.
  rewrite (Hitem l f Hf) by lia.
  apply (flatten_level_item_without_cams l feat f sp b2 b1 n c h w); try assumption; lia.
Qed.

End FlattenedSequence.

(** ** [forward] as a whole *)

Section ForwardTheorems.

Context {pyobj : Type}.
Variable rotate_values : tensor -> R -> option (list R) -> list nat -> R.

(** Anatomy of a call that reaches the encoder: the value of every
    argument in terms of the stage that produced it. *)
Lemma encoder_inputs_stages (self : BEVTransformer pyobj)
    (mlvl_feats : list tensor) (bev_embed : tensor) (bev_h bev_w : nat)
    (grid_length : grid_length_t) (bev_pos : option tensor)
    (prev_bev : option tensor) (gt_bboxes_3d : pyobj) (kwargs : kwargs_t pyobj)
    (call : encoder_call pyobj) (bs' : nat) :
  encoder_inputs rotate_values self mlvl_feats bev_embed bev_h bev_w grid_length
    bev_pos prev_bev gt_bboxes_3d kwargs = Ok (call, bs') ->
  exists feat0 bs meta0 ego gx gy feat_flatten,
    py_index mlvl_feats 0 = Ok feat0 /\ size feat0 0 = Ok bs /\
    py_index (img_metas kwargs) 0 = Ok meta0 /\
    read_ego_motion (can_bus meta0) = Ok ego /\
    grid_lengths grid_length = Ok (gx, gy) /\
    enc_shift call
    = tensor_of_list
        [fst (compute_shift (use_shift self) (delta_x ego) (delta_y ego)
                (ego_angle ego) gx gy bev_h bev_w);
         snd (compute_shift (use_shift self) (delta_x ego) (delta_y ego)
                (ego_angle ego) gx gy bev_h bev_w)] /\
    align_prev_bev rotate_values (rotate_prev_bev self) bev_h bev_w
      (rotation_angle ego) prev_bev = Ok (enc_prev_bev call) /\
    add_can_bus self (repeat_t (unsqueeze bev_embed 1) [1; bs; 1]%nat) (can_bus meta0)
    = Ok (enc_query call) /\
    flatten_feats self mlvl_feats bs = Ok (feat_flatten, enc_spatial_shapes call, bs') /\
    enc_key call = permute feat_flatten [0; 2; 1; 3]%nat /\
    enc_value call = enc_key call /\
    enc_level_start_index call = level_start_index (enc_spatial_shapes call) /\
    enc_ref_3d call
    = get_reference_points bev_h bev_w (Z_range self) (D_samples self) "3d" bs /\
    enc_ref_2d call = get_reference_points bev_h bev_w 8 4 "2d" bs /\
    enc_kwargs call = kwargs.
Proof.
  unfold encoder_inputs. intros Hok.
  repeat match type of Hok with
         | context [match ?p with pair _ _ => _ end] => destruct p eqn:?
         | context [bind ?m _] =>
             lazymatch m with
             | bind _ _ => fail
             | _ => destruct m eqn:?; cbn [bind] in Hok; [|discriminate Hok]
             end
         end.
  injection Hok as <- <-. cbn [enc_shift enc_prev_bev enc_query enc_spatial_shapes
    enc_key enc_value enc_level_start_index enc_ref_3d enc_ref_2d enc_kwargs].
  do 7 eexists. repeat split; try eassumption; try reflexivity.
  match goal with
  | H : compute_shift _ _ _ _ _ _ _ _ = _ |- _ => rewrite H
  end.
  reflexivity.
Qed.

(** C6: in every call of [forward] that reaches the encoder with a list
    of feature levels of spatial shapes [(h_l, w_l)] (the list is then
    non-empty, and its total token count fits the 64-bit integers of the
    index tensor, as the size of every existing tensor does), the
    [level_start_index] handed to the encoder holds the prefix sums of
    [h_l * w_l] starting at 0: entry [l] is the sum of the first [l]
    products, entry 0 is 0, the entries increase strictly when every
    product is positive, and the last entry plus the last product is the
    total token count, which is the length of the token axis of the
    flattened features; shapes [(4,4), (2,2)] give [[0, 16]] and 20
    tokens. *)
Theorem level_start_index_prefix_sums (self : BEVTransformer pyobj)
    (mlvl_feats : list tensor) (bev_embed : tensor) (bev_h bev_w : nat)
    (grid_length : grid_length_t) (bev_pos : option tensor)
    (prev_bev : option tensor) (gt_bboxes_3d : pyobj) (kwargs : kwargs_t pyobj)
    (call : encoder_call pyobj) (bs' : nat) :
  encoder_inputs rotate_values self mlvl_feats bev_embed bev_h bev_w grid_length
    bev_pos prev_bev gt_bboxes_3d kwargs = Ok (call, bs') ->
  let ss := map feat_hw mlvl_feats in
  let lsi := enc_level_start_index call in
  (Z.of_nat (total_tokens ss) < 2 ^ 63)%Z ->
  mlvl_feats <> [] /\
  enc_spatial_shapes call = as_long_tensor ss /\
  lsi = level_start_index (as_long_tensor ss) /\
  (tables_as_initialised self ->
   (length mlvl_feats <= num_feature_levels self)%nat ->
   nth 1 (shape (enc_key call)) 0%nat = total_tokens ss) /\
  length lsi = length mlvl_feats /\
  (forall l, (l < length mlvl_feats)%nat ->
     nth l lsi 0%Z = Z.of_nat (list_sum (firstn l (map tokens ss)))) /\
  nth 0 lsi 1%Z = 0%Z /\
  (Forall (fun hw => 0 < tokens hw)%nat ss ->
   forall i j, (i < j < length mlvl_feats)%nat -> (nth i lsi 0 < nth j lsi 0)%Z) /\
  (nth (length mlvl_feats - 1) lsi 0
   + Z.of_nat (tokens (nth (length mlvl_feats - 1) ss (0, 0)%nat))
   = Z.of_nat (total_tokens ss))%Z /\
  (level_start_index (as_long_tensor [(4, 4); (2, 2)]%nat) = [0; 16]%Z /\
   total_tokens [(4, 4); (2, 2)]%nat = 20%nat).
Proof.
  intros Hok ss lsi Hbound.
  destruct (encoder_inputs_stages _ _ _ _ _ _ _ _ _ _ _ _ Hok)
    as (feat0 & bs & meta0 & ego & gx & gy & ff & Hfeat0 & _ & _ & _ & _ & _ & _ & _
        & Hflat & Hkey & _ & Hlsi & _).
  assert (mlvl_feats <> []) as Hne by (intros ->; discriminate Hfeat0).
  pose proof (flatten_feats_spatial_shapes self _ _ _ _ _ Hflat) as Hss.
  assert (ss <> []) as Hne' by (unfold ss; destruct mlvl_feats; [contradiction|discriminate]).
  assert (length ss = length mlvl_feats) as Hlen by apply length_map.
  destruct (level_start_index_sums ss) as (Hex & Hgen).
  destruct (Hgen Hne' Hbound) as (H1 & H2 & H3 & H4 & H5).
  subst lsi. rewrite Hlsi, Hss. fold ss. rewrite <- Hlen.
  split; [exact Hne|]. split; [reflexivity|]. split; [reflexivity|].
  split; [|repeat split; solve [assumption | apply Hex]].
  intros Htables Hlevels. rewrite Hlen in Hlevels.
  {
    destruct (flatten_feats_shapes self Htables _ _ _ _ _ Hlevels Hflat) as [_ Hd].
    rewrite Hkey. exact Hd. }
Qed.

(** C8: with [use_cams_embeds] off, each level of the flattened features
    is the reshaped input, [feat.flatten(3).permute(1, 0, 3, 2)], plus the
    row of [level_embeds] of that level and nothing else: entry by entry,
    token [k] of level [l] sits at position [start_l + k] and holds the
    input entry of cell [(k / w, k mod w)] plus the entry of row [l] of
    [level_embeds].  [forward] does not depend on the camera-embedding
    table: replacing the table by any other leaves the flattened
    features, the arguments of the encoder and the result of [forward]
    unchanged. *)
Theorem cams_embeds_unread_when_disabled (self : BEVTransformer pyobj) (table : tensor)
    (mlvl_feats : list tensor) (bev_embed query_embed : tensor) (bev_h bev_w : nat)
    (grid_length : grid_length_t) (bev_pos : option tensor) (reg_branches : pyobj)
    (prev_bev : option tensor) (return_bev : bool) (gt_bboxes_3d : pyobj)
    (kwargs : kwargs_t pyobj) (bs : nat) :
  use_cams_embeds self = false ->
  (forall lvl feat,
     flatten_level self lvl feat
     = match shape feat with
       | [bs; num_cam; c; h; w] =>
           fmap (fun f => (f, (h, w), bs))
             (add_t (permute (flatten feat 3) [1; 0; 3; 2]%nat)
                    (unsqueeze (unsqueeze (slice_rows (level_embeds self) lvl (lvl + 1)) 0) 0))
       | _ => Raise ValueError
       end) /\
  (tables_as_initialised self ->
   (length mlvl_feats <= num_feature_levels self)%nat ->
   forall feat_flatten spatial_shapes bs',
     flatten_feats self mlvl_feats bs = Ok (feat_flatten, spatial_shapes, bs') ->
     forall l feat b n c h w,
       nth_error mlvl_feats l = Some feat ->
       shape feat = [b; n; c; h; w] -> c = embed_dims self ->
       forall cam bb k e,
         (cam < n)%nat -> (bb < b)%nat -> (k < h * w)%nat -> (e < c)%nat ->
         item (permute feat_flatten [0; 2; 1; 3]%nat)
              [cam; (list_sum (firstn l (map tokens (map feat_hw mlvl_feats))) + k)%nat;
               bb; e]
         = item feat [bb; cam; e; (k / w)%nat; (k mod w)%nat]
           + item (level_embeds self) [l; e]) /\
  flatten_feats (with_cams_embeds self table) mlvl_feats bs
  = flatten_feats self mlvl_feats bs /\
  encoder_inputs rotate_values (with_cams_embeds self table) mlvl_feats bev_embed
    bev_h bev_w grid_length bev_pos prev_bev gt_bboxes_3d kwargs
  = encoder_inputs rotate_values self mlvl_feats bev_embed
      bev_h bev_w grid_length bev_pos prev_bev gt_bboxes_3d kwargs /\
  forward rotate_values (with_cams_embeds self table) mlvl_feats bev_embed query_embed
    bev_h bev_w grid_length bev_pos reg_branches prev_bev return_bev gt_bboxes_3d kwargs
  = forward rotate_values self mlvl_feats bev_embed query_embed
      bev_h bev_w grid_length bev_pos reg_branches prev_bev return_bev gt_bboxes_3d kwargs.
Proof.
  intros Hoff.
  assert (forall bs0, flatten_feats (with_cams_embeds self table) mlvl_feats bs0
                      = flatten_feats self mlvl_feats bs0) as Hflat.
  { intros bs0. unfold flatten_feats.
    rewrite flatten_levels_with_cams_embeds by assumption. reflexivity. }
  assert (encoder_inputs rotate_values (with_cams_embeds self table) mlvl_feats bev_embed
            bev_h bev_w grid_length bev_pos prev_bev gt_bboxes_3d kwargs
          = encoder_inputs rotate_values self mlvl_feats bev_embed
              bev_h bev_w grid_length bev_pos prev_bev gt_bboxes_3d kwargs) as Henc.
  { unfold encoder_inputs.
    change (add_can_bus (with_cams_embeds self table)) with (add_can_bus self).
    cbn [Z_range D_samples use_shift rotate_prev_bev with_cams_embeds].
    repeat first [rewrite Hflat | step_result]. }
  split; [|split; [|split; [|split]]].
  - intros lvl feat. apply flatten_level_without_cams. assumption.
  - intros Htables Hlevels ff ss bs' Hok.
    apply (flatten_feats_items_without_cams self Htables mlvl_feats bs ff ss bs');
      assumption.
  - apply Hflat.
  - exact Henc.
  - unfold forward. rewrite Henc. repeat step_result.
Qed.

Lemma flatten_feats_with_flags (self : BEVTransformer pyobj) (f1 f2 : pyval)
    (feats : list tensor) (bs : nat) :
  flatten_feats (with_flags self f1 f2) feats bs = flatten_feats self feats bs.
Proof. unfold flatten_feats. rewrite flatten_levels_with_flags. reflexivity. Qed.

(** C9 (amended): no value of [use_shift] or [rotate_prev_bev] is
    rejected.  [forward] reads each flag twice, once by comparison with
    its sentinel string and once by its truth value, so that any value
    other than the sentinel acts as [True] when truthy and as [False]
    when falsy: a module constructed with arbitrary flags computes what
    the module with the flags so read computes. *)
Theorem flags_read_by_truth_value (self : BEVTransformer pyobj)
    (mlvl_feats : list tensor) (bev_embed query_embed : tensor) (bev_h bev_w : nat)
    (grid_length : grid_length_t) (bev_pos : option tensor) (reg_branches : pyobj)
    (prev_bev : option tensor) (return_bev : bool) (gt_bboxes_3d : pyobj)
    (kwargs : kwargs_t pyobj) :
  let read := with_flags self (flag_reading "waymo_shift" (use_shift self))
                              (flag_reading "waymo_rotate" (rotate_prev_bev self)) in
  supported_flag "waymo_shift" (use_shift read) = true /\
  supported_flag "waymo_rotate" (rotate_prev_bev read) = true /\
  forward rotate_values self mlvl_feats bev_embed query_embed
    bev_h bev_w grid_length bev_pos reg_branches prev_bev return_bev gt_bboxes_3d kwargs
  = forward rotate_values read mlvl_feats bev_embed query_embed
      bev_h bev_w grid_length bev_pos reg_branches prev_bev return_bev gt_bboxes_3d kwargs.
Proof.
  intros read. split; [|split].
  - cbn [use_shift read with_flags]. unfold flag_reading.
    destruct (py_eq_str _ _); reflexivity.
  - cbn [rotate_prev_bev read with_flags]. unfold flag_reading.
    destruct (py_eq_str _ _); reflexivity.
  - assert (encoder_inputs rotate_values read mlvl_feats bev_embed
              bev_h bev_w grid_length bev_pos prev_bev gt_bboxes_3d kwargs
            = encoder_inputs rotate_values self mlvl_feats bev_embed
                bev_h bev_w grid_length bev_pos prev_bev gt_bboxes_3d kwargs) as Henc.
    { unfold encoder_inputs. subst read.
      change (add_can_bus (with_flags self ?a ?b)) with (add_can_bus self).
      cbn [Z_range D_samples use_shift rotate_prev_bev with_flags].
      repeat first [ rewrite compute_shift_flag_reading
                   | rewrite align_prev_bev_flag_reading
                   | rewrite flatten_feats_with_flags
                   | step_result ]. }
    unfold forward. rewrite Henc. repeat step_result.
Qed.

(** C10: the shift vector, the aligned previous state (hence the rotation
    angle applied to it) and the BEV query with the can-bus embedding
    added depend on [kwargs['img_metas']] only through its element 0: two
    calls whose [img_metas] agree on element 0 hand the same three values
    to the encoder, or raise alike, whatever the other elements are. *)
Theorem ego_motion_of_first_batch_element (self : BEVTransformer pyobj)
    (mlvl_feats : list tensor) (bev_embed : tensor) (bev_h bev_w : nat)
    (grid_length : grid_length_t) (bev_pos : option tensor)
    (prev_bev : option tensor) (gt_bboxes_3d : pyobj)
    (kwargs1 kwargs2 : kwargs_t pyobj) :
  nth_error (img_metas kwargs1) 0 = nth_error (img_metas kwargs2) 0 ->
  let ego_dependent (r : encoder_call pyobj * nat) :=
    (enc_shift (fst r), enc_prev_bev (fst r), enc_query (fst r)) in
  let ego kwargs :=
    bind (py_index (img_metas kwargs) 0) (fun m => read_ego_motion (can_bus m)) in
  ego kwargs1 = ego kwargs2 /\
  fmap ego_dependent
    (encoder_inputs rotate_values self mlvl_feats bev_embed bev_h bev_w
       grid_length bev_pos prev_bev gt_bboxes_3d kwargs1)
  = fmap ego_dependent
      (encoder_inputs rotate_values self mlvl_feats bev_embed bev_h bev_w
         grid_length bev_pos prev_bev gt_bboxes_3d kwargs2).
Proof.
  intros Hfirst ego_dependent ego. split.
  - unfold ego. rewrite !py_index_0, Hfirst. reflexivity.
  - unfold encoder_inputs. rewrite !(py_index_0 (img_metas _)), Hfirst.
    unfold fmap. repeat step_result.
Qed.

End ForwardTheorems.

(** ** The statements at concrete inputs *)

Lemma ref_3d_count_and_open_range_witness :
  ((0 < 2)%nat /\ (0 < 3)%nat /\ 0 < 8 /\ 1 / 2 < 8 /\ (0 < 4)%nat /\ (0 < 1)%nat) /\
  (0 < 1 / 4 /\ 1 / 4 <= 1 / 2) /\
  (exists t,
     get_reference_points 2 3 8 4 "3d" 1 = Some t /\
     shape t = [1; 4; (2 * 3); 3]%nat /\
     forall b, (b < 1)%nat ->
       length (points_of t b) = (4 * 2 * 3)%nat /\
       Forall (fun p => length p = 3%nat /\ Forall (fun x => 0 < x < 1) p)
              (points_of t b)) /\
  (exists t,
     get_reference_points 2 3 (1 / 4) 4 "3d" 1 = Some t /\
     forall b k, (b < 1)%nat -> (k < 2 * 3)%nat -> 1 <= item t [b; 0%nat; k; 2%nat]).
Proof.
  assert (0 < 8) as HZ by lra.
  assert (1 / 2 < 8) as Hhalf by lra.
  assert (0 < 1 / 4) as HZ' by lra.
  assert (1 / 4 <= 1 / 2) as Hsmall by lra.
  split; [repeat split; try lia; lra|]. split; [split; lra|]. split.
  - destruct (ref_3d_count_and_open_range 2 3 4 1 8
                ltac:(lia) ltac:(lia) HZ ltac:(lia) ltac:(lia)) as (t & Ht & Hs & Hall).
    exists t. split; [exact Ht|]. split; [exact Hs|].
    intros b Hb. destruct (Hall b Hb) as (Hlen & _ & Hin & _).
    split; [exact Hlen|exact (Hin Hhalf)].
  - destruct (ref_3d_count_and_open_range 2 3 4 1 (1 / 4)
                ltac:(lia) ltac:(lia) HZ' ltac:(lia) ltac:(lia)) as (t & Ht & _ & Hall).
    exists t. split; [exact Ht|].
    intros b k Hb Hk. destruct (Hall b Hb) as (_ & _ & _ & Hout).
    exact (Hout Hsmall k Hk).
Defined.

(** Counterexample to C3 as stated: [Z = 0.25] is positive, yet with
    [H = W = 1] and [D = 2] the two points of the batch element are
    [(0.5, 0.5, 2)] and [(0.5, 0.5, -1)]: both depths lie outside the
    open interval (0,1). *)
Lemma ref_3d_depth_outside_unit_interval :
  0 < 0.25 /\
  exists t,
    get_reference_points 1 1 0.25 2 "3d" 1 = Some t /\
    points_of t 0 = [ [0.5; 0.5; 2]; [0.5; 0.5; -1] ] /\
    ~ Forall (fun p => Forall (fun x => 0 < x < 1) p) (points_of t 0).
Proof.
  split; [lra|].
  destruct (get_reference_points 1 1 0.25 2 "3d" 1) as [t|] eqn:Ht;
    [|discriminate Ht].
  exists t. pose proof (ref_3d_shape _ _ _ _ _ _ Ht) as Hs.
  split; [reflexivity|].
  assert (points_of t 0 = [ [0.5; 0.5; 2]; [0.5; 0.5; -1] ]) as Hpts.
  { unfold points_of. rewrite Hs. cbn [seq flat_map map app Nat.mul Nat.add].
    destruct (ref_3d_item 1 1 0.25 2 1 t 0 0 0 Ht) as (X0 & Y0 & Z0); [lia..|].
    destruct (ref_3d_item 1 1 0.25 2 1 t 0 1 0 Ht) as (X1 & Y1 & Z1); [lia..|].
    rewrite X0, Y0, Z0, X1, Y1, Z1.
    cbn [linspace item Nat.eqb nth].
    change (0 mod 1)%nat with 0%nat. change (0 / 1)%nat with 0%nat.
    cbn [INR].
    repeat (f_equal; try lra). }
  split; [exact Hpts|].
  rewrite Hpts. intros Hall.
  inversion Hall as [|p ps Hp _]; subst.
  inversion Hp as [|x xs _ Hrest]; subst.
  inversion Hrest as [|y ys _ Hrest']; subst.
  inversion Hrest' as [|z zs Hz _]; subst.
  lra.
Qed.

Lemma ref_2d_cross_section_of_3d_witness :
  ((0 < 2)%nat /\ (0 < 3)%nat /\ (0 < 1)%nat) /\
  exists t2,
    get_reference_points 2 3 8 4 "2d" 1 = Some t2 /\
    shape t2 = [1; (2 * 3); 1; 2]%nat /\
    (forall b, (b < 1)%nat ->
       length (points_of t2 b) = (2 * 3)%nat /\
       Forall (fun p => length p = 2%nat /\ Forall (fun x => 0 < x < 1) p)
              (points_of t2 b)) /\
    (forall (Z : R) (D : nat) (t3 : tensor),
       get_reference_points 2 3 Z D "3d" 1 = Some t3 ->
       forall b d k, (b < 1)%nat -> (d < D)%nat -> (k < 2 * 3)%nat ->
         item t2 [b; k; 0%nat; 0%nat] = item t3 [b; d; k; 0%nat] /\
         item t2 [b; k; 0%nat; 1%nat] = item t3 [b; d; k; 1%nat]).
Proof.
  split; [repeat split; lia|].
  apply (ref_2d_cross_section_of_3d 2 3 1 8 4); lia.
Defined.

Lemma sigmoid_0 : sigmoid 0 = 1 / 2.
Proof. unfold sigmoid. rewrite Ropp_0, exp_0. lra. Qed.

Lemma inverse_sigmoid_round_trip_witness :
  (default_eps <= sigmoid 0 <= 1 - default_eps) /\
  (0 < default_eps <= 1) /\ (0 <= 1 <= 1) /\
  inverse_sigmoid (sigmoid 0) default_eps = 0 /\
  inverse_sigmoid_x2 1 default_eps <> 0 /\
  default_eps <= inverse_sigmoid_x1 1 default_eps / inverse_sigmoid_x2 1 default_eps /\
  ln default_eps <= inverse_sigmoid 1 default_eps <= - ln default_eps.
Proof.
  assert (default_eps <= sigmoid 0 <= 1 - default_eps) as Hs
    by (rewrite sigmoid_0; unfold default_eps; lra).
  assert (0 < default_eps <= 1) as He by (unfold default_eps; lra).
  assert (0 <= 1 <= 1) as Hy by lra.
  destruct (inverse_sigmoid_round_trip 0 default_eps 1) as (Hrt & Hg & Hb & _).
  destruct (Hg (proj1 He) Hy) as (_ & _ & Hx2 & _ & Hq).
  split; [exact Hs|]. split; [exact He|]. split; [exact Hy|].
  split; [apply Hrt; exact Hs|]. split; [exact Hx2|]. split; [exact (Hq (proj2 He))|].
  apply (Hb He).
Defined.

Lemma compute_shift_formula_witness :
  py_eq_str (PyBool true) "waymo_shift" = false /\ truthy (PyBool true) = true /\
  py_eq_str (PyStr "waymo_shift") "waymo_shift" = true /\
  truthy (PyBool false) = false /\
  compute_shift (PyBool true) 3 4 90 0.512 0.512 200 200
  = (sqrt (3 * 3 + 4 * 4) * sin ((90 - translation_angle 3 4) * PI / 180) / 0.512 / INR 200,
     sqrt (3 * 3 + 4 * 4) * cos ((90 - translation_angle 3 4) * PI / 180) / 0.512 / INR 200) /\
  compute_shift (PyStr "waymo_shift") 3 4 90 0.512 0.512 200 200
  = (sqrt (3 * 3 + 4 * 4) * cos ((90 - translation_angle 3 4) * PI / 180) / 0.512 / INR 200,
     sqrt (3 * 3 + 4 * 4) * sin ((90 - translation_angle 3 4) * PI / 180) / 0.512 / INR 200) /\
  compute_shift (PyBool false) 3 4 90 0.512 0.512 200 200 = (0, 0).
Proof.
  destruct (compute_shift_formula (PyBool true) 3 4 90 0.512 0.512 200 200)
    as (_ & _ & Hstd & _).
  destruct (compute_shift_formula (PyStr "waymo_shift") 3 4 90 0.512 0.512 200 200)
    as (_ & _ & _ & Halt & _).
  destruct (compute_shift_formula (PyBool false) 3 4 90 0.512 0.512 200 200)
    as (_ & _ & _ & _ & Hoff & _).
  split; [reflexivity|]. split; [reflexivity|].
  split; [reflexivity|]. split; [reflexivity|].
  split; [apply Hstd; reflexivity|].
  split; [apply Halt; reflexivity|apply Hoff; reflexivity].
Defined.

Lemma level_start_index_prefix_sums_witness :
  let feats := [zeros [1; 1; 2; 4; 4]%nat; zeros [1; 1; 2; 2; 2]%nat] in
  exists call bs',
    encoder_inputs demo_rotate_values (demo_module (PyBool true) (PyBool true) true)
      feats (zeros [4; 2]%nat) 2 2 (GridScalar 0.512) (Some (zeros [1; 2; 2; 2]%nat))
      None tt (demo_kwargs [demo_can_bus]) = Ok (call, bs') /\
    (Z.of_nat (total_tokens (map feat_hw feats)) < 2 ^ 63)%Z /\
    enc_level_start_index call = [0; 16]%Z /\
    nth 1 (shape (enc_key call)) 0%nat = 20%nat /\
    nth 0 (enc_level_start_index call) 1%Z = 0%Z /\
    (nth 0 (enc_level_start_index call) 0 < nth 1 (enc_level_start_index call) 0)%Z.
Proof.
  intros feats.
  destruct (encoder_inputs demo_rotate_values (demo_module (PyBool true) (PyBool true) true)
      feats (zeros [4; 2]%nat) 2 2 (GridScalar 0.512) (Some (zeros [1; 2; 2; 2]%nat))
      None tt (demo_kwargs [demo_can_bus])) as [[call bs']|e] eqn:Hok;
    [|discriminate Hok].
  exists call, bs'.
  assert (Z.of_nat (total_tokens (map feat_hw feats)) < 2 ^ 63)%Z as Hb by reflexivity.
  destruct (level_start_index_prefix_sums demo_rotate_values _ _ _ _ _ _ _ _ _ _ _ _ Hok Hb)
    as (_ & _ & Hlsi & Htok & _ & _ & H0 & Hinc & _).
  split; [reflexivity|]. split; [exact Hb|]. split; [exact Hlsi|].
  split; [apply Htok; [split; reflexivity|repeat constructor]|].
  split; [exact H0|].
  apply Hinc; [repeat constructor|split; repeat constructor].
Defined.

Lemma align_prev_bev_behaviour_witness :
  shape (zeros [8; 1; 1]%nat) = [8; 1; 1]%nat /\
  exists p,
    align_prev_bev demo_rotate_values (PyBool true) 2 2 0 (Some (zeros [8; 1; 1]%nat))
    = Ok (Some p) /\
    shape p = [4; 1; 2]%nat.
Proof.
  split; [reflexivity|].
  destruct (align_prev_bev_behaviour demo_rotate_values (PyBool true) 2 2 0
              (zeros [8; 1; 1]%nat) 8 1 1 eq_refl) as (_ & Hrot & _).
  apply Hrot; [reflexivity|]. split; [repeat constructor|reflexivity].
Defined.

(** Counterexample to C2 as stated: a previous state of 8 x 1 x 1 entries does not
    have the spatial size of a 2 x 2 grid, yet [forward] (rotation on)
    completes: the state is handed to the encoder as if it were the
    4 x 1 x 2 state of that grid. *)
Lemma prev_bev_size_mismatch_accepted :
  spatial_size_matches (zeros [8; 1; 1]%nat) 2 2 = false /\
  raises (demo_forward (demo_module (PyBool true) (PyBool true) true)
            (Some (zeros [8; 1; 1]%nat)) (demo_kwargs [demo_can_bus])) = false /\
  fmap (option_map shape)
    (align_prev_bev demo_rotate_values (PyBool true) 2 2 0 (Some (zeros [8; 1; 1]%nat)))
  = Ok (Some [4; 1; 2]%nat) /\
  fmap (option_map shape)
    (align_prev_bev demo_rotate_values (PyBool false) 2 2 0 (Some (zeros [8; 1; 1]%nat)))
  = Ok (Some [8; 1; 1]%nat).
Proof. repeat split; reflexivity. Qed.

(** Counterexample to C9 as stated: a module constructed with [use_shift='bogus']
    and [rotate_prev_bev=7], neither of them a documented choice, runs
    [forward] to completion and returns what the module constructed with
    [True] and [True] returns. *)
Lemma unsupported_flags_accepted :
  supported_flag "waymo_shift" (PyStr "bogus") = false /\
  supported_flag "waymo_rotate" (PyInt 7) = false /\
  raises (demo_forward (demo_module (PyStr "bogus") (PyInt 7) true)
            (Some (zeros [4; 1; 2]%nat)) (demo_kwargs [demo_can_bus])) = false /\
  demo_forward (demo_module (PyStr "bogus") (PyInt 7) true)
    (Some (zeros [4; 1; 2]%nat)) (demo_kwargs [demo_can_bus])
  = demo_forward (demo_module (PyBool true) (PyBool true) true)
      (Some (zeros [4; 1; 2]%nat)) (demo_kwargs [demo_can_bus]).
Proof. repeat split; reflexivity. Qed.

Lemma cams_embeds_unread_when_disabled_witness :
  let self := demo_module (PyBool true) (PyBool true) false in
  let feat := mkT [1; 1; 2; 1; 1]%nat (fun idx => INR (nth 2 idx 0%nat)) in
  use_cams_embeds self = false /\
  (forall table,
     forward demo_rotate_values (with_cams_embeds self table) [feat] (zeros [4; 2]%nat)
       (zeros [3; 4]%nat) 2 2 (GridScalar 0.512) (Some (zeros [1; 2; 2; 2]%nat)) tt None
       false tt (demo_kwargs [demo_can_bus])
     = forward demo_rotate_values self [feat] (zeros [4; 2]%nat)
         (zeros [3; 4]%nat) 2 2 (GridScalar 0.512) (Some (zeros [1; 2; 2; 2]%nat)) tt None
         false tt (demo_kwargs [demo_can_bus])) /\
  exists feat_flatten spatial_shapes bs',
    flatten_feats self [feat] 1 = Ok (feat_flatten, spatial_shapes, bs') /\
    item (permute feat_flatten [0; 2; 1; 3]%nat) [0; 0; 0; 1]%nat
    = item feat [0; 0; 1; 0; 0]%nat + item (level_embeds self) [0; 1]%nat.
Proof.
  intros self feat.
  assert (use_cams_embeds self = false) as Hoff by reflexivity.
  split; [exact Hoff|]. split.
  - intros table.
    apply (cams_embeds_unread_when_disabled demo_rotate_values self table
             [feat] (zeros [4; 2]%nat) (zeros [3; 4]%nat) 2 2
             (GridScalar 0.512) (Some (zeros [1; 2; 2; 2]%nat)) tt None false tt
             (demo_kwargs [demo_can_bus]) 1 Hoff).
  - destruct (flatten_feats self [feat] 1) as [[[ff ss] bs']|e] eqn:Hflat;
      [|discriminate Hflat].
    exists ff, ss, bs'. split; [reflexivity|].
    destruct (cams_embeds_unread_when_disabled demo_rotate_values self (zeros [1; 2]%nat)
                [feat] (zeros [4; 2]%nat) (zeros [3; 4]%nat) 2 2
                (GridScalar 0.512) (Some (zeros [1; 2; 2; 2]%nat)) tt None false tt
                (demo_kwargs [demo_can_bus]) 1 Hoff) as (_ & Hitems & _).
    apply (Hitems (conj eq_refl eq_refl) ltac:(repeat constructor) ff ss bs' Hflat
             0%nat feat 1%nat 1%nat 2%nat 1%nat 1%nat eq_refl eq_refl eq_refl
             0%nat 0%nat 0%nat 1%nat);
      repeat constructor.
Defined.

Lemma ego_motion_of_first_batch_element_witness :
  let kwargs1 := demo_kwargs [demo_can_bus; repeat 1 18] in
  let kwargs2 := demo_kwargs [demo_can_bus; repeat 2 18; repeat 3 18] in
  let self := demo_module (PyBool true) (PyBool true) true in
  let inputs kwargs :=
    encoder_inputs demo_rotate_values self [zeros [2; 1; 2; 1; 1]%nat] (zeros [4; 2]%nat)
      2 2 (GridScalar 0.512) (Some (zeros [2; 2; 2; 2]%nat))
      (Some (zeros [4; 2; 2]%nat)) tt kwargs in
  nth_error (img_metas kwargs1) 0 = nth_error (img_metas kwargs2) 0 /\
  fmap (fun r => (enc_shift (fst r), enc_prev_bev (fst r), enc_query (fst r)))
       (inputs kwargs1)
  = fmap (fun r => (enc_shift (fst r), enc_prev_bev (fst r), enc_query (fst r)))
         (inputs kwargs2).
Proof.
  intros kwargs1 kwargs2 self inputs. split; [reflexivity|].
  apply (ego_motion_of_first_batch_element demo_rotate_values self
           [zeros [2; 1; 2; 1; 1]%nat] (zeros [4; 2]%nat) 2 2 (GridScalar 0.512)
           (Some (zeros [2; 2; 2; 2]%nat)) (Some (zeros [4; 2; 2]%nat)) tt
           kwargs1 kwargs2 eq_refl).
Defined.

(** * Further properties of the code *)

(** ** [inverse_sigmoid] beyond the round trip *)

Lemma clamp_unit_mono (x y : R) : x <= y -> clamp x 0 1 <= clamp y 0 1.
Proof.
  intros Hxy. unfold clamp.
  apply Rle_min_compat_r. apply Rle_max_compat_r. assumption.
Qed.

Lemma clamp_unit_flip (x : R) : clamp (1 - x) 0 1 = 1 - clamp x 0 1.
Proof.
  unfold clamp.
  destruct (Rle_lt_dec x 0) as [Hx|Hx].
  - rewrite (Rmax_right x 0), (Rmax_left (1 - x) 0) by lra.
    rewrite (Rmin_right (1 - x) 1), (Rmin_left 0 1) by lra. lra.
  - rewrite (Rmax_left x 0) by lra.
    destruct (Rle_lt_dec 1 x) as [Hx1|Hx1].
    + rewrite (Rmax_right (1 - x) 0) by lra.
      rewrite (Rmin_left 0 1), (Rmin_right x 1) by lra. lra.
    + rewrite (Rmax_left (1 - x) 0) by lra.
      rewrite (Rmin_left (1 - x) 1), (Rmin_left x 1) by lra. lra.
Qed.

(** X1: [sigmoid] undoes [inverse_sigmoid] on every input that the clamps
    leave alone: for [0 < eps] and [eps <= x <= 1 - eps],
    [sigmoid (inverse_sigmoid x eps) = x]. *)
Theorem sigmoid_inverse_sigmoid (x eps : R) :
  0 < eps -> eps <= x <= 1 - eps ->
  sigmoid (inverse_sigmoid x eps) = x.
Proof.
  intros He [Hlo Hhi].
  unfold inverse_sigmoid, inverse_sigmoid_x1, inverse_sigmoid_x2, clamp_min.
  rewrite clamp_unit_id by lra. rewrite !Rmax_left by lra.
  assert (0 < x / (1 - x)) as Hr by (apply Rdiv_lt_0_compat; lra).
  unfold sigmoid. rewrite exp_Ropp, exp_ln by assumption.
  field. lra.
Qed.

(** X2: outside the unit interval the input is clamped first: for
    [0 < eps <= 1], every [x <= 0] is mapped to [ln eps] and every
    [x >= 1] to [- ln eps], the two extreme values of the function. *)
Theorem inverse_sigmoid_saturates (x eps : R) :
  0 < eps <= 1 ->
  (x <= 0 -> inverse_sigmoid x eps = ln eps) /\
  (1 <= x -> inverse_sigmoid x eps = - ln eps).
Proof.
  intros [He0 He1].
  unfold inverse_sigmoid, inverse_sigmoid_x1, inverse_sigmoid_x2, clamp_min, clamp.
  split; intros Hx.
  - rewrite (Rmax_right x 0) by assumption. rewrite (Rmin_left 0 1) by lra.
    rewrite (Rmax_right 0 eps) by lra. rewrite (Rmax_left (1 - 0) eps) by lra.
    f_equal. field.
  - rewrite (Rmax_left x 0) by lra. rewrite (Rmin_right x 1) by assumption.
    rewrite (Rmax_left 1 eps) by assumption. rewrite (Rmax_right (1 - 1) eps) by lra.
    rewrite <- ln_Rinv by assumption. f_equal. field. lra.
Qed.

(** X3: [inverse_sigmoid] is odd about [1/2]: for [0 < eps] and every
    input, [inverse_sigmoid (1 - x) eps = - inverse_sigmoid x eps]. *)
Theorem inverse_sigmoid_odd (x eps : R) :
  0 < eps ->
  inverse_sigmoid (1 - x) eps = - inverse_sigmoid x eps.
Proof.
  intros He.
  destruct (inverse_sigmoid_operands x eps) as [[Ha1 _] [Ha2 _]].
  unfold inverse_sigmoid.
  assert (inverse_sigmoid_x1 (1 - x) eps = inverse_sigmoid_x2 x eps) as ->
    by (unfold inverse_sigmoid_x1, inverse_sigmoid_x2; rewrite clamp_unit_flip; reflexivity).
  assert (inverse_sigmoid_x2 (1 - x) eps = inverse_sigmoid_x1 x eps) as ->.
  { unfold inverse_sigmoid_x1, inverse_sigmoid_x2. rewrite clamp_unit_flip.
    f_equal. lra. }
  set (x1 := inverse_sigmoid_x1 x eps) in *.
  set (x2 := inverse_sigmoid_x2 x eps) in *.
  rewrite <- ln_Rinv by (apply Rdiv_lt_0_compat; lra).
  f_equal. field. lra.
Qed.

(** X4: [inverse_sigmoid] never decreases: for [0 < eps] and [x <= y],
    [inverse_sigmoid x eps <= inverse_sigmoid y eps]. *)
Theorem inverse_sigmoid_monotone (x y eps : R) :
  0 < eps -> x <= y ->
  inverse_sigmoid x eps <= inverse_sigmoid y eps.
Proof.
  intros He Hxy. pose proof (clamp_unit_mono x y Hxy) as Hc.
  destruct (inverse_sigmoid_operands x eps) as [[Hx1 _] [Hx2 _]].
  destruct (inverse_sigmoid_operands y eps) as [[Hy1 _] [Hy2 _]].
  assert (inverse_sigmoid_x1 x eps <= inverse_sigmoid_x1 y eps) as H1.
  { unfold inverse_sigmoid_x1, clamp_min. apply Rle_max_compat_r. assumption. }
  assert (inverse_sigmoid_x2 y eps <= inverse_sigmoid_x2 x eps) as H2.
  { unfold inverse_sigmoid_x2, clamp_min. apply Rle_max_compat_r. lra. }
  unfold inverse_sigmoid.
  set (a1 := inverse_sigmoid_x1 x eps) in *. set (a2 := inverse_sigmoid_x2 x eps) in *.
  set (b1 := inverse_sigmoid_x1 y eps) in *. set (b2 := inverse_sigmoid_x2 y eps) in *.
  assert (0 < a1 / a2) as Ha by (apply Rdiv_lt_0_compat; lra).
  assert (a1 / a2 <= b1 / b2) as Hle.
  { assert (0 < / a2) by (apply Rinv_0_lt_compat; lra).
    assert (/ a2 <= / b2) by (apply Rinv_le_contravar; lra).
    unfold Rdiv. apply Rmult_le_compat; lra. }
  destruct Hle as [Hlt | Heq]; [|rewrite Heq; lra].
  apply Rlt_le, ln_increasing; assumption.
Qed.

(** ** The grid of reference points *)

Lemma cell_index_div_mod (W h w : nat) :
  (w < W)%nat -> ((h * W + w) / W = h /\ (h * W + w) mod W = w)%nat.
Proof.
  intros Hw. split.
  - rewrite Nat.div_add_l by lia. rewrite Nat.div_small by assumption. lia.
  - rewrite Nat.add_comm, Nat.Div0.mod_add. apply Nat.mod_small. assumption.
Qed.

(** X5: the 3D reference point of depth sample [d] and grid cell
    [(h, w)] (row [h], column [w], flattened to [h * W + w]) is
    [((w + 0.5) / W, (h + 0.5) / H, z_d)] with
    [z_d = (0.5 + d (Z - 1) / (D - 1)) / Z], or [0.5 / Z] when [D = 1];
    this holds for rectangular grids and for every batch element. *)
Theorem ref_3d_closed_form (H W D bs : nat) (Z : R) (t : tensor) (b d h w : nat) :
  get_reference_points H W Z D "3d" bs = Some t ->
  (b < bs)%nat -> (d < D)%nat -> (h < H)%nat -> (w < W)%nat ->
  item t [b; d; (h * W + w)%nat; 0%nat] = (INR w + 0.5) / INR W /\
  item t [b; d; (h * W + w)%nat; 1%nat] = (INR h + 0.5) / INR H /\
  item t [b; d; (h * W + w)%nat; 2%nat]
  = (if (D =? 1)%nat then 0.5 else 0.5 + INR d * ((Z - 1) / (INR D - 1))) / Z.
Proof.
  intros Ht Hb Hd Hh Hw.
  assert (h * W + w < H * W)%nat as Hk by nia.
  destruct (ref_3d_item _ _ _ _ _ _ _ _ _ Ht Hb Hd Hk) as (Hx & Hy & Hz).
  destruct (cell_index_div_mod W h w Hw) as [Hq Hr].
  rewrite Hx, Hy, Hz, Hq, Hr. cbn [linspace item nth].
  replace (Z - 0.5 - 0.5) with (Z - 1) by lra.
  repeat split; f_equal; lra.
Qed.

(** X6: distinct grid cells have distinct reference points: two cell
    indices below [H * W] whose 2D reference points agree in both
    coordinates are equal. *)
Theorem ref_2d_cells_distinct (H W bs : nat) (Z : R) (D : nat) (t : tensor)
    (b k1 k2 : nat) :
  get_reference_points H W Z D "2d" bs = Some t ->
  (b < bs)%nat -> (k1 < H * W)%nat -> (k2 < H * W)%nat ->
  item t [b; k1; 0%nat; 0%nat] = item t [b; k2; 0%nat; 0%nat] ->
  item t [b; k1; 0%nat; 1%nat] = item t [b; k2; 0%nat; 1%nat] ->
  k1 = k2.
Proof.
  intros Ht Hb Hk1 Hk2 Hx Hy.
  assert (0 < W)%nat as HW by (destruct W; lia).
  assert (0 < H)%nat as HH by (destruct H; lia).
  destruct (ref_2d_item _ _ _ _ _ _ _ _ Ht Hb Hk1) as (Hx1 & Hy1).
  destruct (ref_2d_item _ _ _ _ _ _ _ _ Ht Hb Hk2) as (Hx2 & Hy2).
  rewrite Hx1, Hx2 in Hx. rewrite Hy1, Hy2 in Hy.
  assert (0 < INR W) as HWr by (apply lt_0_INR; assumption).
  assert (0 < INR H) as HHr by (apply lt_0_INR; assumption).
  assert (INR (k1 mod W) = INR (k2 mod W)) as Hm.
  { apply (Rmult_eq_compat_r (INR W)) in Hx.
    unfold Rdiv in Hx. rewrite !Rmult_assoc, Rinv_l, !Rmult_1_r in Hx by lra. lra. }
  assert (INR (k1 / W) = INR (k2 / W)) as Hq.
  { apply (Rmult_eq_compat_r (INR H)) in Hy.
    unfold Rdiv in Hy. rewrite !Rmult_assoc, Rinv_l, !Rmult_1_r in Hy by lra. lra. }
  apply INR_eq in Hm. apply INR_eq in Hq.
  rewrite (Nat.div_mod_eq k1 W), (Nat.div_mod_eq k2 W), Hm, Hq. reflexivity.
Qed.

(** X7: the depth samples.  A single sample ([D = 1]) sits at [0.5 / Z],
    the bottom of the column, not at its middle; with [D >= 2] the first
    sample is [0.5 / Z], the last one [(Z - 0.5) / Z], and for [Z > 1] the
    samples increase strictly with the sample index. *)
Theorem ref_3d_depth_samples (H W D bs : nat) (Z : R) (t : tensor) (b k : nat) :
  get_reference_points H W Z D "3d" bs = Some t ->
  0 < Z -> (b < bs)%nat -> (k < H * W)%nat -> (0 < D)%nat ->
  item t [b; 0%nat; k; 2%nat] = 0.5 / Z /\
  ((2 <= D)%nat -> item t [b; (D - 1)%nat; k; 2%nat] = (Z - 0.5) / Z) /\
  (1 < Z -> forall d d', (d < d')%nat -> (d' < D)%nat ->
     item t [b; d; k; 2%nat] < item t [b; d'; k; 2%nat]).
Proof.
  intros Ht HZ Hb Hk HD.
  assert (forall d, (d < D)%nat ->
            item t [b; d; k; 2%nat]
            = (if (D =? 1)%nat then 0.5 else 0.5 + INR d * ((Z - 1) / (INR D - 1))) / Z)
    as Hz.
  { intros d Hd. destruct (ref_3d_item _ _ _ _ _ _ _ _ _ Ht Hb Hd Hk) as (_ & _ & Hz).
    rewrite Hz. cbn [linspace item nth].
    replace (Z - 0.5 - 0.5) with (Z - 1) by lra. reflexivity. }
  assert (0 < / Z) as HiZ by (apply Rinv_0_lt_compat; assumption).
  split; [|split].
  - rewrite Hz by assumption. destruct (D =? 1)%nat; [reflexivity|].
    cbn [INR]. f_equal. lra.
  - intros H2. rewrite Hz by lia.
    destruct (Nat.eqb_spec D 1) as [E|_]; [lia|].
    assert (2 <= INR D) by (change 2 with (INR 2); apply le_INR; assumption).
    rewrite minus_INR by lia. cbn [INR]. f_equal.
    replace ((INR D - 1) * ((Z - 1) / (INR D - 1))) with (Z - 1); [lra|].
    unfold Rdiv. rewrite (Rmult_comm (Z - 1)), <- Rmult_assoc, Rinv_r by lra. lra.
  - intros HZ1 d d' Hdd Hd'. rewrite !Hz by lia.
    destruct (Nat.eqb_spec D 1) as [E|_]; [lia|].
    assert (2 <= INR D) by (change 2 with (INR 2); apply le_INR; lia).
    assert (INR d < INR d') by (apply lt_INR; assumption).
    assert (0 < (Z - 1) / (INR D - 1)) by (apply Rdiv_lt_0_compat; lra).
    unfold Rdiv at 1 3. apply Rmult_lt_compat_r; [assumption|]. nra.
Qed.

Lemma flat_map_agree {A B : Type} (f g : A -> list B) (l : list A) :
  (forall a, In a l -> f a = g a) -> flat_map f l = flat_map g l.
Proof.
  induction l as [|a l IH]; intros Hfg; [reflexivity|].
  cbn [flat_map]. rewrite (Hfg a) by (left; reflexivity).
  rewrite IH by (intros a' Ha'; apply Hfg; right; assumption). reflexivity.
Qed.

(** X8: the reference points are broadcast over the batch: every batch
    element holds the same list of points as batch element 0, in 3D and
    in 2D. *)
Theorem reference_points_same_for_every_batch_element (H W D bs : nat) (Z : R)
    (dim : string) (t : tensor) (b : nat) :
  get_reference_points H W Z D dim bs = Some t ->
  (b < bs)%nat ->
  points_of t b = points_of t 0.
Proof.
  intros Ht Hb. assert (0 < bs)%nat as H0 by lia.
  unfold get_reference_points in Ht.
  destruct (String.eqb_spec dim "3d") as [->|_].
  - pose proof (ref_3d_shape H W Z D bs t) as Hs.
    unfold get_reference_points in Hs. cbn [String.eqb Ascii.eqb Bool.eqb] in Hs.
    specialize (Hs Ht).
    unfold points_of. rewrite Hs.
    apply flat_map_agree. intros d Hd. apply in_seq in Hd.
    apply map_ext_in. intros k Hk. apply in_seq in Hk.
    assert (get_reference_points H W Z D "3d" bs = Some t) as Ht' by exact Ht.
    destruct (ref_3d_item _ _ _ _ _ _ b d k Ht' Hb ltac:(lia) ltac:(lia)) as (X & Y & Zb).
    destruct (ref_3d_item _ _ _ _ _ _ 0%nat d k Ht' H0 ltac:(lia) ltac:(lia)) as (X0 & Y0 & Z0).
    cbn [seq map]. rewrite X, Y, Zb, X0, Y0, Z0. reflexivity.
  - destruct (String.eqb_spec dim "2d") as [->|_]; [|discriminate Ht].
    assert (get_reference_points H W Z D "2d" bs = Some t) as Ht' by exact Ht.
    pose proof (ref_2d_shape H W Z D bs t Ht') as Hs.
    unfold points_of. rewrite Hs.
    apply flat_map_agree. intros k Hk. apply in_seq in Hk.
    apply map_ext_in. intros j Hj. apply in_seq in Hj.
    assert (j = 0%nat) as -> by lia.
    destruct (ref_2d_item _ _ _ _ _ _ b k Ht' Hb ltac:(lia)) as (X & Y).
    destruct (ref_2d_item _ _ _ _ _ _ 0%nat k Ht' H0 ltac:(lia)) as (X0 & Y0).
    cbn [seq map]. rewrite X, Y, X0, Y0. reflexivity.
Qed.

(** ** The shift vector *)

(** X9: without displacement there is no shift: for [delta_x = delta_y = 0],
    non-zero grid lengths and a non-empty grid, the shift is [(0, 0)]
    whatever the heading and the value of [use_shift] are. *)
Theorem shift_without_displacement (use_shift : pyval) (heading gx gy : R) (H W : nat) :
  gx <> 0 -> gy <> 0 -> (0 < H)%nat -> (0 < W)%nat ->
  compute_shift use_shift 0 0 heading gx gy H W = (0, 0).
Proof.
  intros _ _ _ _. unfold compute_shift, translation_length.
  replace (0 ^ 2 + 0 ^ 2) with 0 by ring. rewrite sqrt_0.
  destruct (py_eq_str use_shift "waymo_shift"); [|destruct (truthy use_shift)];
    try reflexivity; f_equal; unfold Rdiv; ring.
Qed.

Lemma translation_length_sqr (dx dy : R) :
  translation_length dx dy * translation_length dx dy = dx * dx + dy * dy.
Proof.
  unfold translation_length. replace (dx ^ 2 + dy ^ 2) with (dx * dx + dy * dy) by ring.
  apply sqrt_sqrt. nra.
Qed.

(** X10: an enabled shift has the length of the displacement: for a
    truthy [use_shift] (either convention), non-zero grid lengths and a
    non-empty grid, the shift converted back to metres,
    [(shift_x * grid_x * W, shift_y * grid_y * H)], has squared length
    [delta_x^2 + delta_y^2]. *)
Theorem shift_length_is_displacement (use_shift : pyval)
    (dx dy heading gx gy : R) (H W : nat) :
  truthy use_shift = true -> gx <> 0 -> gy <> 0 -> (0 < H)%nat -> (0 < W)%nat ->
  let s := compute_shift use_shift dx dy heading gx gy H W in
  (fst s * gx * INR W) * (fst s * gx * INR W)
  + (snd s * gy * INR H) * (snd s * gy * INR H)
  = dx * dx + dy * dy.
Proof.
  intros Ht Hgx Hgy HH HW s.
  assert (INR H <> 0) as HHr by (apply not_0_INR; lia).
  assert (INR W <> 0) as HWr by (apply not_0_INR; lia).
  pose proof (translation_length_sqr dx dy) as HL.
  subst s. unfold compute_shift. rewrite Ht.
  set (L := translation_length dx dy) in *.
  set (a := (heading - translation_angle dx dy) / 180 * PI).
  pose proof (sin2_cos2 a) as Hsc. unfold Rsqr in Hsc.
  destruct (py_eq_str use_shift "waymo_shift"); cbn [fst snd].
  - replace (L * cos a / gx / INR W * gx * INR W) with (L * cos a) by (field; split; assumption).
    replace (L * sin a / gy / INR H * gy * INR H) with (L * sin a) by (field; split; assumption).
    rewrite <- HL. nra.
  - replace (L * sin a / gx / INR W * gx * INR W) with (L * sin a) by (field; split; assumption).
    replace (L * cos a / gy / INR H * gy * INR H) with (L * cos a) by (field; split; assumption).
    rewrite <- HL. nra.
Qed.

(** X11: bringing the translation angle into [[0, 360)] does not change
    the shift: the result is the one computed from the angle
    [atan2(delta_y, delta_x)] as [np.arctan2] returns it. *)
Theorem shift_ignores_angle_normalisation (use_shift : pyval)
    (dx dy heading gx gy : R) (H W : nat) :
  let L := translation_length dx dy in
  let a := (heading - arctan2 dy dx / PI * 180) / 180 * PI in
  compute_shift use_shift dx dy heading gx gy H W
  = if py_eq_str use_shift "waymo_shift"
    then (L * cos a / gx / INR W, L * sin a / gy / INR H)
    else if truthy use_shift
    then (L * sin a / gx / INR W, L * cos a / gy / INR H)
    else (0, 0).
Proof.
  intros L a. unfold compute_shift. fold L.
  assert (sin ((heading - translation_angle dx dy) / 180 * PI) = sin a
          /\ cos ((heading - translation_angle dx dy) / 180 * PI) = cos a) as [Hs Hc].
  { unfold translation_angle.
    destruct (Rlt_dec (arctan2 dy dx / PI * 180) 0) as [_|_]; [|split; reflexivity].
    replace ((heading - (arctan2 dy dx / PI * 180 + 360)) / 180 * PI)
      with (a - 2 * PI) by (unfold a; field; apply PI_neq0).
    split.
    - rewrite <- (sin_period (a - 2 * PI) 1). f_equal. cbn [INR]. ring.
    - rewrite <- (cos_period (a - 2 * PI) 1). f_equal. cbn [INR]. ring. }
  rewrite Hs, Hc. reflexivity.
Qed.

(** ** The inputs [forward] cannot do without *)

Lemma py_index_nat {A : Type} (l : list A) (i : nat) :
  py_index l (Z.of_nat i)
  = match nth_error l i with
    | Some a => Ok a
    | None => Raise IndexError
    end.
Proof.
  unfold py_index.
  destruct (Z.ltb_spec (Z.of_nat i) 0) as [Hneg|_]; [lia|].
  rewrite Nat2Z.id.
  destruct (Z.leb_spec 0 (Z.of_nat i)) as [_|Hneg]; [|lia].
  destruct (Z.ltb_spec (Z.of_nat i) (Z.of_nat (length l))) as [Hlt|Hge]; cbn [andb].
  - reflexivity.
  - assert (nth_error l i = None) as -> by (apply nth_error_None; lia). reflexivity.
Qed.

Lemma py_index_from_end {A : Type} (l : list A) (i : nat) (d : A) :
  (0 < i)%nat ->
  py_index l (- Z.of_nat i)
  = if (i <=? length l)%nat then Ok (nth (length l - i) l d) else Raise IndexError.
Proof.
  intros Hi. unfold py_index.
  destruct (Z.ltb_spec (- Z.of_nat i) 0) as [_|Hpos]; [|lia].
  destruct (Nat.leb_spec i (length l)) as [Hle|Hgt].
  - destruct (Z.leb_spec 0 (Z.of_nat (length l) + - Z.of_nat i)) as [_|Hneg]; [|lia].
    destruct (Z.ltb_spec (Z.of_nat (length l) + - Z.of_nat i) (Z.of_nat (length l)))
      as [_|Hge]; [|lia].
    cbn [andb].
    replace (Z.to_nat (Z.of_nat (length l) + - Z.of_nat i)) with (length l - i)%nat by lia.
    rewrite (nth_error_nth' l d) by lia. reflexivity.
  - destruct (Z.leb_spec 0 (Z.of_nat (length l) + - Z.of_nat i)) as [Hpos|_]; [lia|].
    reflexivity.
Qed.

Lemma read_ego_motion_short (can_bus : list R) :
  (length can_bus < 2)%nat -> read_ego_motion can_bus = Raise IndexError.
Proof.
  intros Hlen. destruct can_bus as [|x [|y rest]]; cbn [length] in Hlen; try lia.
  - reflexivity.
  - unfold read_ego_motion.
    change 0%Z with (Z.of_nat 0). change 1%Z with (Z.of_nat 1).
    rewrite !py_index_nat. reflexivity.
Qed.

(** X12: the ego-motion record must have at least two entries, otherwise
    reading it raises [IndexError]; then [delta_x] and [delta_y] are its
    first two entries, the heading (converted from radians to degrees) its
    last but one and the rotation angle its last, whatever the length of
    the record. *)
Theorem read_ego_motion_slots (can_bus : list R) :
  ((length can_bus < 2)%nat -> read_ego_motion can_bus = Raise IndexError) /\
  ((2 <= length can_bus)%nat ->
   read_ego_motion can_bus
   = Ok {| delta_x := nth 0 can_bus 0;
           delta_y := nth 1 can_bus 0;
           ego_angle := nth (length can_bus - 2) can_bus 0 / PI * 180;
           rotation_angle := nth (length can_bus - 1) can_bus 0 |}).
Proof.
  unfold read_ego_motion.
  change 0%Z with (Z.of_nat 0). change 1%Z with (Z.of_nat 1).
  change (-2)%Z with (- Z.of_nat 2)%Z. change (-1)%Z with (- Z.of_nat 1)%Z.
  rewrite !py_index_nat.
  rewrite (py_index_from_end can_bus 2 0), (py_index_from_end can_bus 1 0) by lia.
  split; intros Hlen.
  - destruct can_bus as [|x [|y rest]]; cbn in Hlen; try lia; reflexivity.
  - destruct can_bus as [|x [|y rest]]; cbn [length] in Hlen; try lia.
    cbn [nth_error bind].
    destruct (Nat.leb_spec 2 (length (x :: y :: rest))) as [_|C]; [|cbn [length] in C; lia].
    destruct (Nat.leb_spec 1 (length (x :: y :: rest))) as [_|C]; [|cbn [length] in C; lia].
    reflexivity.
Qed.

Section RequiredInputs.

Context {pyobj : Type}.
Variable rotate_values : tensor -> R -> option (list R) -> list nat -> R.

(** X13: [forward] raises [IndexError] on an empty list of feature
    levels, and, the first level having at least one axis and the BEV
    queries being two-dimensional, raises [AttributeError] when [bev_pos]
    is left at its default [None]. *)
Theorem forward_missing_inputs (self : BEVTransformer pyobj)
    (mlvl_feats : list tensor) (bev_embed query_embed : tensor) (bev_h bev_w : nat)
    (grid_length : grid_length_t) (bev_pos : option tensor) (reg_branches : pyobj)
    (prev_bev : option tensor) (return_bev : bool) (gt_bboxes_3d : pyobj)
    (kwargs : kwargs_t pyobj) :
  forward rotate_values self [] bev_embed query_embed bev_h bev_w grid_length
    bev_pos reg_branches prev_bev return_bev gt_bboxes_3d kwargs = Raise IndexError /\
  (forall feat rest, mlvl_feats = feat :: rest -> shape feat <> [] ->
     length (shape bev_embed) = 2%nat ->
     forward rotate_values self mlvl_feats bev_embed query_embed bev_h bev_w grid_length
       None reg_branches prev_bev return_bev gt_bboxes_3d kwargs = Raise AttributeError).
Proof.
  split; [reflexivity|].
  intros feat rest -> Hs _. unfold forward, encoder_inputs, size.
  rewrite py_index_0. cbn [nth_error bind].
  destruct (shape feat) as [|d sh]; [contradiction|]. reflexivity.
Qed.

(** X14: [forward] cannot run without the ego-motion record of batch
    element 0: it raises when [kwargs['img_metas']] is empty, and when the
    [can_bus] record of its first element has fewer than two entries. *)
Theorem forward_needs_ego_motion (self : BEVTransformer pyobj)
    (mlvl_feats : list tensor) (bev_embed query_embed : tensor) (bev_h bev_w : nat)
    (grid_length : grid_length_t) (bev_pos : option tensor) (reg_branches : pyobj)
    (prev_bev : option tensor) (return_bev : bool) (gt_bboxes_3d : pyobj)
    (kwargs : kwargs_t pyobj) :
  match img_metas kwargs with
  | [] => True
  | meta0 :: _ => (length (can_bus meta0) < 2)%nat
  end ->
  raises (forward rotate_values self mlvl_feats bev_embed query_embed bev_h bev_w
            grid_length bev_pos reg_branches prev_bev return_bev gt_bboxes_3d kwargs)
  = true.
Proof.
  intros Hmeta.
  assert (bind (py_index (img_metas kwargs) 0) (fun m => read_ego_motion (can_bus m))
          = Raise IndexError) as Hego.
  { rewrite py_index_0. destruct (img_metas kwargs) as [|meta0 rest]; [reflexivity|].
    cbn [nth_error bind]. apply read_ego_motion_short. assumption. }
  unfold forward, encoder_inputs.
  destruct (py_index mlvl_feats 0) as [feat0|]; [cbn [bind]|reflexivity].
  destruct (size feat0 0) as [bs|]; [cbn [bind]|reflexivity].
  destruct bev_pos as [p|]; [cbn [bind]|reflexivity].
  destruct (permute_checked (flatten p 2) [2; 0; 1]%nat) as [p'|]; [cbn [bind]|reflexivity].
  destruct (py_index (img_metas kwargs) 0) as [meta0|]; [cbn [bind] in *|reflexivity].
  rewrite Hego. reflexivity.
Qed.

End RequiredInputs.

(** ** The previous BEV state in its two layouts *)

Section AlignLayouts.

Context {pyobj : Type}.
Variable rotate_values : tensor -> R -> option (list R) -> list nat -> R.

Lemma align_prev_bev_rank3 (mode : pyval) (H W : nat) (angle : R)
    (prev : tensor) (a b c : nat) :
  shape prev = [a; b; c] ->
  let prev' := if (b =? H * W)%nat then permute prev [1; 0; 2]%nat else prev in
  let n := if (b =? H * W)%nat then a else b in
  align_prev_bev rotate_values mode H W angle (Some prev)
  = if py_eq_str mode "waymo_rotate"
    then rotate_chain rotate_values (Some [70; 150]) H W angle prev' n
    else if truthy mode then rotate_chain rotate_values None H W angle prev' n
    else Ok (Some prev').
Proof.
  intros Hs prev' n.
  assert (size prev' 1 = Ok n) as Hn.
  { unfold prev', n, size. destruct (b =? H * W)%nat.
    - cbn [permute shape map]. rewrite Hs. reflexivity.
    - rewrite Hs. reflexivity. }
  unfold align_prev_bev. unfold size at 1. rewrite Hs. cbn [nth_error bind].
  assert ((if (b =? H * W)%nat then permute_checked prev [1; 0; 2]%nat else Ok prev)
          = Ok prev') as ->.
  { unfold prev', permute_checked, rank. rewrite Hs.
    destruct (b =? H * W)%nat; reflexivity. }
  cbn [bind]. rewrite Hn. cbn [bind]. reflexivity.
Qed.

(** X15: a previous state of the right size is accepted in both layouts
    and in every rotation mode: for a non-empty grid and batch, a state
    of shape [(bev_h * bev_w, bs, E)] or [(bs, bev_h * bev_w, E)] is
    aligned without error, and the aligned state has shape
    [(bev_h * bev_w, bs, E)]. *)
Theorem align_prev_bev_keeps_layout (mode : pyval) (H W bs E : nat) (angle : R)
    (prev : tensor) :
  (0 < H * W)%nat -> (0 < bs)%nat ->
  shape prev = [(H * W)%nat; bs; E] \/ shape prev = [bs; (H * W)%nat; E] ->
  exists p,
    align_prev_bev rotate_values mode H W angle (Some prev) = Ok (Some p) /\
    shape p = [(H * W)%nat; bs; E].
Proof.
  intros HHW Hbs Hshape.
  assert (exists a b, shape prev = [a; b; E] /\
            shape (if (b =? H * W)%nat then permute prev [1; 0; 2]%nat else prev)
            = [(H * W)%nat; bs; E] /\
            (if (b =? H * W)%nat then a else b) = bs) as (a & b & Hs & Hs' & Hn).
  { destruct Hshape as [Hs|Hs].
    - exists (H * W)%nat, bs. split; [assumption|].
      destruct (Nat.eqb_spec bs (H * W)) as [Eq|_].
      + cbn [permute shape map]. rewrite Hs. cbn [nth]. rewrite Eq. split; reflexivity.
      + split; [assumption|reflexivity].
    - exists bs, (H * W)%nat. split; [assumption|].
      rewrite Nat.eqb_refl. cbn [permute shape map]. rewrite Hs. split; reflexivity. }
  rewrite (align_prev_bev_rank3 mode H W angle prev a b E Hs). rewrite Hn.
  set (prev' := if (b =? H * W)%nat then permute prev [1; 0; 2]%nat else prev) in *.
  assert ((0 < H * W * bs)%nat /\ ((H * W * bs * E) mod (H * W * bs) = 0)%nat) as Hfits.
  { split; [nia|]. rewrite (Nat.mul_comm (H * W * bs) E). apply Nat.Div0.mod_mul. }
  assert ((H * W * bs * E / (H * W * bs))%nat = E) as Hdiv.
  { rewrite (Nat.mul_comm (H * W * bs) E). apply Nat.div_mul. nia. }
  pose proof (rotate_chain_spec rotate_values (Some [70; 150]) H W angle prev' bs
                (H * W) bs E Hs') as [Y1 _].
  pose proof (rotate_chain_spec rotate_values None H W angle prev' bs
                (H * W) bs E Hs') as [Y2 _].
  rewrite Hdiv in Y1, Y2.
  destruct (py_eq_str mode "waymo_rotate"); [exact (Y1 Hfits)|].
  destruct (truthy mode); [exact (Y2 Hfits)|].
  exists prev'. split; [reflexivity|assumption].
Qed.

Lemma flatten_feats_with_any_flags (self : BEVTransformer pyobj) (f1 f2 : pyval)
    (feats : list tensor) (bs : nat) :
  flatten_feats (with_flags self f1 f2) feats bs = flatten_feats self feats bs.
Proof. unfold flatten_feats. rewrite flatten_levels_with_flags. reflexivity. Qed.

(** X16: on the first frame of a sequence ([prev_bev=None]) nothing is
    rotated: the value of [rotate_prev_bev] has no effect on what
    [forward] returns. *)
Theorem first_frame_ignores_rotate_flag (self : BEVTransformer pyobj) (flag : pyval)
    (mlvl_feats : list tensor) (bev_embed query_embed : tensor) (bev_h bev_w : nat)
    (grid_length : grid_length_t) (bev_pos : option tensor) (reg_branches : pyobj)
    (return_bev : bool) (gt_bboxes_3d : pyobj) (kwargs : kwargs_t pyobj) :
  forward rotate_values (with_flags self (use_shift self) flag) mlvl_feats bev_embed
    query_embed bev_h bev_w grid_length bev_pos reg_branches None return_bev
    gt_bboxes_3d kwargs
  = forward rotate_values self mlvl_feats bev_embed query_embed bev_h bev_w
      grid_length bev_pos reg_branches None return_bev gt_bboxes_3d kwargs.
Proof.
  assert (encoder_inputs rotate_values (with_flags self (use_shift self) flag) mlvl_feats
            bev_embed bev_h bev_w grid_length bev_pos None gt_bboxes_3d kwargs
          = encoder_inputs rotate_values self mlvl_feats bev_embed
              bev_h bev_w grid_length bev_pos None gt_bboxes_3d kwargs) as Henc.
  { unfold encoder_inputs.
    change (add_can_bus (with_flags self ?a ?b)) with (add_can_bus self).
    cbn [Z_range D_samples use_shift rotate_prev_bev with_flags align_prev_bev].
    repeat first [ rewrite flatten_feats_with_any_flags | step_result ]. }
  unfold forward. rewrite Henc. repeat step_result.
Qed.

End AlignLayouts.

(** ** Feature flattening on well-formed and on ill-formed levels *)

Lemma bdim_one (d : nat) : bdim d 1 = Some d.
Proof.
  unfold bdim. destruct (Nat.eqb_spec d 1) as [->|_]; reflexivity.
Qed.

Lemma bdim_refl (d : nat) : bdim d d = Some d.
Proof. unfold bdim. rewrite Nat.eqb_refl. reflexivity. Qed.

Lemma broadcast_shape_row (n b k e : nat) :
  broadcast_shape [n; b; k; e] [1; 1; 1; e]%nat = Some [n; b; k; e].
Proof.
  unfold broadcast_shape. cbn [rev app]. rewrite !broadcast_rev_cons.
  cbn [broadcast_rev]. rewrite !bdim_one, bdim_refl. reflexivity.
Qed.

Lemma broadcast_shape_cams (n b k e : nat) :
  broadcast_shape [n; b; k; e] [n; 1; 1; e]%nat = Some [n; b; k; e].
Proof.
  unfold broadcast_shape. cbn [rev app]. rewrite !broadcast_rev_cons.
  cbn [broadcast_rev]. rewrite !bdim_one, !bdim_refl. reflexivity.
Qed.

Lemma operand_index_row (E cam bb k e : nat) :
  (e < E)%nat ->
  operand_index [1; 1; 1; E]%nat [cam; bb; k; e] = [0; 0; 0; e]%nat.
Proof.
  intros He. unfold operand_index, bcast_index. cbn [length Nat.sub skipn map2 Nat.eqb].
  destruct (Nat.eqb_spec E 1) as [E1|_]; [|reflexivity].
  repeat f_equal. lia.
Qed.

Lemma operand_index_cams (N E cam bb k e : nat) :
  (cam < N)%nat -> (e < E)%nat ->
  operand_index [N; 1; 1; E]%nat [cam; bb; k; e] = [cam; 0; 0; e]%nat.
Proof.
  intros Hc He. unfold operand_index, bcast_index. cbn [length Nat.sub skipn map2 Nat.eqb].
  destruct (Nat.eqb_spec N 1) as [N1|_], (Nat.eqb_spec E 1) as [E1|_];
    repeat f_equal; lia.
Qed.

Section FlattenExtras.

Context {pyobj : Type}.
Variable self : BEVTransformer pyobj.
Hypothesis Htables : tables_as_initialised self.

(** One well-formed level: it is flattened without error, and its entries
    are the input plus the embeddings in use. *)
Lemma flatten_level_well_formed (lvl : nat) (feat : tensor) (b n h w : nat) :
  (lvl < num_feature_levels self)%nat ->
  shape feat = [b; n; embed_dims self; h; w] ->
  (use_cams_embeds self = true -> n = num_cams self) ->
  exists f,
    flatten_level self lvl feat = Ok (f, (h, w), b) /\
    shape f = [n; b; (h * w)%nat; embed_dims self] /\
    forall cam bb k e,
      (cam < n)%nat -> (bb < b)%nat -> (k < h * w)%nat -> (e < embed_dims self)%nat ->
      item f [cam; bb; k; e]
      = (if use_cams_embeds self
         then item feat [bb; cam; e; (k / w)%nat; (k mod w)%nat]
              + item (cams_embeds self) [cam; e]
         else item feat [bb; cam; e; (k / w)%nat; (k mod w)%nat])
        + item (level_embeds self) [lvl; e].
Proof.
  destruct Htables as [Hlev Hcam]. intros Hl Hs Hn.
  set (E := embed_dims self) in *.
  pose proof (reshaped_feat_shape feat b n E h w Hs) as Hr.
  pose proof (fun cam bb k e => reshaped_feat_item feat b n E h w cam bb k e Hs) as Hri.
  pose proof (level_row_shape _ _ _ lvl Hlev Hl) as Hrow.
  pose proof (fun e => level_row_item _ _ _ lvl e Hlev Hl) as Hrowi.
  pose proof (cam_rows_shape _ _ _ Hcam) as Hcr.
  assert (forall cam e, item (unsqueeze (unsqueeze (cams_embeds self) 1) 1) [cam; 0; 0; e]%nat
                        = item (cams_embeds self) [cam; e]) as Hcri by reflexivity.
  unfold flatten_level. rewrite Hs.
  remember (permute (flatten feat 3) [1; 0; 3; 2]%nat) as r eqn:Er.
  remember (unsqueeze (unsqueeze (slice_rows (level_embeds self) lvl (lvl + 1)) 0) 0)
    as row eqn:Erow.
  remember (unsqueeze (unsqueeze (cams_embeds self) 1) 1) as cr eqn:Ecr.
  clear Er Erow Ecr.
  destruct (use_cams_embeds self) eqn:Hcams.
  - rewrite <- (Hn eq_refl) in Hcr.
    unfold add_t at 1. rewrite Hr, Hcr. fold E. rewrite broadcast_shape_cams.
    cbn [bind]. unfold add_t. cbn [shape]. rewrite Hrow. fold E.
    rewrite broadcast_shape_row. cbn [bind].
    eexists. split; [reflexivity|]. split; [reflexivity|].
    intros cam bb k e Hcam' Hbb Hk He. cbn [item].
    rewrite !(operand_index_in_range [n; b; (h * w)%nat; E] [cam; bb; k; e])
      by (try reflexivity; repeat constructor; assumption).
    rewrite operand_index_row, operand_index_cams by assumption.
    rewrite Hri, Hrowi, Hcri. reflexivity.
  - cbn [bind]. unfold add_t. rewrite Hr, Hrow. fold E.
    rewrite broadcast_shape_row. cbn [bind].
    eexists. split; [reflexivity|]. split; [reflexivity|].
    intros cam bb k e Hcam' Hbb Hk He. cbn [item].
    rewrite (operand_index_in_range [n; b; (h * w)%nat; E])
      by (try reflexivity; repeat constructor; assumption).
    rewrite operand_index_row by assumption.
    rewrite Hri, Hrowi. reflexivity.
Qed.

Lemma flatten_levels_well_formed (feats : list tensor) (lvl bs0 b n : nat) :
  (lvl + length feats <= num_feature_levels self)%nat ->
  Forall (fun feat => exists h w, shape feat = [b; n; embed_dims self; h; w]) feats ->
  (use_cams_embeds self = true -> n = num_cams self) ->
  exists fs,
    flatten_levels self lvl feats bs0
    = Ok (fs, map feat_hw feats, match feats with [] => bs0 | _ => b end) /\
    length fs = length feats /\
    Forall (fun f => exists k, shape f = [n; b; k; embed_dims self]) fs.
Proof.
  intros Hlen Hall Hn. revert lvl bs0 Hlen.
  induction Hall as [|feat rest (h & w & Hs) _ IH]; intros lvl bs0 Hlen.
  - exists []. repeat split; constructor.
  - cbn [length] in Hlen. cbn [flatten_levels].
    destruct (flatten_level_well_formed lvl feat b n h w ltac:(lia) Hs Hn)
      as (f & -> & Hf & _).
    cbn [bind]. destruct (IH (S lvl) b ltac:(lia)) as (fs & -> & Hlen' & Hfs).
    cbn [bind]. exists (f :: fs). split; [|split].
    + cbn [map].
      replace (feat_hw feat) with (h, w) by (unfold feat_hw; rewrite Hs; reflexivity).
      destruct rest; reflexivity.
    + cbn [length]. rewrite Hlen'. reflexivity.
    + constructor; [exists (h * w)%nat; assumption|assumption].
Qed.

End FlattenExtras.

Lemma same_except_tokens (n b k1 k2 e : nat) :
  same_except 2 [n; b; k1; e] [n; b; k2; e] = true.
Proof.
  unfold same_except. cbn [set_nth].
  destruct (list_eq_dec Nat.eq_dec [n; b; 0%nat; e] [n; b; 0%nat; e]); congruence.
Qed.

Lemma cat_same_rows (n b e : nat) (fs : list tensor) :
  fs <> [] ->
  Forall (fun f => exists k, shape f = [n; b; k; e]) fs ->
  exists r, cat fs 2 = Ok r /\ shape r = [n; b; list_sum (map dim2 fs); e].
Proof.
  intros Hne Hall. induction Hall as [|f fs (k & Hf) Hall IH]; [congruence|].
  cbn [cat]. destruct fs as [|f' fs'].
  - unfold rank. rewrite Hf. cbn [length Nat.ltb Nat.leb].
    exists f. split; [reflexivity|]. rewrite Hf. cbn [map]. unfold dim2. rewrite Hf. cbn.
    rewrite Nat.add_0_r. reflexivity.
  - destruct (IH ltac:(discriminate)) as (r & -> & Hr). cbn [bind].
    unfold cat_pair, rank. rewrite Hf, Hr. cbn [length Nat.ltb Nat.leb].
    rewrite same_except_tokens. cbn [andb].
    eexists. split; [reflexivity|]. cbn [shape set_nth nth].
    change (map dim2 (f :: f' :: fs')) with (dim2 f :: map dim2 (f' :: fs')).
    rewrite list_sum_cons. unfold dim2. rewrite Hf. reflexivity.
Qed.

Lemma cat_pair_batch (a b r : tensor) :
  length (shape a) = 4%nat -> length (shape b) = 4%nat ->
  cat_pair 2 a b = Ok r ->
  nth 1 (shape b) 0%nat = nth 1 (shape a) 0%nat /\
  nth 1 (shape r) 0%nat = nth 1 (shape a) 0%nat.
Proof.
  intros Ha Hb. unfold cat_pair, same_except.
  destruct (shape a) as [|a1 [|a2 [|a3 [|a4 [|]]]]] eqn:Hsa; try discriminate Ha.
  destruct (shape b) as [|b1 [|b2 [|b3 [|b4 [|]]]]] eqn:Hsb; try discriminate Hb.
  cbn [set_nth nth].
  destruct (2 <? rank a)%nat; [|discriminate].
  destruct (list_eq_dec _ _ _) as [Heq|_]; [|discriminate].
  cbn [andb]. intros Hr. injection Hr as <-. cbn [shape nth].
  split; congruence.
Qed.

Lemma cat_batch (ts : list tensor) (r : tensor) :
  Forall (fun t => length (shape t) = 4%nat) ts ->
  cat ts 2 = Ok r ->
  Forall (fun t => nth 1 (shape t) 0%nat = nth 1 (shape r) 0%nat) ts.
Proof.
  intros Hall. revert r. induction Hall as [|t ts H4 Hall IH]; intros r Hcat.
  - constructor.
  - cbn [cat] in Hcat. destruct ts as [|t' ts'].
    + destruct (2 <? rank t)%nat; [|discriminate]. injection Hcat as <-.
      repeat constructor.
    + destruct (cat (t' :: ts') 2) as [r'|] eqn:Hrest; [|discriminate].
      cbn [bind] in Hcat.
      destruct (cat_tokens (t' :: ts') r' Hall Hrest) as (Hr4 & _ & _).
      destruct (cat_pair_batch t r' r H4 Hr4 Hcat) as [Hb Hr].
      constructor; [congruence|].
      eapply Forall_impl; [|apply (IH r' eq_refl)].
      cbn beta. intros t0 Ht0. congruence.
Qed.

Section FlattenTheorems.

Context {pyobj : Type}.
Variable self : BEVTransformer pyobj.
Hypothesis Htables : tables_as_initialised self.

Lemma flatten_feats_well_formed (feats : list tensor) (bs0 b n : nat) :
  feats <> [] ->
  (length feats <= num_feature_levels self)%nat ->
  Forall (fun feat => exists h w, shape feat = [b; n; embed_dims self; h; w]) feats ->
  (use_cams_embeds self = true -> n = num_cams self) ->
  exists ff,
    flatten_feats self feats bs0 = Ok (ff, as_long_tensor (map feat_hw feats), b) /\
    shape (permute ff [0; 2; 1; 3]%nat)
    = [n; total_tokens (map feat_hw feats); b; embed_dims self].
Proof.
  intros Hne Hlen Hall Hn.
  destruct (flatten_levels_well_formed self Htables feats 0 bs0 b n ltac:(lia) Hall Hn)
    as (fs & Hlv & Hlen' & Hfs).
  assert (fs <> []) as Hfne
    by (destruct fs; [destruct feats; [congruence|discriminate Hlen']|discriminate]).
  destruct (cat_same_rows n b (embed_dims self) fs Hfne Hfs) as (r & Hcat & Hr).
  destruct (flatten_levels_spec self Htables feats 0 bs0 fs _ _ ltac:(lia) Hlv)
    as (_ & _ & Hdims & _).
  unfold flatten_feats. rewrite Hlv. cbn [bind]. rewrite Hcat. cbn [bind].
  exists r. split; [destruct feats; [congruence|reflexivity]|].
  cbn [permute shape map]. rewrite Hr. cbn [nth].
  rewrite Hdims. reflexivity.
Qed.

(** X17: with [use_cams_embeds] on, every entry of the flattened
    sequence is the input entry plus the camera's row of [cams_embeds]
    plus the level's row of [level_embeds]: token [k] of level [l] sits
    at position [start_l + k] and holds the input entry of cell
    [(k / w, k mod w)] of that level. *)
Theorem flatten_feats_items_with_cams (feats : list tensor) (bs0 : nat)
    (ff : tensor) (ss : list (Z * Z)) (bs' : nat) :
  use_cams_embeds self = true ->
  (length feats <= num_feature_levels self)%nat ->
  flatten_feats self feats bs0 = Ok (ff, ss, bs') ->
  forall l feat b h w,
    nth_error feats l = Some feat ->
    shape feat = [b; num_cams self; embed_dims self; h; w] ->
    forall cam bb k e,
      (cam < num_cams self)%nat -> (bb < b)%nat -> (k < h * w)%nat ->
      (e < embed_dims self)%nat ->
      item (permute ff [0; 2; 1; 3]%nat)
           [cam; (list_sum (firstn l (map tokens (map feat_hw feats))) + k)%nat; bb; e]
      = item feat [bb; cam; e; (k / w)%nat; (k mod w)%nat]
        + item (cams_embeds self) [cam; e]
        + item (level_embeds self) [l; e].
Proof.
  intros Hon Hlen. unfold flatten_feats.
  destruct (flatten_levels self 0 feats bs0) as [[[fs sps] b]|] eqn:Hlv; [|discriminate].
  cbn [bind]. destruct (cat fs 2) as [r|] eqn:Hcat; [|discriminate].
  cbn [bind]. intros Hok. injection Hok as <- _ _.
  destruct (flatten_levels_spec self Htables feats 0 bs0 fs sps b ltac:(lia) Hlv)
    as (_ & H4 & Hdims & Hnth).
  destruct (cat_tokens fs r H4 Hcat) as (_ & _ & Hitem).
  intros l feat b1 h w Hfeat Hs cam bb k e Hcam Hbb Hk He.
  destruct (Hnth l feat Hfeat) as (f & sp & b2 & Hf & Hlevel).
  cbn [Nat.add] in Hlevel.
  assert (l < length feats)%nat as Hl by (apply nth_error_Some; congruence).
  destruct (flatten_level_well_formed self Htables l feat b1 (num_cams self) h w
              ltac:(lia) Hs ltac:(reflexivity)) as (f' & Hlevel' & Hshape & Hitems).
  rewrite Hlevel in Hlevel'. injection Hlevel' as <- _ _.
  assert (dim2 f = (h * w)%nat) as Hd2 by (unfold dim2; rewrite Hshape; reflexivity).
  change (item (permute r [0; 2; 1; 3]%nat) [cam; ?p; bb; e])
    with (item r [cam; bb; p; e]).
  rewrite <- Hdims, firstn_map.
  rewrite (Hitem l f Hf) by lia.
  rewrite (Hitems cam bb k e Hcam Hbb Hk He), Hon. reflexivity.
Qed.

Lemma flatten_levels_batch (feats : list tensor) (lvl bs : nat)
    (fs : list tensor) (sps : list (nat * nat)) (bs' : nat) :
  (lvl + length feats <= num_feature_levels self)%nat ->
  flatten_levels self lvl feats bs = Ok (fs, sps, bs') ->
  forall x,
    Forall (fun f => nth 1 (shape f) 0%nat = x) fs ->
    Forall (fun feat => nth 0 (shape feat) 0%nat = x) feats /\
    (feats <> [] -> bs' = x).
Proof.
  revert lvl bs fs sps bs'.
  induction feats as [|feat rest IH]; intros lvl bs fs sps bs' Hlen Hok x Hx.
  - split; [constructor|congruence].
  - cbn [flatten_levels] in Hok. cbn [length] in Hlen.
    destruct (flatten_level self lvl feat) as [[[f sp] b]|] eqn:Hlevel; [|discriminate].
    cbn [bind] in Hok.
    destruct (flatten_levels self (S lvl) rest b) as [[[fs' sps'] b']|] eqn:Hrest;
      [|discriminate].
    cbn [bind] in Hok. injection Hok as <- <- <-.
    inversion Hx as [|f0 fs0 Hf Hfs']; subst f0 fs0.
    assert (nth 0 (shape feat) 0%nat = x) as Hb.
    { clear IH Hrest. unfold flatten_level in Hlevel.
      destruct Htables as [Hlev Hcam].
      destruct (shape feat) as [|b0 [|n [|c [|h [|w [|]]]]]] eqn:Hs; try discriminate.
      pose proof (reshaped_feat_shape feat b0 n c h w Hs) as Hr.
      pose proof (level_row_shape _ _ _ lvl Hlev ltac:(lia)) as Hrow.
      pose proof (cam_rows_shape _ _ _ Hcam) as Hcr.
      remember (permute (flatten feat 3) [1; 0; 3; 2]%nat) as r eqn:Er.
      remember (unsqueeze (unsqueeze (slice_rows (level_embeds self) lvl (lvl + 1)) 0) 0)
        as row eqn:Erow.
      remember (unsqueeze (unsqueeze (cams_embeds self) 1) 1) as cr eqn:Ecr.
      clear Er Erow Ecr. cbn [nth].
      assert (forall t x1 x3 x4 g, shape t = [x1; b0; x3; x4] ->
                add_t t row = Ok g -> nth 1 (shape g) 0%nat = b0) as Hadd.
      { intros t x1 x3 x4 g Ht. unfold add_t. rewrite Ht, Hrow.
        destruct (broadcast_shape _ _) as [sh|] eqn:Hbc; [|discriminate].
        intros Hg. injection Hg as <-.
        apply broadcast_shape_rank4 in Hbc.
        destruct Hbc as (y1 & y2 & y3 & y4 & -> & _ & H2 & _ & _).
        apply bdim_one_r in H2. subst y2. reflexivity. }
      destruct (use_cams_embeds self).
      - unfold add_t at 1 in Hlevel. rewrite Hr, Hcr in Hlevel.
        destruct (broadcast_shape _ _) as [sh|] eqn:Hbc; [|discriminate].
        apply broadcast_shape_rank4 in Hbc.
        destruct Hbc as (y1 & y2 & y3 & y4 & -> & _ & H2 & _ & _).
        apply bdim_one_r in H2. subst y2. cbn [bind] in Hlevel.
        destruct (add_t _ row) as [g|] eqn:Hg; [|discriminate].
        cbn [bind] in Hlevel. injection Hlevel as <- _ _.
        eapply Hadd in Hg; [|reflexivity]. congruence.
      - cbn [bind] in Hlevel. destruct (add_t r row) as [g|] eqn:Hg; [|discriminate].
        cbn [bind] in Hlevel. injection Hlevel as <- _ _.
        eapply Hadd in Hg; [|exact Hr]. congruence. }
    destruct (flatten_level_shape self Htables lvl feat f sp b ltac:(lia) Hlevel)
      as (_ & Hb0 & _ & _).
    destruct (IH (S lvl) b fs' sps' b' ltac:(lia) Hrest x Hfs') as [Hall Hlast].
    split; [constructor; assumption|].
    intros _. destruct rest as [|feat' rest'].
    + cbn in Hrest. injection Hrest as _ _ <-. congruence.
    + apply Hlast. discriminate.
Qed.

(** X18: one batch size for all levels.  Whenever the flattening
    succeeds, every feature level has the same size along its batch
    axis, and that size is the value of [bs] which the loop leaves
    behind: the rebinding of [bs] by each iteration cannot change it. *)
Theorem flatten_feats_one_batch_size (feats : list tensor) (bs0 : nat)
    (ff : tensor) (ss : list (Z * Z)) (bs' : nat) :
  (length feats <= num_feature_levels self)%nat ->
  flatten_feats self feats bs0 = Ok (ff, ss, bs') ->
  Forall (fun feat => nth 0 (shape feat) 0%nat = bs') feats /\
  nth 2 (shape (permute ff [0; 2; 1; 3]%nat)) 0%nat = bs'.
Proof.
  intros Hlen. unfold flatten_feats.
  destruct (flatten_levels self 0 feats bs0) as [[[fs sps] b]|] eqn:Hlv; [|discriminate].
  cbn [bind]. destruct (cat fs 2) as [r|] eqn:Hcat; [|discriminate].
  cbn [bind]. intros Hok. injection Hok as <- _ <-.
  destruct (flatten_levels_spec self Htables feats 0 bs0 fs sps b ltac:(lia) Hlv)
    as (_ & H4 & _ & _).
  pose proof (cat_batch fs r H4 Hcat) as Hsame.
  destruct (flatten_levels_batch feats 0 bs0 fs sps b ltac:(lia) Hlv _ Hsame)
    as [Hall Hlast].
  assert (feats <> []) as Hne.
  { intros ->. cbn in Hlv. injection Hlv as <- _ _. discriminate Hcat. }
  rewrite (Hlast Hne). split; [assumption|].
  cbn [permute shape map nth]. reflexivity.
Qed.

Lemma flatten_level_beyond_tables (lvl : nat) (feat : tensor) (b n c h w : nat) :
  (num_feature_levels self <= lvl)%nat ->
  shape feat = [b; n; c; h; w] -> (2 <= h * w)%nat ->
  flatten_level self lvl feat = Raise RuntimeError.
Proof.
  destruct Htables as [Hlev Hcam]. intros Hl Hs Hhw.
  assert (shape (unsqueeze (unsqueeze (slice_rows (level_embeds self) lvl (lvl + 1)) 0) 0)
          = [1; 1; 0; embed_dims self]%nat) as Hrow.
  { unfold slice_rows. rewrite Hlev. cbn.
    replace (Nat.min (lvl + 1) (num_feature_levels self)
             - Nat.min lvl (num_feature_levels self))%nat with 0%nat by lia.
    reflexivity. }
  pose proof (reshaped_feat_shape feat b n c h w Hs) as Hr.
  pose proof (cam_rows_shape _ _ _ Hcam) as Hcr.
  unfold flatten_level. rewrite Hs.
  remember (permute (flatten feat 3) [1; 0; 3; 2]%nat) as r eqn:Er.
  remember (unsqueeze (unsqueeze (slice_rows (level_embeds self) lvl (lvl + 1)) 0) 0)
    as row eqn:Erow.
  remember (unsqueeze (unsqueeze (cams_embeds self) 1) 1) as cr eqn:Ecr.
  clear Er Erow Ecr.
  assert (forall t x1 x2 x4, shape t = [x1; x2; (h * w)%nat; x4] ->
            add_t t row = Raise RuntimeError) as Hadd.
  { intros t x1 x2 x4 Ht. unfold add_t. rewrite Ht, Hrow.
    unfold broadcast_shape. cbn [rev app]. rewrite !broadcast_rev_cons.
    cbn [broadcast_rev].
    assert (bdim (h * w) 0 = None) as ->.
    { unfold bdim. destruct (Nat.eqb_spec (h * w) 0); [lia|].
      destruct (Nat.eqb_spec (h * w) 1); [lia|]. reflexivity. }
    destruct (bdim x4 (embed_dims self)), (bdim x1 1), (bdim x2 1); reflexivity. }
  destruct (use_cams_embeds self).
  - unfold add_t at 1. rewrite Hr, Hcr.
    destruct (broadcast_shape _ _) as [sh|] eqn:Hbc; [|reflexivity].
    apply broadcast_shape_rank4 in Hbc.
    destruct Hbc as (y1 & y2 & y3 & y4 & -> & _ & _ & H3 & _).
    apply bdim_one_r in H3. subst y3. cbn [bind].
    erewrite Hadd by reflexivity. reflexivity.
  - cbn [bind]. erewrite Hadd by exact Hr. reflexivity.
Qed.

Lemma flatten_levels_beyond_tables (feats : list tensor) (lvl bs : nat) :
  feats <> [] ->
  (num_feature_levels self < lvl + length feats)%nat ->
  Forall (fun feat => exists b n c h w,
            shape feat = [b; n; c; h; w] /\ (2 <= h * w)%nat) feats ->
  flatten_levels self lvl feats bs = Raise RuntimeError.
Proof.
  intros Hne Hlen Hall. revert lvl bs Hne Hlen.
  induction Hall as [|feat rest (b & n & c & h & w & Hs & Hhw) Hall IH];
    intros lvl bs Hne Hlen; [congruence|].
  cbn [length] in Hlen. cbn [flatten_levels].
  destruct (Nat.le_gt_cases (num_feature_levels self) lvl) as [Hge|Hlt].
  - rewrite (flatten_level_beyond_tables lvl feat b n c h w Hge Hs Hhw). reflexivity.
  - destruct (flatten_level self lvl feat) as [[[f sp] b0]|e] eqn:Hlevel.
    + cbn [bind]. rewrite IH; [reflexivity| |lia].
      destruct rest; [cbn [length] in Hlen; lia|discriminate].
    + cbn [bind]. f_equal.
      unfold flatten_level in Hlevel. rewrite Hs in Hlevel.
      unfold add_t in Hlevel.
      repeat match type of Hlevel with
             | context [match ?m with _ => _ end] =>
                 lazymatch m with
                 | context [match _ with _ => _ end] => fail
                 | _ => destruct m; cbn [bind] in Hlevel
                 end
             end; congruence.
Qed.

(** X19: more feature levels than [level_embeds] has rows.  When the
    list of features is longer than [num_feature_levels] and every level
    is five-dimensional with at least two cells, the flattening fails
    with a [RuntimeError]: the slice [level_embeds[lvl:lvl+1]] of a
    level beyond the table is empty (the slice is clipped, no
    [IndexError] is raised), and the addition cannot broadcast it. *)
Theorem flatten_feats_too_many_levels (feats : list tensor) (bs0 : nat) :
  (num_feature_levels self < length feats)%nat ->
  Forall (fun feat => exists b n c h w,
            shape feat = [b; n; c; h; w] /\ (2 <= h * w)%nat) feats ->
  flatten_feats self feats bs0 = Raise RuntimeError.
Proof.
  intros Hlen Hall. unfold flatten_feats.
  rewrite (flatten_levels_beyond_tables feats 0 bs0); [reflexivity| |lia|assumption].
  destruct feats; [cbn [length] in Hlen; lia|discriminate].
Qed.

End FlattenTheorems.

(** ** The layers of [init_layers] inside [forward] *)

Lemma sum_below_ext (n : nat) (f g : nat -> R) :
  (forall j, (j < n)%nat -> f j = g j) -> sum_below n f = sum_below n g.
Proof.
  intros Hfg. unfold sum_below. f_equal. apply map_ext_in.
  intros j Hj. apply in_seq in Hj. apply Hfg. lia.
Qed.

Lemma linear_ok (weight bias x : tensor) (sh : list nat) (d : nat) :
  shape x = sh ++ [d] -> d = nth 1 (shape weight) 0%nat ->
  exists y,
    linear weight bias x = Ok y /\
    shape y = sh ++ [nth 0 (shape weight) 0%nat] /\
    forall idx,
      item y idx
      = sum_below d (fun j => item x (removelast idx ++ [j])
                              * item weight [last idx 0%nat; j])
        + item bias [last idx 0%nat].
Proof.
  intros Hs Hd. unfold linear. rewrite Hs, rev_app_distr. cbn [rev app].
  rewrite <- Hd, Nat.eqb_refl, removelast_last.
  eexists. split; [reflexivity|]. split; reflexivity.
Qed.

Lemma linear_mismatch (weight bias x : tensor) (sh : list nat) (d : nat) :
  shape x = sh ++ [d] -> d <> nth 1 (shape weight) 0%nat ->
  linear weight bias x = Raise RuntimeError.
Proof.
  intros Hs Hd. unfold linear. rewrite Hs, rev_app_distr. cbn [rev app].
  destruct (Nat.eqb_spec d (nth 1 (shape weight) 0%nat)); [contradiction|reflexivity].
Qed.

Lemma layer_norm_ok (weight bias x : tensor) (sh : list nat) (d : nat) :
  shape x = sh ++ [d] -> d = nth 0 (shape weight) 0%nat ->
  exists y, layer_norm weight bias x = Ok y /\ shape y = sh ++ [d].
Proof.
  intros Hs Hd. unfold layer_norm. rewrite Hs, rev_app_distr. cbn [rev app].
  rewrite <- Hd, Nat.eqb_refl. eexists. split; reflexivity.
Qed.

Lemma broadcast_shape_rank3_row (n b e : nat) :
  broadcast_shape [n; b; e] [1; 1; e]%nat = Some [n; b; e].
Proof.
  unfold broadcast_shape. cbn [rev app]. rewrite !broadcast_rev_cons.
  cbn [broadcast_rev]. rewrite !bdim_one, bdim_refl. reflexivity.
Qed.

Lemma operand_index_rank3_row (E i b e : nat) :
  (e < E)%nat -> operand_index [1; 1; E]%nat [i; b; e] = [0; 0; e]%nat.
Proof.
  intros He. unfold operand_index, bcast_index. cbn [length Nat.sub skipn map2 Nat.eqb].
  destruct (Nat.eqb_spec E 1) as [E1|_]; [|reflexivity].
  repeat f_equal. lia.
Qed.

Section Layers.

Context {pyobj : Type}.
Variable self : BEVTransformer pyobj.
Variable v : layer_values.

Lemma can_bus_mlp_initialised (can_bus : list R) :
  length can_bus = 18%nat ->
  exists emb,
    can_bus_mlp (init_layers self v) (unsqueeze (unsqueeze (tensor_of_list can_bus) 0) 0)
    = Ok emb /\
    shape emb = [1; 1; embed_dims self]%nat /\
    (can_bus_norm self = false -> forall idx, 0 <= item emb idx).
Proof.
  intros Hlen.
  assert (shape (unsqueeze (unsqueeze (tensor_of_list can_bus) 0) 0) = [1; 1]%nat ++ [18%nat])
    as Hx by (cbn; rewrite Hlen; reflexivity).
  remember (unsqueeze (unsqueeze (tensor_of_list can_bus) 0) 0) as x eqn:Ex. clear Ex.
  cbn [can_bus_mlp init_layers].
  set (E := embed_dims self).
  destruct (linear_ok (mkT [(E / 2)%nat; 18%nat] (can_bus_mlp_0_weight v))
                      (mkT [(E / 2)%nat] (can_bus_mlp_0_bias v)) x _ _ Hx eq_refl)
    as (y1 & -> & Hy1 & _).
  cbn [bind shape nth] in *.
  destruct (linear_ok (mkT [E; (E / 2)%nat] (can_bus_mlp_2_weight v))
                      (mkT [E] (can_bus_mlp_2_bias v)) (relu y1) _ _ Hy1 eq_refl)
    as (y2 & -> & Hy2 & _).
  cbn [bind shape nth] in *.
  destruct (can_bus_norm self).
  - destruct (layer_norm_ok (mkT [E] (can_bus_mlp_norm_weight v))
                            (mkT [E] (can_bus_mlp_norm_bias v)) (relu y2) _ _ Hy2 eq_refl)
      as (y3 & -> & Hy3).
    exists y3. repeat split; [assumption|discriminate].
  - exists (relu y2). repeat split; [assumption|].
    intros _ idx. cbn [relu map_t item]. apply Rmax_l.
Qed.

Lemma add_can_bus_initialised (bev_embed : tensor) (can_bus : list R) (n bs : nat) :
  length can_bus = 18%nat ->
  shape bev_embed = [n; bs; embed_dims self] ->
  exists emb q,
    (can_bus_norm self = false -> forall idx, 0 <= item emb idx) /\
    add_can_bus (init_layers self v) bev_embed can_bus = Ok q /\
    shape q = [n; bs; embed_dims self] /\
    forall i b e, (i < n)%nat -> (b < bs)%nat -> (e < embed_dims self)%nat ->
      item q [i; b; e]
      = item bev_embed [i; b; e]
        + item emb [0; 0; e]%nat * (if use_can_bus self then 1 else 0).
Proof.
  intros Hlen Hs.
  destruct (can_bus_mlp_initialised can_bus Hlen) as (emb & Hmlp & Hemb & Hpos).
  exists emb. unfold add_can_bus. rewrite Hmlp. cbn [bind].
  unfold add_t. cbn [mul_scalar map_t shape]. rewrite Hs, Hemb.
  rewrite broadcast_shape_rank3_row.
  eexists. split; [assumption|]. split; [reflexivity|]. split; [reflexivity|].
  intros i b e Hi Hb He. cbn [item init_layers use_can_bus].
  rewrite (operand_index_in_range [n; bs; embed_dims self] [i; b; e])
    by (try reflexivity; repeat constructor; assumption).
  rewrite operand_index_rank3_row by assumption. reflexivity.
Qed.

(** X20: the ego-motion record must have exactly 18 entries.  With the
    layers of [init_layers], a record of any other length makes the
    first linear layer of [can_bus_mlp] fail with a [RuntimeError]; the
    value of [use_can_bus] plays no part, since the layers run before
    their output is multiplied by the flag. *)
Theorem can_bus_needs_18_entries (bev_embed : tensor) (can_bus : list R) :
  length can_bus <> 18%nat ->
  add_can_bus (init_layers self v) bev_embed can_bus = Raise RuntimeError.
Proof.
  intros Hlen. unfold add_can_bus. cbn [can_bus_mlp init_layers].
  rewrite (linear_mismatch _ _ _ [1; 1]%nat (length can_bus)); [reflexivity|reflexivity|].
  cbn [shape nth]. assumption.
Qed.

(** X21: with [use_can_bus] off the BEV queries are left as they are: for
    an 18-entry record and queries of shape [(n, bs, embed_dims)], the
    layers still run, and the sum has the shape and the entries of the
    queries. *)
Theorem can_bus_off_keeps_queries (bev_embed : tensor) (can_bus : list R) (n bs : nat) :
  use_can_bus self = false ->
  length can_bus = 18%nat ->
  shape bev_embed = [n; bs; embed_dims self] ->
  exists q,
    add_can_bus (init_layers self v) bev_embed can_bus = Ok q /\
    shape q = [n; bs; embed_dims self] /\
    forall i b e, (i < n)%nat -> (b < bs)%nat -> (e < embed_dims self)%nat ->
      item q [i; b; e] = item bev_embed [i; b; e].
Proof.
  intros Hoff Hlen Hs.
  destruct (add_can_bus_initialised bev_embed can_bus n bs Hlen Hs)
    as (emb & q & _ & Hq & Hshape & Hitem).
  exists q. repeat split; try assumption.
  intros i b e Hi Hb He. rewrite (Hitem i b e Hi Hb He), Hoff. lra.
Qed.

(** X22: without the final [LayerNorm] the ego-motion embedding ends in a
    [ReLU], so it can only raise the queries: with [can_bus_norm] off,
    every entry of the sum is at least the entry of the BEV queries. *)
Theorem can_bus_without_norm_raises_queries (bev_embed : tensor) (can_bus : list R)
    (n bs : nat) :
  can_bus_norm self = false ->
  length can_bus = 18%nat ->
  shape bev_embed = [n; bs; embed_dims self] ->
  exists q,
    add_can_bus (init_layers self v) bev_embed can_bus = Ok q /\
    forall i b e, (i < n)%nat -> (b < bs)%nat -> (e < embed_dims self)%nat ->
      item bev_embed [i; b; e] <= item q [i; b; e].
Proof.
  intros Hnorm Hlen Hs.
  destruct (add_can_bus_initialised bev_embed can_bus n bs Hlen Hs)
    as (emb & q & Hpos & Hq & _ & Hitem).
  exists q. split; [assumption|].
  intros i b e Hi Hb He. rewrite (Hitem i b e Hi Hb He).
  pose proof (Hpos Hnorm [0; 0; e]%nat) as Hge.
  destruct (use_can_bus self); nra.
Qed.

(** X23: the initial reference points of the object queries.  When the
    decoding half succeeds with the layers of [init_layers], the
    returned [init_reference_out] has shape [(bs, num_query, 3)]; its
    entry for query [q] and coordinate [k] is the sigmoid of the linear
    layer [reference_points] applied to the first [embed_dims] columns of
    row [q] of [query_embed]; it lies between 0 and 1 and is the same
    for every batch element. *)
Theorem init_reference_points_of_queries (bev_embed query_embed : tensor)
    (bev_h bev_w bs : nat) (reg_branches : pyobj) (return_bev : bool)
    (kwargs : kwargs_t pyobj) (out : forward_out) (nq w : nat) :
  shape query_embed = [nq; w] ->
  decode (init_layers self v) bev_embed query_embed bev_h bev_w bs reg_branches
         return_bev kwargs = Ok out ->
  exists init,
    init_reference_of out = Some init /\
    shape init = [bs; nq; 3%nat] /\
    forall b q k, (b < bs)%nat -> (q < nq)%nat -> (k < 3)%nat ->
      item init [b; q; k]
      = sigmoid (sum_below (embed_dims self)
                   (fun j => item query_embed [q; j] * reference_points_weight v [k; j])
                 + reference_points_bias v [k]) /\
      0 <= item init [b; q; k] <= 1.
Proof.
  intros Hs. unfold decode. cbn [embed_dims init_layers reference_points decoder
                                  encoder_key_padding_mask].
  set (E := embed_dims self).
  unfold split2. rewrite Hs.
  destruct ((E <? w) && (w <=? 2 * E))%nat; [|discriminate].
  cbn [bind].
  set (qpos := expand (unsqueeze (narrow_cols query_embed 0 E) 0)
                      (bs :: shape (narrow_cols query_embed 0 E))).
  assert (shape qpos = [bs; nq] ++ [E]) as Hqs
    by (unfold qpos; cbn [expand narrow_cols shape]; rewrite Hs; reflexivity).
  assert (forall b q j, (q < nq)%nat -> (j < E)%nat ->
            item qpos [b; q; j] = item query_embed [q; j]) as Hqi.
  { intros b q j Hq Hj. unfold qpos.
    cbn [expand unsqueeze narrow_cols shape item]. rewrite Hs.
    cbn [nth firstn skipn app bcast_index map2 Nat.eqb Nat.add].
    destruct (Nat.eqb_spec nq 1) as [N1|_], (Nat.eqb_spec E 1) as [E1|_];
      cbn [nth Nat.add]; repeat f_equal; lia. }
  destruct (linear_ok (mkT [3; E]%nat (reference_points_weight v))
                      (mkT [3]%nat (reference_points_bias v)) qpos _ _ Hqs eq_refl)
    as (y & Hy & Hys & Hyi).
  fold qpos. rewrite Hy. cbn [bind].
  destruct (permute_checked bev_embed [1; 0; 2]%nat) as [bev|]; [|discriminate].
  cbn [bind].
  destruct (decoder self _) as [[states refs]|]; [|discriminate].
  cbn [bind]. intros Hout.
  assert (init_reference_of out = Some (map_t sigmoid y)) as Hinit
    by (destruct return_bev; injection Hout as <-; reflexivity).
  exists (map_t sigmoid y). split; [assumption|]. split; [exact Hys|].
  intros b q k Hb Hq Hk. cbn [map_t item].
  split; [|pose proof (sigmoid_in_unit (item y [b; q; k])); lra].
  rewrite Hyi. cbn [removelast last app item]. f_equal. f_equal.
  apply sum_below_ext. intros j Hj. rewrite Hqi by assumption. reflexivity.
Qed.

End Layers.

(** ** The decoding half *)

Section DecodingHalf.

Context {pyobj : Type}.
Variable rotate_values : tensor -> R -> option (list R) -> list nat -> R.
Variable self : BEVTransformer pyobj.

(** X24: [return_bev] changes the packaging of the result and nothing
    else.  The call without [return_bev] raises exactly when the call
    with it raises, with the same exception, and otherwise returns the
    decoded values of the call with [return_bev], the BEV state
    dropped. *)
Theorem return_bev_only_repackages (mlvl_feats : list tensor)
    (bev_embed query_embed : tensor) (bev_h bev_w : nat) (grid_length : grid_length_t)
    (bev_pos : option tensor) (reg_branches : pyobj) (prev_bev : option tensor)
    (gt_bboxes_3d : pyobj) (kwargs : kwargs_t pyobj) :
  forward rotate_values self mlvl_feats bev_embed query_embed bev_h bev_w grid_length
          bev_pos reg_branches prev_bev false gt_bboxes_3d kwargs
  = match forward rotate_values self mlvl_feats bev_embed query_embed bev_h bev_w
                  grid_length bev_pos reg_branches prev_bev true gt_bboxes_3d kwargs with
    | Ok (BevAndDecoded _ inter_states init_reference_out inter_references_out) =>
        Ok (Decoded inter_states init_reference_out inter_references_out)
    | other => other
    end.
Proof.
  unfold forward.
  destruct (encoder_inputs _ _ _ _ _ _ _ _ _ _ _) as [[call bs]|]; [|reflexivity].
  cbn [bind]. destruct (encoder self call) as [bev|]; [|reflexivity].
  cbn [bind]. destruct (only_encoder self); [reflexivity|].
  unfold decode.
  destruct (split2 query_embed (embed_dims self)) as [[query_pos query]|]; [|reflexivity].
  cbn [bind]. destruct (reference_points self _) as [ref|]; [|reflexivity].
  cbn [bind]. destruct (permute_checked bev [1; 0; 2]%nat) as [bev'|]; [|reflexivity].
  cbn [bind]. destruct (decoder self _) as [[states refs]|]; reflexivity.
Qed.

(** X25: the packed query embedding is checked only after the encoder has
    run.  For a two-dimensional [query_embed] with [w] columns, if
    [w <= embed_dims] or [w > 2 * embed_dims] the split does not give
    the two parts the unpacking needs: once the inputs of the encoder
    have been prepared and the encoder has returned, a module that is
    not [only_encoder] raises a [ValueError], while an [only_encoder]
    module returns the encoder's output and never looks at
    [query_embed]. *)
Theorem query_embed_width_checked_late (mlvl_feats : list tensor)
    (bev_embed query_embed : tensor) (bev_h bev_w : nat) (grid_length : grid_length_t)
    (bev_pos : option tensor) (reg_branches : pyobj) (prev_bev : option tensor)
    (return_bev : bool) (gt_bboxes_3d : pyobj) (kwargs : kwargs_t pyobj)
    (call : encoder_call pyobj) (bs nq w : nat) (bev : tensor) :
  (0 < embed_dims self)%nat ->
  shape query_embed = [nq; w] ->
  (w <= embed_dims self \/ 2 * embed_dims self < w)%nat ->
  encoder_inputs rotate_values self mlvl_feats bev_embed bev_h bev_w grid_length
                 bev_pos prev_bev gt_bboxes_3d kwargs = Ok (call, bs) ->
  encoder self call = Ok bev ->
  forward rotate_values self mlvl_feats bev_embed query_embed bev_h bev_w grid_length
          bev_pos reg_branches prev_bev return_bev gt_bboxes_3d kwargs
  = if only_encoder self then Ok (BevOnly bev) else Raise ValueError.
Proof.
  intros HE Hs Hw Hin Henc. unfold forward. rewrite Hin. cbn [bind].
  rewrite Henc. cbn [bind]. destruct (only_encoder self); [reflexivity|].
  unfold decode, split2. rewrite Hs.
  destruct (Nat.ltb_spec (embed_dims self) w), (Nat.leb_spec w (2 * embed_dims self));
    cbn [andb bind]; try reflexivity; lia.
Qed.

End DecodingHalf.

(** ** Reaching the encoder *)

Lemma read_ego_motion_ok (can_bus : list R) :
  (2 <= length can_bus)%nat -> exists ego, read_ego_motion can_bus = Ok ego.
Proof.
  intros Hlen. unfold read_ego_motion.
  change 0%Z with (Z.of_nat 0). change 1%Z with (Z.of_nat 1).
  change (-2)%Z with (- Z.of_nat 2)%Z. change (-1)%Z with (- Z.of_nat 1)%Z.
  rewrite !py_index_nat.
  rewrite (py_index_from_end can_bus 2 0), (py_index_from_end can_bus 1 0) by lia.
  destruct (Nat.leb_spec 2 (length can_bus)) as [_|C]; [|lia].
  destruct (Nat.leb_spec 1 (length can_bus)) as [_|C]; [|lia].
  destruct can_bus as [|x [|y rest]]; cbn [length] in Hlen; try lia.
  cbn [nth_error bind]. eexists. reflexivity.
Qed.

Lemma grid_lengths_ok (grid_length : grid_length_t) :
  match grid_length with
  | GridScalar _ => True
  | GridTuple g => (2 <= length g)%nat
  end ->
  exists gx gy, grid_lengths grid_length = Ok (gx, gy).
Proof.
  destruct grid_length as [g|g]; intros Hg.
  - exists g, g. reflexivity.
  - destruct g as [|y [|x rest]]; cbn [length] in Hg; try lia.
    exists x, y. unfold grid_lengths.
    change 0%Z with (Z.of_nat 0). change 1%Z with (Z.of_nat 1).
    rewrite !py_index_nat. reflexivity.
Qed.

Section ReachingTheEncoder.

Context {pyobj : Type}.
Variable rotate_values : tensor -> R -> option (list R) -> list nat -> R.

(** X26: inputs on which the first frame reaches the encoder.  For a
    module with the layers of [init_layers], [forward] prepares the call
    of the encoder without error when: there are between one and
    [num_feature_levels] feature levels, all of shape
    [(b, n, embed_dims, h_l, w_l)] (with [n = num_cams] if the camera
    embeddings are in use); the BEV queries have shape
    [(nq, embed_dims)]; [bev_pos] is four-dimensional; the first
    [img_metas] entry has an 18-entry [can_bus]; [grid_length] is a
    number or has two entries; and there is no previous state.  The
    encoder then gets queries of shape [(nq, b, embed_dims)], keys and
    values of shape [(n, sum of h_l * w_l, b, embed_dims)], the
    positional encoding in shape [(h * w, a, c)], the sizes
    [(h_l, w_l)], a two-entry shift and no previous state. *)
Theorem encoder_reached_on_first_frame (self : BEVTransformer pyobj) (v : layer_values)
    (mlvl_feats : list tensor) (bev_embed : tensor) (bev_h bev_w : nat)
    (grid_length : grid_length_t) (pos : tensor) (gt_bboxes_3d : pyobj)
    (kwargs : kwargs_t pyobj) (b n nq a c h w : nat) :
  mlvl_feats <> [] ->
  (length mlvl_feats <= num_feature_levels self)%nat ->
  Forall (fun feat => exists h w, shape feat = [b; n; embed_dims self; h; w]) mlvl_feats ->
  (use_cams_embeds self = true -> n = num_cams self) ->
  shape bev_embed = [nq; embed_dims self] ->
  shape pos = [a; c; h; w] ->
  match img_metas kwargs with
  | [] => False
  | meta0 :: _ => length (can_bus meta0) = 18%nat
  end ->
  match grid_length with
  | GridScalar _ => True
  | GridTuple g => (2 <= length g)%nat
  end ->
  exists call,
    encoder_inputs rotate_values (init_layers self v) mlvl_feats bev_embed bev_h bev_w
      grid_length (Some pos) None gt_bboxes_3d kwargs = Ok (call, b) /\
    shape (enc_query call) = [nq; b; embed_dims self] /\
    shape (enc_key call)
    = [n; total_tokens (map feat_hw mlvl_feats); b; embed_dims self] /\
    enc_value call = enc_key call /\
    shape (enc_bev_pos call) = [(h * w)%nat; a; c] /\
    enc_spatial_shapes call = as_long_tensor (map feat_hw mlvl_feats) /\
    enc_prev_bev call = None /\
    shape (enc_shift call) = [2%nat].
Proof.
  intros Hne Hlen Hall Hn Hbe Hpos Hmeta Hgrid.
  assert (tables_as_initialised (init_layers self v)) as Htab by (split; reflexivity).
  destruct (flatten_feats_well_formed (init_layers self v) Htab mlvl_feats b b n
              Hne Hlen Hall Hn) as (ff & Hflat & Hff).
  destruct mlvl_feats as [|feat0 rest]; [congruence|].
  assert (exists h0 w0, shape feat0 = [b; n; embed_dims self; h0; w0])
    as (h0 & w0 & Hs0) by (inversion Hall; assumption).
  destruct (img_metas kwargs) as [|meta0 metas] eqn:Hmetas; [contradiction|].
  destruct (read_ego_motion_ok (can_bus meta0) ltac:(lia)) as (ego & Hego).
  destruct (grid_lengths_ok grid_length Hgrid) as (gx & gy & Hg).
  assert (shape (repeat_t (unsqueeze bev_embed 1) [1; b; 1]%nat) = [nq; b; embed_dims self])
    as Hrep.
  { cbn [repeat_t unsqueeze shape]. rewrite Hbe. cbn [firstn skipn app map2].
    rewrite Nat.mul_1_l, Nat.mul_1_r, Nat.mul_1_l. reflexivity. }
  destruct (add_can_bus_initialised self v _ (can_bus meta0) nq b Hmeta Hrep)
    as (emb & q & _ & Hq & Hqs & _).
  unfold encoder_inputs. rewrite !py_index_0, Hmetas. cbn [nth_error bind].
  unfold size. rewrite Hs0. cbn [nth_error bind].
  assert (permute_checked (flatten pos 2) [2; 0; 1]%nat
          = Ok (permute (flatten pos 2) [2; 0; 1]%nat)) as ->.
  { unfold permute_checked, rank. cbn [flatten shape]. rewrite Hpos. reflexivity. }
  cbn [bind]. rewrite Hego. cbn [bind]. rewrite Hg. cbn [bind].
  destruct (compute_shift _ _ _ _ _ _ _ _) as [shift_x shift_y].
  cbn [align_prev_bev bind]. rewrite Hq. cbn [bind]. rewrite Hflat. cbn [bind].
  eexists. split; [reflexivity|].
  cbn [enc_query enc_key enc_value enc_bev_pos enc_spatial_shapes enc_prev_bev enc_shift].
  repeat split; try assumption.
  cbn [permute flatten shape map]. rewrite Hpos.
  cbn [firstn skipn app nth prod fold_right]. rewrite Nat.mul_1_r. reflexivity.
Qed.

End ReachingTheEncoder.

(** ** The further properties at concrete inputs *)

Lemma sigmoid_inverse_sigmoid_witness :
  0 < default_eps /\ default_eps <= 1 / 4 <= 1 - default_eps /\
  sigmoid (inverse_sigmoid (1 / 4) default_eps) = 1 / 4.
Proof.
  assert (0 < default_eps) as He by (unfold default_eps; lra).
  assert (default_eps <= 1 / 4 <= 1 - default_eps) as Hx by (unfold default_eps; lra).
  split; [exact He|]. split; [exact Hx|].
  exact (sigmoid_inverse_sigmoid (1 / 4) default_eps He Hx).
Defined.

Lemma inverse_sigmoid_saturates_witness :
  0 < default_eps <= 1 /\ -1 <= 0 /\ 1 <= 2 /\
  inverse_sigmoid (-1) default_eps = ln default_eps /\
  inverse_sigmoid 2 default_eps = - ln default_eps.
Proof.
  assert (0 < default_eps <= 1) as He by (unfold default_eps; lra).
  assert (-1 <= 0) as Hlo by lra.
  assert (1 <= 2) as Hhi by lra.
  split; [exact He|]. split; [exact Hlo|]. split; [exact Hhi|].
  split.
  - exact (proj1 (inverse_sigmoid_saturates (-1) default_eps He) Hlo).
  - exact (proj2 (inverse_sigmoid_saturates 2 default_eps He) Hhi).
Defined.

Lemma inverse_sigmoid_odd_witness :
  0 < default_eps /\
  inverse_sigmoid (1 - 1 / 4) default_eps = - inverse_sigmoid (1 / 4) default_eps.
Proof.
  assert (0 < default_eps) as He by (unfold default_eps; lra).
  split; [exact He|].
  exact (inverse_sigmoid_odd (1 / 4) default_eps He).
Defined.

Lemma inverse_sigmoid_monotone_witness :
  0 < default_eps /\ 1 / 4 <= 3 / 4 /\
  inverse_sigmoid (1 / 4) default_eps <= inverse_sigmoid (3 / 4) default_eps.
Proof.
  assert (0 < default_eps) as He by (unfold default_eps; lra).
  assert (1 / 4 <= 3 / 4) as Hxy by lra.
  split; [exact He|]. split; [exact Hxy|].
  exact (inverse_sigmoid_monotone (1 / 4) (3 / 4) default_eps He Hxy).
Defined.

Lemma ref_3d_closed_form_witness :
  exists t,
    get_reference_points 2 3 8 4 "3d" 1 = Some t /\
    ((0 < 1)%nat /\ (1 < 4)%nat /\ (1 < 2)%nat /\ (2 < 3)%nat) /\
    item t [0; 1; (1 * 3 + 2); 0]%nat = (INR 2 + 0.5) / INR 3 /\
    item t [0; 1; (1 * 3 + 2); 1]%nat = (INR 1 + 0.5) / INR 2 /\
    item t [0; 1; (1 * 3 + 2); 2]%nat
    = (if (4 =? 1)%nat then 0.5 else 0.5 + INR 1 * ((8 - 1) / (INR 4 - 1))) / 8.
Proof.
  assert (exists t, get_reference_points 2 3 8 4 "3d" 1 = Some t) as [t Ht]
    by (eexists; reflexivity).
  exists t. split; [exact Ht|]. split; [repeat split; lia|].
  apply (ref_3d_closed_form 2 3 4 1 8 t 0 1 1 2 Ht); lia.
Defined.

Lemma ref_2d_cells_distinct_witness :
  exists t,
    get_reference_points 2 3 8 4 "2d" 1 = Some t /\
    ((0 < 1)%nat /\ (4 < 2 * 3)%nat) /\
    item t [0; 4; 0; 0]%nat = item t [0; 4; 0; 0]%nat /\
    item t [0; 4; 0; 1]%nat = item t [0; 4; 0; 1]%nat /\
    4%nat = 4%nat.
Proof.
  assert (exists t, get_reference_points 2 3 8 4 "2d" 1 = Some t) as [t Ht]
    by (eexists; reflexivity).
  exists t. split; [exact Ht|]. split; [split; lia|].
  split; [reflexivity|]. split; [reflexivity|].
  apply (ref_2d_cells_distinct 2 3 1 8 4 t 0 4 4 Ht); try lia; reflexivity.
Defined.

Lemma ref_3d_depth_samples_witness :
  exists t,
    get_reference_points 2 3 8 4 "3d" 1 = Some t /\
    (0 < 8 /\ 1 < 8 /\ (0 < 1)%nat /\ (5 < 2 * 3)%nat /\ (0 < 4)%nat /\ (2 <= 4)%nat) /\
    item t [0; 0; 5; 2]%nat = 0.5 / 8 /\
    item t [0; (4 - 1); 5; 2]%nat = (8 - 0.5) / 8 /\
    item t [0; 1; 5; 2]%nat < item t [0; 2; 5; 2]%nat.
Proof.
  assert (exists t, get_reference_points 2 3 8 4 "3d" 1 = Some t) as [t Ht]
    by (eexists; reflexivity).
  assert (0 < 8) as HZ by lra.
  assert (1 < 8) as HZ1 by lra.
  destruct (ref_3d_depth_samples 2 3 4 1 8 t 0 5 Ht HZ ltac:(lia) ltac:(lia) ltac:(lia))
    as (Hfirst & Hlast & Hinc).
  exists t. split; [exact Ht|]. split; [repeat split; try lia; lra|].
  split; [exact Hfirst|]. split; [apply Hlast; lia|].
  apply (Hinc HZ1); lia.
Defined.

Lemma reference_points_same_for_every_batch_element_witness :
  exists t,
    get_reference_points 2 3 8 4 "3d" 2 = Some t /\ (1 < 2)%nat /\
    points_of t 1 = points_of t 0.
Proof.
  assert (exists t, get_reference_points 2 3 8 4 "3d" 2 = Some t) as [t Ht]
    by (eexists; reflexivity).
  exists t. split; [exact Ht|]. split; [lia|].
  apply (reference_points_same_for_every_batch_element 2 3 4 2 8 "3d" t 1 Ht). lia.
Defined.

Lemma shift_without_displacement_witness :
  0.512 <> 0 /\ (0 < 200)%nat /\
  compute_shift (PyBool true) 0 0 90 0.512 0.512 200 200 = (0, 0).
Proof.
  assert (0.512 <> 0) as Hg by lra.
  split; [exact Hg|]. split; [lia|].
  apply (shift_without_displacement (PyBool true) 90 0.512 0.512 200 200 Hg Hg); lia.
Defined.

Lemma shift_length_is_displacement_witness :
  truthy (PyStr "waymo_shift") = true /\ 0.512 <> 0 /\ (0 < 200)%nat /\
  let s := compute_shift (PyStr "waymo_shift") 3 4 90 0.512 0.512 200 200 in
  (fst s * 0.512 * INR 200) * (fst s * 0.512 * INR 200)
  + (snd s * 0.512 * INR 200) * (snd s * 0.512 * INR 200)
  = 3 * 3 + 4 * 4.
Proof.
  assert (0.512 <> 0) as Hg by lra.
  split; [reflexivity|]. split; [exact Hg|]. split; [lia|].
  apply (shift_length_is_displacement (PyStr "waymo_shift") 3 4 90 0.512 0.512 200 200
           eq_refl Hg Hg); lia.
Defined.

Lemma read_ego_motion_slots_witness :
  (length [1] < 2)%nat /\ (2 <= length [3; 4; 0; 5; 6])%nat /\
  read_ego_motion [1] = Raise IndexError /\
  read_ego_motion [3; 4; 0; 5; 6]
  = Ok {| delta_x := 3; delta_y := 4; ego_angle := 5 / PI * 180; rotation_angle := 6 |}.
Proof.
  assert (length [1] < 2)%nat as Hshort by (cbn; lia).
  assert (2 <= length [3; 4; 0; 5; 6])%nat as Hlong by (cbn; lia).
  split; [exact Hshort|]. split; [exact Hlong|]. split.
  - exact (proj1 (read_ego_motion_slots [1]) Hshort).
  - exact (proj2 (read_ego_motion_slots [3; 4; 0; 5; 6]) Hlong).
Defined.

Lemma forward_missing_inputs_witness :
  let self := demo_module (PyBool true) (PyBool true) true in
  let feat := zeros [1; 1; 2; 1; 1]%nat in
  shape feat <> [] /\ length (shape (zeros [4; 2]%nat)) = 2%nat /\
  forward demo_rotate_values self [] (zeros [4; 2]%nat) (zeros [3; 4]%nat) 2 2
    (GridScalar 0.512) (Some (zeros [1; 2; 2; 2]%nat)) tt None false tt
    (demo_kwargs [demo_can_bus]) = Raise IndexError /\
  forward demo_rotate_values self [feat] (zeros [4; 2]%nat) (zeros [3; 4]%nat) 2 2
    (GridScalar 0.512) None tt None false tt (demo_kwargs [demo_can_bus])
  = Raise AttributeError.
Proof.
  intros self feat.
  assert (shape feat <> []) as Hs by discriminate.
  destruct (forward_missing_inputs demo_rotate_values self [feat] (zeros [4; 2]%nat)
              (zeros [3; 4]%nat) 2 2 (GridScalar 0.512) (Some (zeros [1; 2; 2; 2]%nat))
              tt None false tt (demo_kwargs [demo_can_bus])) as [Hempty Hpos].
  split; [exact Hs|]. split; [reflexivity|]. split; [exact Hempty|].
  exact (Hpos feat [] eq_refl Hs eq_refl).
Defined.

Lemma forward_needs_ego_motion_witness :
  (length [1] < 2)%nat /\
  raises (demo_forward (demo_module (PyBool true) (PyBool true) true) None
            (demo_kwargs [[1]])) = true.
Proof.
  assert (length [1] < 2)%nat as Hshort by (cbn; lia).
  split; [exact Hshort|].
  apply (forward_needs_ego_motion demo_rotate_values
           (demo_module (PyBool true) (PyBool true) true)
           [zeros [1; 1; 2; 1; 1]%nat] (zeros [4; 2]%nat) (zeros [3; 4]%nat) 2 2
           (GridScalar 0.512) (Some (zeros [1; 2; 2; 2]%nat)) tt None false tt
           (demo_kwargs [[1]])).
  exact Hshort.
Defined.

Lemma align_prev_bev_keeps_layout_witness :
  ((0 < 2 * 2)%nat /\ (0 < 1)%nat) /\
  shape (zeros [1; 4; 2]%nat) = [1; (2 * 2); 2]%nat /\
  exists p,
    align_prev_bev demo_rotate_values (PyStr "waymo_rotate") 2 2 30
      (Some (zeros [1; 4; 2]%nat)) = Ok (Some p) /\
    shape p = [(2 * 2); 1; 2]%nat.
Proof.
  split; [split; lia|]. split; [reflexivity|].
  apply (align_prev_bev_keeps_layout demo_rotate_values (PyStr "waymo_rotate") 2 2 1 2 30
           (zeros [1; 4; 2]%nat)); [lia|lia|].
  right. reflexivity.
Defined.

Lemma flatten_feats_items_with_cams_witness :
  let self := demo_module (PyBool true) (PyBool true) true in
  let feat := mkT [1; 1; 2; 1; 1]%nat (fun idx => INR (nth 2 idx 0%nat)) in
  tables_as_initialised self /\ use_cams_embeds self = true /\
  (length [feat] <= num_feature_levels self)%nat /\
  exists feat_flatten spatial_shapes bs',
    flatten_feats self [feat] 1 = Ok (feat_flatten, spatial_shapes, bs') /\
    item (permute feat_flatten [0; 2; 1; 3]%nat) [0; 0; 0; 1]%nat
    = item feat [0; 0; 1; 0; 0]%nat + item (cams_embeds self) [0; 1]%nat
      + item (level_embeds self) [0; 1]%nat.
Proof.
  intros self feat.
  assert (tables_as_initialised self) as Htab by (split; reflexivity).
  assert (length [feat] <= num_feature_levels self)%nat as Hlen by (cbn; lia).
  split; [exact Htab|]. split; [reflexivity|]. split; [exact Hlen|].
  destruct (flatten_feats self [feat] 1) as [[[ff ss] bs']|e] eqn:Hflat;
    [|discriminate Hflat].
  exists ff, ss, bs'. split; [reflexivity|].
  apply (flatten_feats_items_with_cams self Htab [feat] 1 ff ss bs' eq_refl Hlen Hflat
           0%nat feat 1%nat 1%nat 1%nat eq_refl eq_refl 0%nat 0%nat 0%nat 1%nat);
    cbn; lia.
Defined.

Lemma flatten_feats_one_batch_size_witness :
  let self := demo_module (PyBool true) (PyBool true) true in
  let feats := [zeros [3; 1; 2; 4; 4]%nat; zeros [3; 1; 2; 2; 2]%nat] in
  tables_as_initialised self /\ (length feats <= num_feature_levels self)%nat /\
  exists feat_flatten spatial_shapes bs',
    flatten_feats self feats 7 = Ok (feat_flatten, spatial_shapes, bs') /\
    Forall (fun feat => nth 0 (shape feat) 0%nat = bs') feats /\
    nth 2 (shape (permute feat_flatten [0; 2; 1; 3]%nat)) 0%nat = bs'.
Proof.
  intros self feats.
  assert (tables_as_initialised self) as Htab by (split; reflexivity).
  assert (length feats <= num_feature_levels self)%nat as Hlen by (cbn; lia).
  split; [exact Htab|]. split; [exact Hlen|].
  destruct (flatten_feats self feats 7) as [[[ff ss] bs']|e] eqn:Hflat;
    [|discriminate Hflat].
  exists ff, ss, bs'. split; [reflexivity|].
  exact (flatten_feats_one_batch_size self Htab feats 7 ff ss bs' Hlen Hflat).
Defined.

Lemma flatten_feats_too_many_levels_witness :
  let self := demo_module (PyBool true) (PyBool true) true in
  let feats := [zeros [1; 1; 2; 2; 2]%nat; zeros [1; 1; 2; 1; 2]%nat;
                zeros [1; 1; 2; 1; 2]%nat] in
  tables_as_initialised self /\ (num_feature_levels self < length feats)%nat /\
  flatten_feats self feats 1 = Raise RuntimeError.
Proof.
  intros self feats.
  assert (tables_as_initialised self) as Htab by (split; reflexivity).
  assert (num_feature_levels self < length feats)%nat as Hlen by (cbn; lia).
  split; [exact Htab|]. split; [exact Hlen|].
  apply (flatten_feats_too_many_levels self Htab feats 1 Hlen).
  repeat (constructor; [do 5 eexists; split; [reflexivity|cbn; lia]|]).
  constructor.
Defined.

Lemma can_bus_needs_18_entries_witness :
  length [3; 4; 5; 6] <> 18%nat /\
  add_can_bus (init_layers (with_can_bus (demo_module (PyBool true) (PyBool true) true)
                              false true) ones_values)
    (zeros [4; 1; 2]%nat) [3; 4; 5; 6] = Raise RuntimeError.
Proof.
  assert (length [3; 4; 5; 6] <> 18%nat) as Hlen by (cbn; lia).
  split; [exact Hlen|].
  exact (can_bus_needs_18_entries _ ones_values (zeros [4; 1; 2]%nat) [3; 4; 5; 6] Hlen).
Defined.

Lemma can_bus_off_keeps_queries_witness :
  let self := with_can_bus (demo_module (PyBool true) (PyBool true) true) false true in
  let bev_embed := mkT [4; 1; 2]%nat (fun idx => INR (nth 0 idx 0%nat)) in
  use_can_bus self = false /\ length demo_can_bus = 18%nat /\
  shape bev_embed = [4; 1; embed_dims self]%nat /\
  exists q,
    add_can_bus (init_layers self ones_values) bev_embed demo_can_bus = Ok q /\
    shape q = [4; 1; embed_dims self]%nat /\
    forall i b e, (i < 4)%nat -> (b < 1)%nat -> (e < embed_dims self)%nat ->
      item q [i; b; e] = item bev_embed [i; b; e].
Proof.
  intros self bev_embed.
  split; [reflexivity|]. split; [reflexivity|]. split; [reflexivity|].
  exact (can_bus_off_keeps_queries self ones_values bev_embed demo_can_bus 4 1
           eq_refl eq_refl eq_refl).
Defined.

Lemma can_bus_without_norm_raises_queries_witness :
  let self := with_can_bus (demo_module (PyBool true) (PyBool true) true) true false in
  let bev_embed := mkT [4; 1; 2]%nat (fun idx => INR (nth 0 idx 0%nat)) in
  can_bus_norm self = false /\ length demo_can_bus = 18%nat /\
  shape bev_embed = [4; 1; embed_dims self]%nat /\
  exists q,
    add_can_bus (init_layers self ones_values) bev_embed demo_can_bus = Ok q /\
    forall i b e, (i < 4)%nat -> (b < 1)%nat -> (e < embed_dims self)%nat ->
      item bev_embed [i; b; e] <= item q [i; b; e].
Proof.
  intros self bev_embed.
  split; [reflexivity|]. split; [reflexivity|]. split; [reflexivity|].
  exact (can_bus_without_norm_raises_queries self ones_values bev_embed demo_can_bus 4 1
           eq_refl eq_refl eq_refl).
Defined.

Lemma init_reference_points_of_queries_witness :
  let self := demo_module (PyBool true) (PyBool true) true in
  let query_embed := mkT [3; 4]%nat (fun idx => INR (nth 1 idx 0%nat)) in
  shape query_embed = [3; 4]%nat /\
  exists out init,
    decode (init_layers self ones_values) (zeros [4; 1; 2]%nat) query_embed 2 2 1 tt
      false (demo_kwargs [demo_can_bus]) = Ok out /\
    init_reference_of out = Some init /\
    shape init = [1; 3; 3]%nat /\
    forall b q k, (b < 1)%nat -> (q < 3)%nat -> (k < 3)%nat ->
      item init [b; q; k]
      = sigmoid (sum_below (embed_dims self)
                   (fun j => item query_embed [q; j]
                             * reference_points_weight ones_values [k; j])
                 + reference_points_bias ones_values [k]) /\
      0 <= item init [b; q; k] <= 1.
Proof.
  intros self query_embed. split; [reflexivity|].
  assert (exists out,
            decode (init_layers self ones_values) (zeros [4; 1; 2]%nat) query_embed 2 2 1 tt
              false (demo_kwargs [demo_can_bus]) = Ok out) as [out Hout]
    by (eexists; reflexivity).
  destruct (init_reference_points_of_queries self ones_values (zeros [4; 1; 2]%nat)
              query_embed 2 2 1 tt false (demo_kwargs [demo_can_bus]) out 3 4
              eq_refl Hout) as (init & Hinit & Hshape & Hitems).
  exists out, init. split; [exact Hout|]. split; [exact Hinit|].
  split; [exact Hshape|exact Hitems].
Defined.

Lemma query_embed_width_checked_late_witness :
  let self := demo_module (PyBool true) (PyBool true) true in
  let query_embed := zeros [3; 5]%nat in
  (0 < embed_dims self)%nat /\ shape query_embed = [3; 5]%nat /\
  (2 * embed_dims self < 5)%nat /\
  exists call bs bev,
    encoder_inputs demo_rotate_values self [zeros [1; 1; 2; 1; 1]%nat] (zeros [4; 2]%nat)
      2 2 (GridScalar 0.512) (Some (zeros [1; 2; 2; 2]%nat)) None tt
      (demo_kwargs [demo_can_bus]) = Ok (call, bs) /\
    encoder self call = Ok bev /\
    forward demo_rotate_values self [zeros [1; 1; 2; 1; 1]%nat] (zeros [4; 2]%nat)
      query_embed 2 2 (GridScalar 0.512) (Some (zeros [1; 2; 2; 2]%nat)) tt None false tt
      (demo_kwargs [demo_can_bus])
    = if only_encoder self then Ok (BevOnly bev) else Raise ValueError.
Proof.
  intros self query_embed.
  assert (0 < embed_dims self)%nat as HE by (cbn; lia).
  assert (2 * embed_dims self < 5)%nat as Hw by (cbn; lia).
  split; [exact HE|]. split; [reflexivity|]. split; [exact Hw|].
  assert (exists call bs bev,
            encoder_inputs demo_rotate_values self [zeros [1; 1; 2; 1; 1]%nat]
              (zeros [4; 2]%nat) 2 2 (GridScalar 0.512) (Some (zeros [1; 2; 2; 2]%nat))
              None tt (demo_kwargs [demo_can_bus]) = Ok (call, bs) /\
            encoder self call = Ok bev) as (call & bs & bev & Hin & Henc)
    by (do 3 eexists; split; reflexivity).
  exists call, bs, bev. split; [exact Hin|]. split; [exact Henc|].
  exact (query_embed_width_checked_late demo_rotate_values self
           [zeros [1; 1; 2; 1; 1]%nat] (zeros [4; 2]%nat) query_embed 2 2
           (GridScalar 0.512) (Some (zeros [1; 2; 2; 2]%nat)) tt None false tt
           (demo_kwargs [demo_can_bus]) call bs 3 5 bev HE eq_refl (or_intror Hw)
           Hin Henc).
Defined.

Lemma encoder_reached_on_first_frame_witness :
  let self := demo_module (PyBool true) (PyBool true) true in
  let feats := [zeros [3; 1; 2; 4; 4]%nat; zeros [3; 1; 2; 2; 2]%nat] in
  let pos := zeros [3; 2; 2; 2]%nat in
  (feats <> [] /\ (length feats <= num_feature_levels self)%nat /\
   shape (zeros [4; 2]%nat) = [4; embed_dims self]%nat /\ shape pos = [3; 2; 2; 2]%nat /\
   length demo_can_bus = 18%nat) /\
  exists call,
    encoder_inputs demo_rotate_values (init_layers self ones_values) feats
      (zeros [4; 2]%nat) 2 2 (GridScalar 0.512) (Some pos) None tt
      (demo_kwargs [demo_can_bus]) = Ok (call, 3%nat) /\
    shape (enc_query call) = [4; 3; embed_dims self]%nat /\
    shape (enc_key call)
    = [1%nat; total_tokens (map feat_hw feats); 3%nat; embed_dims self] /\
    enc_value call = enc_key call /\
    shape (enc_bev_pos call) = [(2 * 2); 3; 2]%nat /\
    enc_spatial_shapes call = as_long_tensor (map feat_hw feats) /\
    enc_prev_bev call = None /\
    shape (enc_shift call) = [2%nat].
Proof.
  intros self feats pos.
  assert (feats <> []) as Hne by discriminate.
  assert (length feats <= num_feature_levels self)%nat as Hlen by (cbn; lia).
  split; [repeat split; try reflexivity; assumption|].
  apply (encoder_reached_on_first_frame demo_rotate_values self ones_values feats
           (zeros [4; 2]%nat) 2 2 (GridScalar 0.512) pos tt (demo_kwargs [demo_can_bus])
           3 1 4 3 2 2 2 Hne Hlen).
  - repeat (constructor; [do 2 eexists; reflexivity|]). constructor.
  - intros _. reflexivity.
  - reflexivity.
  - reflexivity.
  - reflexivity.
  - exact I.
Defined.
